(** * Simple Document Sign: placement, export and render control

    A shallow embedding of the TypeScript sources of the application
    (App.tsx, components/DocumentViewer.tsx, components/FileUpload.tsx,
    components/SignatureModal.tsx) and the properties of its
    specification that were checked against that code.

    Numbers.  A JavaScript number is modelled by [JS.num]: a finite value
    is an exact rational, and the three special values NaN, +Infinity and
    -Infinity follow the ECMAScript rules for arithmetic, comparison,
    [Math.min] and [Math.max].  Rounding of binary64 results and the sign
    of zero are not modelled; a non-zero number divided by zero gives the
    infinity that carries the sign of the dividend, as it does for +0. *)

From Stdlib Require Import QArith Qcanon Lqa Lia ZArith List String Ascii Bool Setoid Permutation.
Import ListNotations.

(* ------------------------------------------------------------------ *)
(** ** JavaScript numbers *)

Module JS.

Inductive num : Type :=
| Fin (q : Qc)
| PInf
| NInf
| NaN.

(** A numeric literal of the source. *)
Definition lit (q : Q) : num := Fin (Q2Qc q).

Definition is_finite (a : num) : bool :=
  match a with Fin _ => true | _ => false end.

Definition is_nan (a : num) : bool :=
  match a with NaN => true | _ => false end.

(** The infinity selected by the sign of a finite factor; a zero factor
    gives NaN (0 * Infinity, 0 / 0). *)
Definition signed_inf (c : comparison) : num :=
  match c with Gt => PInf | Lt => NInf | Eq => NaN end.

Definition neg (a : num) : num :=
  match a with
  | Fin x => Fin (- x)%Qc
  | PInf => NInf
  | NInf => PInf
  | NaN => NaN
  end.

Definition add (a b : num) : num :=
  match a, b with
  | NaN, _ | _, NaN => NaN
  | Fin x, Fin y => Fin (x + y)%Qc
  | PInf, NInf | NInf, PInf => NaN
  | PInf, _ | _, PInf => PInf
  | NInf, _ | _, NInf => NInf
  end.

Definition sub (a b : num) : num := add a (neg b).

Definition mul (a b : num) : num :=
  match a, b with
  | NaN, _ | _, NaN => NaN
  | Fin x, Fin y => Fin (x * y)%Qc
  | Fin x, PInf | PInf, Fin x => signed_inf (x ?= 0)%Qc
  | Fin x, NInf | NInf, Fin x => signed_inf (0 ?= x)%Qc
  | PInf, PInf | NInf, NInf => PInf
  | PInf, NInf | NInf, PInf => NInf
  end.

Definition div (a b : num) : num :=
  match a, b with
  | NaN, _ | _, NaN => NaN
  | Fin x, Fin y =>
      match (y ?= 0)%Qc with
      | Eq => signed_inf (x ?= 0)%Qc
      | _ => Fin (x / y)%Qc
      end
  | Fin _, _ => Fin 0%Qc
  | PInf, Fin y => match (y ?= 0)%Qc with Lt => NInf | _ => PInf end
  | NInf, Fin y => match (y ?= 0)%Qc with Lt => PInf | _ => NInf end
  | _, _ => NaN
  end.

(** [a < b]; false as soon as an operand is NaN. *)
Definition ltb (a b : num) : bool :=
  match a, b with
  | NaN, _ | _, NaN => false
  | Fin x, Fin y => match (x ?= y)%Qc with Lt => true | _ => false end
  | NInf, NInf | PInf, _ | _, NInf => false
  | _, _ => true
  end.

(** [a <= b]. *)
Definition leb (a b : num) : bool :=
  match a, b with
  | NaN, _ | _, NaN => false
  | Fin x, Fin y => match (x ?= y)%Qc with Gt => false | _ => true end
  | NInf, _ | _, PInf => true
  | _, _ => false
  end.

(** [Math.min] and [Math.max] of two arguments: NaN when either is NaN. *)
Definition Math_min (a b : num) : num :=
  match a, b with
  | NaN, _ | _, NaN => NaN
  | _, _ => if ltb b a then b else a
  end.

Definition Math_max (a b : num) : num :=
  match a, b with
  | NaN, _ | _, NaN => NaN
  | _, _ => if ltb a b then b else a
  end.

(** Decidable equality of numbers, by comparison of the rationals. *)
Definition eqb (a b : num) : bool :=
  match a, b with
  | Fin x, Fin y => Qc_eq_bool x y
  | PInf, PInf | NInf, NInf | NaN, NaN => true
  | _, _ => false
  end.

(** [lo <= a <= hi] as a test; a NaN is in no interval. *)
Definition in_range (lo hi a : num) : bool := leb lo a && leb a hi.

(** [Math.PI], the binary64 value 884279719003555 / 2^48. *)
Definition Math_PI : num := lit (884279719003555 # 281474976710656).

End JS.

Declare Scope js_scope.
Delimit Scope js_scope with js.
Bind Scope js_scope with JS.num.
Infix "+" := JS.add : js_scope.
Infix "-" := JS.sub : js_scope.
Infix "*" := JS.mul : js_scope.
Infix "/" := JS.div : js_scope.
Notation "- x" := (JS.neg x) : js_scope.

(* ------------------------------------------------------------------ *)
(** ** Strings and arrays as the sources use them *)

Module Str.

(** [s.split(sep)] for a one-character separator: the segments between
    the separators, never an empty array. *)
Fixpoint split (sep : ascii) (s : string) : list string :=
  match s with
  | EmptyString => [EmptyString]
  | String c r =>
      if Ascii.eqb c sep then EmptyString :: split sep r
      else match split sep r with
           | h :: t => String c h :: t
           | [] => [String c EmptyString]
           end
  end.

(** [a.pop()]: the last element, [undefined] (None) on an empty array. *)
Fixpoint pop {A} (a : list A) : option A :=
  match a with
  | [] => None
  | [v] => Some v
  | _ :: r => pop r
  end.

Definition lower_ascii (c : ascii) : ascii :=
  let n := nat_of_ascii c in
  if (65 <=? n)%nat && (n <=? 90)%nat then ascii_of_nat (n + 32) else c.

(** [s.toLowerCase()] on the ASCII letters; the allowed extensions are
    ASCII, and no other character lowers to one of their letters. *)
Fixpoint toLowerCase (s : string) : string :=
  match s with
  | EmptyString => EmptyString
  | String c r => String (lower_ascii c) (toLowerCase r)
  end.

(** [a.includes(v)] on an array of strings. *)
Definition includes (a : list string) (v : string) : bool :=
  existsb (String.eqb v) a.

(** [s.slice(0, -k)]: the string without its last [k] characters. *)
Definition slice_0_neg (s : string) (k : nat) : string :=
  substring 0 (String.length s - k) s.

(** [a[i]] for a number [i] that holds an integer: [undefined] outside
    of [0 .. length-1], also for a negative index. *)
Definition index {A} (a : list A) (i : Z) : option A :=
  if (i <? 0)%Z then None else nth_error a (Z.to_nat i).

End Str.

(* ------------------------------------------------------------------ *)
(** ** components/FileUpload.tsx *)

Record File : Type := mkFile { name : string; type : string }.

Module FileUpload.

Definition ALLOWED_MIME_TYPES : list string :=
  [ "application/pdf";
    "application/msword";
    "application/vnd.openxmlformats-officedocument.wordprocessingml.document";
    "application/vnd.ms-excel";
    "application/vnd.openxmlformats-officedocument.spreadsheetml.sheet";
    "text/csv" ]%string.

Definition ALLOWED_EXTENSIONS : list string :=
  [ ".pdf"; ".doc"; ".docx"; ".xls"; ".xlsx"; ".csv" ]%string.

(** The template [`.${file.name.split('.').pop()?.toLowerCase()}`]. *)
Definition fileExtension (file : File) : string :=
  match Str.pop (Str.split "." (name file)) with
  | Some seg => ("." ++ Str.toLowerCase seg)%string
  | None => ".undefined"%string
  end.

(** [validateFile]: [None] is the [null] of a valid file, [Some msg] the
    error text. *)
Definition validateFile (file : File) : option string :=
  if Str.includes ALLOWED_MIME_TYPES (type file)
     || Str.includes ALLOWED_EXTENSIONS (fileExtension file)
  then None
  else Some "Unsupported file type. Please upload a PDF, Word, Excel, or CSV file."%string.

(** The extension of a file name in the usual sense, for comparison with
    [fileExtension]: the part of the name from its last dot on, and none
    when the name has no dot. *)
Fixpoint filename_extension (s : string) : option string :=
  match s with
  | EmptyString => None
  | String c r =>
      match filename_extension r with
      | Some e => Some e
      | None => if Ascii.eqb c "." then Some s else None
      end
  end.

(** Acceptance as the specification words it: the declared MIME type is
    allowed, or the file name has an extension whose lower-case form is
    allowed. *)
Definition accepted_by_type_or_extension (file : File) : Prop :=
  In (type file) ALLOWED_MIME_TYPES \/
  exists e, filename_extension (name file) = Some e /\
            In (Str.toLowerCase e) ALLOWED_EXTENSIONS.

End FileUpload.

(* ------------------------------------------------------------------ *)
(** ** App.tsx: session state and its handlers *)

Record Position : Type := mkPosition { x : JS.num; y : JS.num }.

(** [width]/[height] of a PDF page ([getSize]) or of a decoded image. *)
Record Size : Type := mkSize { width : JS.num; height : JS.num }.

Module App.

(** The [useState] cells of [App].  [signature] is the data URL, [None]
    for [null]; [pageNum] only ever receives integers. *)
Record State : Type := mkState {
  file : option File;
  signature : option string;
  isModalOpen : bool;
  isDownloading : bool;
  signatureSize : JS.num;
  signatureRotation : JS.num;
  signaturePosition : Position;
  pageNum : Z
}.

Definition initial : State :=
  {| file := None; signature := None; isModalOpen := false;
     isDownloading := false;
     signatureSize := JS.lit 150; signatureRotation := JS.lit 0;
     signaturePosition := {| x := JS.lit 0.85; y := JS.lit 0.8 |};
     pageNum := 1 |}.

Definition setFile (v : option File) (s : State) : State :=
  {| file := v; signature := signature s; isModalOpen := isModalOpen s;
     isDownloading := isDownloading s; signatureSize := signatureSize s;
     signatureRotation := signatureRotation s;
     signaturePosition := signaturePosition s; pageNum := pageNum s |}.

Definition setSignature (v : option string) (s : State) : State :=
  {| file := file s; signature := v; isModalOpen := isModalOpen s;
     isDownloading := isDownloading s; signatureSize := signatureSize s;
     signatureRotation := signatureRotation s;
     signaturePosition := signaturePosition s; pageNum := pageNum s |}.

Definition setIsModalOpen (v : bool) (s : State) : State :=
  {| file := file s; signature := signature s; isModalOpen := v;
     isDownloading := isDownloading s; signatureSize := signatureSize s;
     signatureRotation := signatureRotation s;
     signaturePosition := signaturePosition s; pageNum := pageNum s |}.

Definition setIsDownloading (v : bool) (s : State) : State :=
  {| file := file s; signature := signature s; isModalOpen := isModalOpen s;
     isDownloading := v; signatureSize := signatureSize s;
     signatureRotation := signatureRotation s;
     signaturePosition := signaturePosition s; pageNum := pageNum s |}.

Definition setSignatureSize (v : JS.num) (s : State) : State :=
  {| file := file s; signature := signature s; isModalOpen := isModalOpen s;
     isDownloading := isDownloading s; signatureSize := v;
     signatureRotation := signatureRotation s;
     signaturePosition := signaturePosition s; pageNum := pageNum s |}.

Definition setSignatureRotation (v : JS.num) (s : State) : State :=
  {| file := file s; signature := signature s; isModalOpen := isModalOpen s;
     isDownloading := isDownloading s; signatureSize := signatureSize s;
     signatureRotation := v;
     signaturePosition := signaturePosition s; pageNum := pageNum s |}.

Definition setSignaturePosition (v : Position) (s : State) : State :=
  {| file := file s; signature := signature s; isModalOpen := isModalOpen s;
     isDownloading := isDownloading s; signatureSize := signatureSize s;
     signatureRotation := signatureRotation s;
     signaturePosition := v; pageNum := pageNum s |}.

Definition setPageNum (v : Z) (s : State) : State :=
  {| file := file s; signature := signature s; isModalOpen := isModalOpen s;
     isDownloading := isDownloading s; signatureSize := signatureSize s;
     signatureRotation := signatureRotation s;
     signaturePosition := signaturePosition s; pageNum := v |}.

Definition handleFileSelect (selectedFile : File) (s : State) : State :=
  setPageNum 1 (setSignature None (setFile (Some selectedFile) s)).

Definition handleSaveSignature (signatureDataUrl : string) (s : State) : State :=
  setIsModalOpen false (setSignature (Some signatureDataUrl) s).

Definition handleReset (s : State) : State :=
  setPageNum 1
    (setSignaturePosition {| x := JS.lit 0.85; y := JS.lit 0.8 |}
      (setSignatureRotation (JS.lit 0)
        (setSignatureSize (JS.lit 150)
          (setIsModalOpen false (setSignature None (setFile None s)))))).

(** The callback [() => setSignature(null)] handed to the viewer. *)
Definition onRemoveSignature (s : State) : State := setSignature None s.

(** The placement part of the state: position, size and rotation. *)
Definition placement (s : State) : Position * JS.num * JS.num :=
  (signaturePosition s, signatureSize s, signatureRotation s).

(** The placement of a fresh session. *)
Definition default_placement : Position * JS.num * JS.num :=
  ({| x := JS.lit 0.85; y := JS.lit 0.8 |}, JS.lit 150, JS.lit 0).

(** Every operation of [App] on its state apart from the download. *)
Inductive Op : Type :=
| FileSelect (f : File)
| SaveSignature (url : string)
| Reset
| RemoveSignature
| OpenModal
| CloseModal
| SizeChange (v : JS.num)
| RotationChange (v : JS.num)
| PositionChange (v : Position)
| PageNumChange (v : Z).

Definition apply (o : Op) (s : State) : State :=
  match o with
  | FileSelect f => handleFileSelect f s
  | SaveSignature url => handleSaveSignature url s
  | Reset => handleReset s
  | RemoveSignature => onRemoveSignature s
  | OpenModal => setIsModalOpen true s
  | CloseModal => setIsModalOpen false s
  | SizeChange v => setSignatureSize v s
  | RotationChange v => setSignatureRotation v s
  | PositionChange v => setSignaturePosition v s
  | PageNumChange v => setPageNum v s
  end.

End App.

(* ------------------------------------------------------------------ *)
(** ** App.tsx: [handleDownload] *)

Module ExportDoc.

(** Calls on the 2D context of the output canvas, in the order made.
    The style setters ([fillStyle], [font], ...) carry no geometry and
    are left out. *)
Inductive CanvasCmd : Type :=
| fillRect (x y w h : JS.num)
| strokeRect (x y w h : JS.num)
| fillText (text : string) (x y : JS.num)
| save
| translate (x y : JS.num)
| rotate (angle : JS.num)
| drawImage (dx dy dw dh : JS.num)
| restore.

Inductive Kind : Type := PdfBlob | PngDataUrl.

(** What a run of [handleDownload] does to the outside. *)
Inductive Effect : Type :=
| SetIsDownloading (b : bool)
| PdfDrawImage (page : nat) (x y width height rotate : JS.num)
| Canvas (c : CanvasCmd)
| Download (filename : string) (kind : Kind)
| ConsoleError
| Alert.

(** The answers of the collaborators during one run: [false] or [None]
    is a rejected promise or a thrown error, except for [getContext_2d]
    (a [null] context) and [img_onload] (the load event never fires). *)
Record World : Type := mkWorld {
  import_pdf_lib : bool;
  file_arrayBuffer : bool;
  PDFDocument_load : option (list Size);
  fetch_signature : bool;
  embedPng : option Size;
  pdfDoc_save : bool;
  getContext_2d : bool;
  img_onload : option Size;
  toDataURL : bool;
  now : string
}.

(** The body of the [try] block: effects so far, and how it ended. *)
Inductive Res (A : Type) : Type :=
| Val (a : A)
| Thrown
| Returned
| Waiting.
Arguments Val {A} a.
Arguments Thrown {A}.
Arguments Returned {A}.
Arguments Waiting {A}.

Definition M (A : Type) : Type := (list Effect * Res A)%type.

Definition ret {A} (a : A) : M A := ([], Val a).

Definition bind {A B} (m : M A) (k : A -> M B) : M B :=
  match m with
  | (l, Val a) => let (l', r) := k a in (l ++ l', r)
  | (l, Thrown) => (l, Thrown)
  | (l, Returned) => (l, Returned)
  | (l, Waiting) => (l, Waiting)
  end.

Definition emit (e : Effect) : M unit := ([e], Val tt).
Definition throw {A} : M A := ([], Thrown).
Definition return_ {A} : M A := ([], Returned).

(** [await p] for a promise that resolves with [v] or rejects. *)
Definition await {A} (p : option A) : M A :=
  match p with Some v => ret v | None => throw end.

Definition await_ok (p : bool) : M unit :=
  if p then ret tt else throw.

Notation "x <- m ;; k" := (bind m (fun x => k))
  (at level 61, m at next level, right associativity).
Notation "m ;;; k" := (bind m (fun _ => k))
  (at level 61, right associativity).

(** [pages[pageNum - 1] || pages[0]], with the index of the page chosen. *)
Definition targetPage (pages : list Size) (pageNum : Z) : option (nat * Size) :=
  match Str.index pages (pageNum - 1) with
  | Some p => Some (Z.to_nat (pageNum - 1), p)
  | None =>
      match Str.index pages 0 with
      | Some p => Some (0%nat, p)
      | None => None
      end
  end.

(** pdf-lib checks the numbers it is handed, [degrees] its angle and
    [drawImage] the options x, y, width and height: a NaN among them
    fails the check, and the statement [targetPage.drawImage(...)]
    throws. *)
Definition drawImage_throws (x y width height rotate : JS.num) : bool :=
  JS.is_nan x || JS.is_nan y || JS.is_nan width || JS.is_nan height
  || JS.is_nan rotate.

(** [PdfDrawImage] records the statement [targetPage.drawImage(...)]
    with the values of its options, also when it then throws. *)
Definition exportPdf (s : App.State) (f : File) (w : World) : M unit :=
  await_ok (import_pdf_lib w) ;;;
  await_ok (file_arrayBuffer w) ;;;
  pages <- await (PDFDocument_load w) ;;
  await_ok (fetch_signature w) ;;;
  pngImage <- await (embedPng w) ;;
  match targetPage pages (App.pageNum s) with
  | None => throw
  | Some (i, page) =>
      let pageWidth := width page in
      let pageHeight := height page in
      let sigWidth := App.signatureSize s in
      let sigHeight := (height pngImage / width pngImage * sigWidth)%js in
      let x := (x (App.signaturePosition s) * pageWidth - sigWidth / JS.lit 2)%js in
      let y := ((JS.lit 1 - y (App.signaturePosition s)) * pageHeight
                - sigHeight / JS.lit 2)%js in
      emit (PdfDrawImage i x y sigWidth sigHeight (App.signatureRotation s)) ;;;
      (if drawImage_throws x y sigWidth sigHeight (App.signatureRotation s)
       then throw else ret tt) ;;;
      await_ok (pdfDoc_save w) ;;;
      emit (Download ("signed-" ++ name f) PdfBlob)
  end.

Definition canvas_width : JS.num := JS.lit 800.
Definition canvas_height : JS.num := JS.lit 600.

(** The name of the raster download: the file name without its last
    dot-separated segment. *)
Definition basename (f : File) : string :=
  match Str.pop (Str.split "." (name f)) with
  | Some extension =>
      if (String.length extension =? 0)%nat then name f
      else Str.slice_0_neg (name f) (String.length extension + 1)
  | None => name f
  end.

Definition exportRaster (s : App.State) (f : File) (w : World) : M unit :=
  (if getContext_2d w then ret tt else return_) ;;;
  emit (Canvas (fillRect (JS.lit 0) (JS.lit 0) canvas_width canvas_height)) ;;;
  emit (Canvas (strokeRect (JS.lit 0) (JS.lit 0) canvas_width canvas_height)) ;;;
  emit (Canvas (fillText "Document Signed" (canvas_width / JS.lit 2)%js (JS.lit 100))) ;;;
  emit (Canvas (fillText (name f) (canvas_width / JS.lit 2)%js (JS.lit 150))) ;;;
  img <- match img_onload w with Some i => ret i | None => ([], Waiting) end ;;
  let sigWidth := (App.signatureSize s * JS.lit 2)%js in
  let sigHeight := (height img / width img * sigWidth)%js in
  let sigCenterX := (x (App.signaturePosition s) * canvas_width)%js in
  let sigCenterY := (y (App.signaturePosition s) * canvas_height)%js in
  emit (Canvas save) ;;;
  emit (Canvas (translate sigCenterX sigCenterY)) ;;;
  emit (Canvas (rotate (App.signatureRotation s * JS.Math_PI / JS.lit 180)%js)) ;;;
  emit (Canvas (drawImage (- sigWidth / JS.lit 2)%js (- sigHeight / JS.lit 2)%js
                          sigWidth sigHeight)) ;;;
  emit (Canvas restore) ;;;
  emit (Canvas (fillText ("Signed on: " ++ now w) (canvas_width / JS.lit 2)%js
                         (canvas_height - JS.lit 50)%js)) ;;;
  await_ok (toDataURL w) ;;;
  emit (Download ("signed-" ++ basename f ++ ".png") PngDataUrl).

(** A string is truthy unless it is empty. *)
Definition truthy (v : option string) : bool :=
  match v with
  | Some s => negb (String.length s =? 0)%nat
  | None => false
  end.

Inductive Outcome : Type :=
| Settled      (* the promise of [handleDownload] resolved *)
| Pending.     (* it waits for an image load that never comes *)

(** [handleDownload]: the guard, the [try] body, [catch] and [finally]. *)
Definition handleDownload (s : App.State) (w : World) : list Effect * Outcome :=
  match App.file s with
  | Some f =>
      if truthy (App.signature s) then
        let (l, r) :=
          if String.eqb (type f) "application/pdf"
          then exportPdf s f w else exportRaster s f w in
        match r with
        | Val _ | Returned =>
            (SetIsDownloading true :: l ++ [SetIsDownloading false], Settled)
        | Thrown =>
            (SetIsDownloading true :: l ++ [ConsoleError; Alert; SetIsDownloading false],
             Settled)
        | Waiting => (SetIsDownloading true :: l, Pending)
        end
      else ([], Settled)
  | None => ([], Settled)
  end.

Definition is_alert (e : Effect) : bool :=
  match e with Alert => true | _ => false end.
Definition is_download (e : Effect) : bool :=
  match e with Download _ _ => true | _ => false end.
Definition is_start (e : Effect) : bool :=
  match e with SetIsDownloading true => true | _ => false end.

Definition count (p : Effect -> bool) (l : list Effect) : nat :=
  List.length (filter p l).

Definition is_pdf_draw (e : Effect) : bool :=
  match e with PdfDrawImage _ _ _ _ _ _ => true | _ => false end.

(** The [drawImage] calls a run made on pages of the PDF. *)
Definition pdfDraws (l : list Effect) : list Effect := filter is_pdf_draw l.

(** A step of the PDF export fails: the library import, the read of the
    file, the load of the document, the fetch or the embedding of the
    signature, the choice of the page, or the serialisation. *)
Definition pdf_step_fails (s : App.State) (w : World) : Prop :=
  import_pdf_lib w = false \/
  file_arrayBuffer w = false \/
  PDFDocument_load w = None \/
  fetch_signature w = false \/
  embedPng w = None \/
  (exists pages, PDFDocument_load w = Some pages /\
                 targetPage pages (App.pageNum s) = None) \/
  pdfDoc_save w = false.

(** The raster export reaches the encoding of the canvas, which fails. *)
Definition raster_encode_fails (w : World) : Prop :=
  getContext_2d w = true /\ img_onload w <> None /\ toDataURL w = false.

(** An export attempt failed with an error. *)
Definition export_fails (s : App.State) (doc : File) (w : World) : Prop :=
  (type doc = "application/pdf"%string /\ pdf_step_fails s w) \/
  (type doc <> "application/pdf"%string /\ raster_encode_fails w).

End ExportDoc.

(* ------------------------------------------------------------------ *)
(** ** The 2D context: where a [drawImage] lands on the canvas *)

Section CanvasGeometry.

(** [Math.cos] and [Math.sin] as the context applies them to the angle
    of [rotate]. *)
Variables Math_cos Math_sin : JS.num -> JS.num.

(** The current transformation matrix, in the naming of [DOMMatrix]: a
    point [(px, py)] of user space lands at
    [(m_a*px + m_c*py + m_e, m_b*px + m_d*py + m_f)], the canvas origin being its
    top-left corner and [y] growing downwards. *)
Record Matrix : Type := mkMatrix { m_a : JS.num; m_b : JS.num; m_c : JS.num;
                                   m_d : JS.num; m_e : JS.num; m_f : JS.num }.

Definition identity : Matrix :=
  {| m_a := JS.lit 1; m_b := JS.lit 0; m_c := JS.lit 0; m_d := JS.lit 1;
     m_e := JS.lit 0; m_f := JS.lit 0 |}.

Definition transformPoint (m : Matrix) (p : JS.num * JS.num) : JS.num * JS.num :=
  let (px, py) := p in
  ((m_a m * px + m_c m * py + m_e m)%js, (m_b m * px + m_d m * py + m_f m)%js).

(** [ctx.translate(tx, ty)]: the matrix times a translation. *)
Definition translateBy (m : Matrix) (tx ty : JS.num) : Matrix :=
  {| m_a := m_a m; m_b := m_b m; m_c := m_c m; m_d := m_d m;
     m_e := (m_a m * tx + m_c m * ty + m_e m)%js;
     m_f := (m_b m * tx + m_d m * ty + m_f m)%js |}.

(** [ctx.rotate(angle)]: the matrix times a rotation by [angle] radians,
    clockwise on the screen. *)
Definition rotateBy (m : Matrix) (angle : JS.num) : Matrix :=
  let co := Math_cos angle in
  let si := Math_sin angle in
  {| m_a := (m_a m * co + m_c m * si)%js;
     m_b := (m_b m * co + m_d m * si)%js;
     m_c := (m_c m * co - m_a m * si)%js;
     m_d := (m_d m * co - m_b m * si)%js;
     m_e := m_e m; m_f := m_f m |}.

(** The context state: the matrix and the stack of saved matrices. *)
Definition Ctx : Type := (Matrix * list Matrix)%type.

(** One drawn image: the canvas position of the centre of its
    rectangle, its size in user space, and the matrix it was drawn under. *)
Record Mark : Type := mkMark { centre : JS.num * JS.num; markWidth : JS.num;
                               markHeight : JS.num; under : Matrix }.

Definition exec (st : Ctx * list Mark) (cmd : ExportDoc.CanvasCmd) : Ctx * list Mark :=
  let '((m, stack), marks) := st in
  match cmd with
  | ExportDoc.save => ((m, m :: stack), marks)
  | ExportDoc.restore =>
      match stack with
      | m' :: stack' => ((m', stack'), marks)
      | [] => st
      end
  | ExportDoc.translate tx ty => ((translateBy m tx ty, stack), marks)
  | ExportDoc.rotate angle => ((rotateBy m angle, stack), marks)
  | ExportDoc.drawImage dx dy dw dh =>
      ((m, stack),
       marks ++ [ {| centre := transformPoint m ((dx + dw / JS.lit 2)%js,
                                                 (dy + dh / JS.lit 2)%js);
                     markWidth := dw; markHeight := dh; under := m |} ])
  | _ => st
  end.

Definition canvasCmds (l : list ExportDoc.Effect) : list ExportDoc.CanvasCmd :=
  flat_map (fun ef => match ef with ExportDoc.Canvas k => [k] | _ => [] end) l.

(** The images drawn by a run, on a fresh context. *)
Definition marks (l : list ExportDoc.Effect) : list Mark :=
  snd (fold_left exec (canvasCmds l) ((identity, []), [])).

(** The angles handed to [rotate] by a run. *)
Definition rotations (l : list ExportDoc.Effect) : list JS.num :=
  flat_map (fun k => match k with ExportDoc.rotate t => [t] | _ => [] end)
           (canvasCmds l).

End CanvasGeometry.

(* ------------------------------------------------------------------ *)
(** ** components/DocumentViewer.tsx: [SignaturePreview] *)

(** A [DOMRect] as [getBoundingClientRect] returns it. *)
Record DOMRect : Type := mkRect { left : JS.num; top : JS.num;
                                  rectWidth : JS.num; rectHeight : JS.num }.

(** The pointer position of a [MouseEvent]. *)
Record MouseEvent : Type := mkMouse { clientX : JS.num; clientY : JS.num }.

Module SignaturePreview.

Definition MIN_SIG_SIZE : JS.num := JS.lit 50.
Definition MAX_SIG_SIZE : JS.num := JS.lit 300.

(** The handlers read the props ([signatureSize], ...) that [App] passes
    from its state and write through the setters of [App]. *)
Definition handleIncreaseSignatureSize (s : App.State) : App.State :=
  App.setSignatureSize
    (JS.Math_min (App.signatureSize s + JS.lit 10)%js MAX_SIG_SIZE) s.

Definition handleDecreaseSignatureSize (s : App.State) : App.State :=
  App.setSignatureSize
    (JS.Math_max (App.signatureSize s - JS.lit 10)%js MIN_SIG_SIZE) s.

(** [angleDeg < 0 ? angleDeg + 360 : angleDeg].  The sum is the exact
    one here; the binary64 sum is rounded, and for an angle just below 0
    it is 360 itself, so the range of this correction is stated with the
    closed bound 360. *)
Definition wrapNegative (angleDeg : JS.num) : JS.num :=
  if JS.ltb angleDeg (JS.lit 0) then (angleDeg + JS.lit 360)%js else angleDeg.

(** The [angleRad] of the rotate handle: the direction from the centre of
    the signature to the pointer.  [Math_atan2] is the library function,
    [sigRect] the rectangle read at mouse-down. *)
Definition angleRad (Math_atan2 : JS.num -> JS.num -> JS.num)
    (sigRect : DOMRect) (moveEvent : MouseEvent) : JS.num :=
  let centerX := (left sigRect + rectWidth sigRect / JS.lit 2)%js in
  let centerY := (top sigRect + rectHeight sigRect / JS.lit 2)%js in
  Math_atan2 (clientY moveEvent - centerY)%js (clientX moveEvent - centerX)%js.

(** [handleMouseMove] of the rotate handle. *)
Definition rotateMouseMove (Math_atan2 : JS.num -> JS.num -> JS.num)
    (sigRect : DOMRect) (moveEvent : MouseEvent) (s : App.State) : App.State :=
  let angleDeg := (angleRad Math_atan2 sigRect moveEvent * JS.lit 180 / JS.Math_PI
                   + JS.lit 90)%js in
  App.setSignatureRotation (wrapNegative angleDeg) s.

(** [Math.max(0, Math.min(1, v))]. *)
Definition clamp01 (v : JS.num) : JS.num :=
  JS.Math_max (JS.lit 0) (JS.Math_min (JS.lit 1) v).

(** [handleMouseMove] of the drag; [containerRect] is the rectangle of
    the parent element read at mouse-down. *)
Definition dragMouseMove (containerRect : DOMRect) (moveEvent : MouseEvent)
    (s : App.State) : App.State :=
  let x := (clientX moveEvent - left containerRect)%js in
  let y := (clientY moveEvent - top containerRect)%js in
  let relativeX := clamp01 (x / rectWidth containerRect)%js in
  let relativeY := clamp01 (y / rectHeight containerRect)%js in
  App.setSignaturePosition {| x := relativeX; y := relativeY |} s.

(** The rotation the preview shows: the CSS transform
    [rotate(${signatureRotation}deg)], clockwise degrees. *)
Definition displayedRotationDeg (s : App.State) : JS.num := App.signatureRotation s.

(** The placement writes of the preview: drags and size steps. *)
Inductive SetOp : Type :=
| Drag (containerRect : DOMRect) (moveEvent : MouseEvent)
| IncreaseSize
| DecreaseSize.

Definition apply (o : SetOp) (s : App.State) : App.State :=
  match o with
  | Drag r ev => dragMouseMove r ev s
  | IncreaseSize => handleIncreaseSignatureSize s
  | DecreaseSize => handleDecreaseSignatureSize s
  end.

Definition run (ops : list SetOp) (s : App.State) : App.State :=
  fold_left (fun st o => apply o st) ops s.

(** The invariant of the placement as a test. *)
Definition placement_ok (s : App.State) : bool :=
  JS.in_range (JS.lit 0) (JS.lit 1) (x (App.signaturePosition s))
  && JS.in_range (JS.lit 0) (JS.lit 1) (y (App.signaturePosition s))
  && JS.in_range MIN_SIG_SIZE MAX_SIG_SIZE (App.signatureSize s).

(** A drag with finite coordinates whose container has an extent in
    both directions. *)
Definition nondegenerate (o : SetOp) : bool :=
  match o with
  | Drag r ev =>
      JS.is_finite (clientX ev) && JS.is_finite (clientY ev)
      && JS.is_finite (left r) && JS.is_finite (top r)
      && JS.is_finite (rectWidth r) && JS.is_finite (rectHeight r)
      && negb (JS.eqb (rectWidth r) (JS.lit 0))
      && negb (JS.eqb (rectHeight r) (JS.lit 0))
  | _ => true
  end.

End SignaturePreview.

(* ------------------------------------------------------------------ *)
(** ** components/DocumentViewer.tsx: paging and zoom *)

Module DocumentViewer.

Definition MIN_ZOOM : JS.num := JS.lit 0.5.
Definition MAX_ZOOM : JS.num := JS.lit 3.0.
Definition DEFAULT_ZOOM : JS.num := JS.lit 1.0.

(** The viewport: [pageNum] is the prop owned by [App], [numPages] and
    [zoomLevel] are state of the viewer. *)
Record Viewport : Type := mkViewport {
  pageNum : Z;
  numPages : Z;
  zoomLevel : JS.num
}.

Definition goToPreviousPage (v : Viewport) : Viewport :=
  {| pageNum := Z.max (pageNum v - 1) 1; numPages := numPages v;
     zoomLevel := zoomLevel v |}.

Definition goToNextPage (v : Viewport) : Viewport :=
  {| pageNum := Z.min (pageNum v + 1) (numPages v); numPages := numPages v;
     zoomLevel := zoomLevel v |}.

Definition handleZoomIn (v : Viewport) : Viewport :=
  {| pageNum := pageNum v; numPages := numPages v;
     zoomLevel := JS.Math_min (zoomLevel v + JS.lit 0.25)%js MAX_ZOOM |}.

Definition handleZoomOut (v : Viewport) : Viewport :=
  {| pageNum := pageNum v; numPages := numPages v;
     zoomLevel := JS.Math_max (zoomLevel v - JS.lit 0.25)%js MIN_ZOOM |}.

Inductive Op : Type := ZoomIn | ZoomOut | NextPage | PreviousPage.

Definition apply (o : Op) (v : Viewport) : Viewport :=
  match o with
  | ZoomIn => handleZoomIn v
  | ZoomOut => handleZoomOut v
  | NextPage => goToNextPage v
  | PreviousPage => goToPreviousPage v
  end.

Definition run (ops : list Op) (v : Viewport) : Viewport :=
  fold_left (fun st o => apply o st) ops v.

(** The viewport after a document of [n] pages has loaded: page 1 (set
    by [handleFileSelect]) at the default zoom (set by [loadPdf]). *)
Definition loaded (n : Z) : Viewport :=
  {| pageNum := 1; numPages := n; zoomLevel := DEFAULT_ZOOM |}.

Definition viewport_ok (v : Viewport) : Prop :=
  JS.in_range MIN_ZOOM MAX_ZOOM (zoomLevel v) = true /\
  (1 <= pageNum v <= numPages v)%Z.

End DocumentViewer.

(* ------------------------------------------------------------------ *)
(** ** components/DocumentViewer.tsx: the render effect

    [renderPage] runs once per change of [pdfDoc], [pageNum] or
    [zoomLevel] and suspends at its three [await]s; several runs can be
    suspended at once.  The transition system below has one event per
    resumption.  The decoder decides when a page fetch or a render task
    settles, so those events may come in any order; a cancelled task
    never completes, as the rasterizer contract of the specification
    requires. *)

Module RenderController.

(** Where a run of [renderPage] is suspended. *)
Inductive Pc : Type :=
| AwaitCancel            (* await renderTaskRef.current.cancel() *)
| AwaitGetPage           (* await pdfDoc.getPage(pageNumber) *)
| AwaitTask (t : nat)    (* await task.promise *)
| Finished.

(** One run of [renderPage]: the page and zoom its closure captured. *)
Record Req : Type := mkReq { rid : nat; page : Z; zoom : JS.num; pc : Pc }.

Inductive Status : Type := Running | Cancelled | Completed | Failed.

(** One [page.render(renderContext)] task and the run that started it. *)
Record Task : Type := mkTask { tid : nat; owner : nat; status : Status }.

(** Requests and tasks are kept newest first; identifiers count from 0
    in order of creation.  [surface] is the run whose finished render the
    canvas shows; [published] logs every finished render together with
    the newest request at that moment. *)
Record State : Type := mkState {
  requests : list Req;
  tasks : list Task;
  renderTaskRef : option nat;
  surface : option nat;
  published : list (nat * nat)
}.

Definition initial : State :=
  {| requests := []; tasks := []; renderTaskRef := None; surface := None;
     published := [] |}.

Inductive Event : Type :=
| Issue (page : Z) (zoom : JS.num)   (* the effect calls renderPage *)
| CancelSettled (r : nat)            (* resumes after the awaited cancel *)
| PageResolved (r : nat)             (* getPage resolved *)
| PageRejected (r : nat)             (* getPage rejected *)
| TaskCompleted (t : nat)            (* task.promise resolved *)
| TaskFailed (t : nat).              (* task.promise rejected, not by cancel *)

Definition find_req (i : nat) (l : list Req) : option Req :=
  find (fun r => rid r =? i)%nat l.

Definition find_task (t : nat) (l : list Task) : option Task :=
  find (fun k => tid k =? t)%nat l.

Definition set_pc (i : nat) (p : Pc) (l : list Req) : list Req :=
  map (fun r => if (rid r =? i)%nat
                then {| rid := rid r; page := page r; zoom := zoom r; pc := p |}
                else r) l.

Definition set_status (t : nat) (st : Status) (l : list Task) : list Task :=
  map (fun k => if (tid k =? t)%nat
                then {| tid := tid k; owner := owner k; status := st |}
                else k) l.

Definition is_running (k : Task) : bool :=
  match status k with Running => true | _ => false end.

(** The newest request. *)
Definition latest (s : State) : option nat :=
  match requests s with r :: _ => Some (rid r) | [] => None end.

Definition step (s : State) (ev : Event) : option State :=
  match ev with
  | Issue p z =>
      let i := List.length (requests s) in
      match renderTaskRef s with
      | Some t =>
          (* renderTaskRef.current.cancel(): a running task is cancelled,
             its promise rejects and the run that awaits it ends in the
             silent branch of its catch *)
          let '(ts, rs) :=
            match find_task t (tasks s) with
            | Some k =>
                if is_running k
                then (set_status t Cancelled (tasks s),
                      set_pc (owner k) Finished (requests s))
                else (tasks s, requests s)
            | None => (tasks s, requests s)
            end in
          Some {| requests := {| rid := i; page := p; zoom := z; pc := AwaitCancel |} :: rs;
                  tasks := ts; renderTaskRef := Some t;
                  surface := surface s; published := published s |}
      | None =>
          Some {| requests := {| rid := i; page := p; zoom := z; pc := AwaitGetPage |}
                              :: requests s;
                  tasks := tasks s; renderTaskRef := None;
                  surface := surface s; published := published s |}
      end
  | CancelSettled i =>
      match find_req i (requests s) with
      | Some {| pc := AwaitCancel |} =>
          Some {| requests := set_pc i AwaitGetPage (requests s);
                  tasks := tasks s; renderTaskRef := renderTaskRef s;
                  surface := surface s; published := published s |}
      | _ => None
      end
  | PageResolved i =>
      match find_req i (requests s) with
      | Some {| pc := AwaitGetPage |} =>
          (* the canvas is resized, which clears it; the task is created
             and stored in renderTaskRef *)
          let t := List.length (tasks s) in
          Some {| requests := set_pc i (AwaitTask t) (requests s);
                  tasks := {| tid := t; owner := i; status := Running |} :: tasks s;
                  renderTaskRef := Some t;
                  surface := None; published := published s |}
      | _ => None
      end
  | PageRejected i =>
      match find_req i (requests s) with
      | Some {| pc := AwaitGetPage |} =>
          Some {| requests := set_pc i Finished (requests s);
                  tasks := tasks s; renderTaskRef := renderTaskRef s;
                  surface := surface s; published := published s |}
      | _ => None
      end
  | TaskCompleted t =>
      match find_task t (tasks s), latest s with
      | Some k, Some newest =>
          if is_running k then
            (* the page is on the canvas; the run resumes and executes
               renderTaskRef.current = null *)
            Some {| requests := set_pc (owner k) Finished (requests s);
                    tasks := set_status t Completed (tasks s);
                    renderTaskRef := None;
                    surface := Some (owner k);
                    published := (owner k, newest) :: published s |}
          else None
      | _, _ => None
      end
  | TaskFailed t =>
      match find_task t (tasks s) with
      | Some k =>
          if is_running k then
            Some {| requests := set_pc (owner k) Finished (requests s);
                    tasks := set_status t Failed (tasks s);
                    renderTaskRef := renderTaskRef s;
                    surface := surface s; published := published s |}
          else None
      | None => None
      end
  end.

Fixpoint run (s : State) (evs : list Event) : option State :=
  match evs with
  | [] => Some s
  | ev :: rest =>
      match step s ev with
      | Some s' => run s' rest
      | None => None
      end
  end.

(** Every finished render belonged to the newest request of its time. *)
Definition only_latest (log : list (nat * nat)) : Prop :=
  Forall (fun e => fst e = snd e) log.

(** No run is suspended before it has created its task. *)
Definition fetching (r : Req) : bool :=
  match pc r with AwaitCancel | AwaitGetPage => true | _ => false end.

Definition quiet (s : State) : bool := negb (existsb fetching (requests s)).

(** A schedule in which a page or zoom change only arrives while no
    earlier run still waits for its cancel or its page. *)
Fixpoint serial (s : State) (evs : list Event) : bool :=
  match evs with
  | [] => true
  | ev :: rest =>
      (match ev with Issue _ _ => quiet s | _ => true end)
      && match step s ev with
         | Some s' => serial s' rest
         | None => true
         end
  end.

Definition running_tasks (s : State) : nat :=
  List.length (filter is_running (tasks s)).

(** The same two requests with the pages arriving in the order asked
    for: both tasks are created, neither is cancelled, and the task of
    the older request finishes last. *)
Definition overlap_schedule : list Event :=
  [ Issue 3 (JS.lit 1); Issue 2 (JS.lit 1);
    PageResolved 0; PageResolved 1;
    TaskCompleted 1; TaskCompleted 0 ].

(** Request identifiers count up from 0, newest first. *)
Fixpoint ids_ok (l : list Req) : Prop :=
  match l with
  | [] => True
  | r :: rest => rid r = List.length rest /\ ids_ok rest
  end.

(** What a serial schedule maintains: only the newest run is still
    active, and a task runs only while that run awaits it, with the task
    recorded in [renderTaskRef]. *)
Definition invariant (s : State) : Prop :=
  only_latest (published s) /\
  ids_ok (requests s) /\
  match requests s with
  | [] => filter is_running (tasks s) = []
  | r :: rest =>
      Forall (fun r' => pc r' = Finished) rest /\
      match pc r with
      | AwaitTask t =>
          exists k, filter is_running (tasks s) = [k] /\ tid k = t /\
                    owner k = rid r /\ renderTaskRef s = Some t /\
                    find_task t (tasks s) = Some k
      | _ => filter is_running (tasks s) = []
      end
  end.

(** A schedule in which the second request arrives while the task of
    the first one runs. *)
Definition serial_schedule : list Event :=
  [ Issue 1 (JS.lit 1); PageResolved 0;
    Issue 2 (JS.lit 1); CancelSettled 1; PageResolved 1; TaskCompleted 1 ].

(** A schedule of two requests in which the page of the newer one
    arrives first: page 3 is requested, then page 2; page 2 is fetched
    and rendered; then page 3 is fetched and rendered. *)
Definition stale_schedule : list Event :=
  [ Issue 3 (JS.lit 1); Issue 2 (JS.lit 1);
    PageResolved 1; TaskCompleted 0;
    PageResolved 0; TaskCompleted 1 ].

End RenderController.

(* ------------------------------------------------------------------ *)
(** ** Concrete sessions, used to exercise the statements below *)

Module Sample.

Definition pdf : File := {| name := "contract.pdf"; type := "application/pdf" |}.
Definition sheet : File := {| name := "figures.csv"; type := "text/csv" |}.
Definition dataUrl : string := "data:image/png;base64,iVBORw0KGgo=".

(** A two-page PDF on screen at page 2, signed, default placement. *)
Definition signedPdf : App.State :=
  App.setPageNum 2 (App.handleSaveSignature dataUrl (App.handleFileSelect pdf App.initial)).

(** The same with the signature dragged to the top centre. *)
Definition topCentre : App.State :=
  App.setPageNum 1
    (App.setSignaturePosition {| x := JS.lit 0.5; y := JS.lit 0 |} signedPdf).

(** The page number points past the end of the document. *)
Definition pastTheEnd : App.State := App.setPageNum 7 signedPdf.

(** A CSV file, signed, default placement. *)
Definition signedSheet : App.State :=
  App.handleSaveSignature dataUrl (App.handleFileSelect sheet App.initial).

(** A PDF whose signature was removed again. *)
Definition unsigned : App.State := App.onRemoveSignature signedPdf.

Definition letter : Size := {| width := JS.lit 612; height := JS.lit 792 |}.
Definition a4 : Size := {| width := JS.lit 595; height := JS.lit 842 |}.
Definition ink : Size := {| width := JS.lit 300; height := JS.lit 100 |}.

(** Every collaborator answers. *)
Definition world : ExportDoc.World :=
  {| ExportDoc.import_pdf_lib := true;
     ExportDoc.file_arrayBuffer := true;
     ExportDoc.PDFDocument_load := Some [letter; a4];
     ExportDoc.fetch_signature := true;
     ExportDoc.embedPng := Some ink;
     ExportDoc.pdfDoc_save := true;
     ExportDoc.getContext_2d := true;
     ExportDoc.img_onload := Some ink;
     ExportDoc.toDataURL := true;
     ExportDoc.now := "1/1/2025, 10:00:00 AM" |}.

(** The signature does not embed. *)
Definition embedFails : ExportDoc.World :=
  {| ExportDoc.import_pdf_lib := true;
     ExportDoc.file_arrayBuffer := true;
     ExportDoc.PDFDocument_load := Some [letter; a4];
     ExportDoc.fetch_signature := true;
     ExportDoc.embedPng := None;
     ExportDoc.pdfDoc_save := true;
     ExportDoc.getContext_2d := true;
     ExportDoc.img_onload := Some ink;
     ExportDoc.toDataURL := true;
     ExportDoc.now := "1/1/2025, 10:00:00 AM" |}.

(** The document loads without a single page. *)
Definition blank : ExportDoc.World :=
  {| ExportDoc.import_pdf_lib := true;
     ExportDoc.file_arrayBuffer := true;
     ExportDoc.PDFDocument_load := Some [];
     ExportDoc.fetch_signature := true;
     ExportDoc.embedPng := Some ink;
     ExportDoc.pdfDoc_save := true;
     ExportDoc.getContext_2d := true;
     ExportDoc.img_onload := Some ink;
     ExportDoc.toDataURL := true;
     ExportDoc.now := "1/1/2025, 10:00:00 AM" |}.

(** The canvas gives no 2D context. *)
Definition noContext : ExportDoc.World :=
  {| ExportDoc.import_pdf_lib := true;
     ExportDoc.file_arrayBuffer := true;
     ExportDoc.PDFDocument_load := Some [letter; a4];
     ExportDoc.fetch_signature := true;
     ExportDoc.embedPng := Some ink;
     ExportDoc.pdfDoc_save := true;
     ExportDoc.getContext_2d := false;
     ExportDoc.img_onload := Some ink;
     ExportDoc.toDataURL := true;
     ExportDoc.now := "1/1/2025, 10:00:00 AM" |}.

(** The image of the signature never loads. *)
Definition noImage : ExportDoc.World :=
  {| ExportDoc.import_pdf_lib := true;
     ExportDoc.file_arrayBuffer := true;
     ExportDoc.PDFDocument_load := Some [letter; a4];
     ExportDoc.fetch_signature := true;
     ExportDoc.embedPng := Some ink;
     ExportDoc.pdfDoc_save := true;
     ExportDoc.getContext_2d := true;
     ExportDoc.img_onload := None;
     ExportDoc.toDataURL := true;
     ExportDoc.now := "1/1/2025, 10:00:00 AM" |}.

(** A container without extent, as the page wrapper is while the canvas
    size is still 0 x 0, and a pointer on its corner. *)
Definition collapsed : DOMRect :=
  {| left := JS.lit 100; top := JS.lit 50;
     rectWidth := JS.lit 0; rectHeight := JS.lit 0 |}.
Definition onCorner : MouseEvent := {| clientX := JS.lit 100; clientY := JS.lit 50 |}.

(** The session of [pastTheEnd] after a drag over that container. *)
Definition adrift : App.State :=
  SignaturePreview.dragMouseMove collapsed onCorner pastTheEnd.

(** A 600 x 400 container and a pointer far outside of it. *)
Definition box : DOMRect :=
  {| left := JS.lit 100; top := JS.lit 50;
     rectWidth := JS.lit 600; rectHeight := JS.lit 400 |}.
Definition farAway : MouseEvent := {| clientX := JS.lit 5000; clientY := JS.lit (-20) |}.

(** [Math.atan2] on the eight directions of the axes and diagonals,
    where it is a multiple of [Math.PI / 4]; the samples use no other
    direction. *)
Definition atan2 (y x : JS.num) : JS.num :=
  let zero := JS.lit 0 in
  let quarter := (JS.Math_PI / JS.lit 4)%js in
  if JS.eqb y zero then (if JS.ltb x zero then JS.Math_PI else zero)
  else if JS.eqb x zero
       then (if JS.ltb y zero then (- (JS.lit 2 * quarter))%js else (JS.lit 2 * quarter)%js)
  else if JS.eqb x y
       then (if JS.ltb y zero then (- (JS.lit 3 * quarter))%js else quarter)
  else if JS.eqb x (- y)%js
       then (if JS.ltb y zero then (- quarter)%js else (JS.lit 3 * quarter)%js)
  else zero.

(** The rectangle of the signature, centred at (200, 140), and a pointer
    up and to the left of that centre, on the diagonal. *)
Definition sigRect : DOMRect :=
  {| left := JS.lit 125; top := JS.lit 115;
     rectWidth := JS.lit 150; rectHeight := JS.lit 50 |}.
Definition upLeft : MouseEvent := {| clientX := JS.lit 170; clientY := JS.lit 110 |}.

(** A file without a dot in its name and without a MIME type. *)
Definition dotless : File := {| name := "pdf"; type := "" |}.

(** A picture, which the upload refuses. *)
Definition photo : File := {| name := "photo.png"; type := "image/png" |}.

End Sample.

(* ------------------------------------------------------------------ *)
(** ** components/DocumentViewer.tsx: icon and label of a file type *)

Module FileLabels.

(** [s.includes(sub)] on strings: [sub] occurs somewhere in [s]. *)
Fixpoint includes (sub s : string) : bool :=
  match s with
  | EmptyString => String.prefix sub EmptyString
  | String _ r => String.prefix sub s || includes sub r
  end.

Inductive Icon : Type :=
| FilePdfIcon
| FileWordIcon
| FileExcelIcon
| FileCsvIcon
| ExclamationTriangleIcon.

Definition getFileIcon (fileType : string) : Icon :=
  if includes "pdf" fileType then FilePdfIcon
  else if includes "word" fileType then FileWordIcon
  else if includes "sheet" fileType || includes "excel" fileType then FileExcelIcon
  else if includes "csv" fileType then FileCsvIcon
  else ExclamationTriangleIcon.

Definition getFriendlyFileType (mimeType : string) : string :=
  if String.eqb mimeType "application/pdf" then "PDF Document"
  else if String.eqb mimeType "application/msword"
          || String.eqb mimeType
               "application/vnd.openxmlformats-officedocument.wordprocessingml.document"
       then "Microsoft Word Document"
  else if String.eqb mimeType "application/vnd.ms-excel"
          || String.eqb mimeType
               "application/vnd.openxmlformats-officedocument.spreadsheetml.sheet"
       then "Microsoft Excel Spreadsheet"
  else if String.eqb mimeType "text/csv" then "CSV File"
  else if includes "word" mimeType then "Word Document"
  else if includes "sheet" mimeType || includes "excel" mimeType then "Excel Spreadsheet"
  else "Document".

End FileLabels.

(* ------------------------------------------------------------------ *)
(** ** components/FileUpload.tsx: the drop zone *)

Module UploadZone.

Inductive UploadState : Type := idle | dragging | success | error.

(** A pending [setTimeout]: the delivery of an accepted file after
    1500 ms, or the return to [idle] 3000 ms after a rejection. *)
Inductive Timer : Type :=
| SelectTimer (file : File)
| ResetTimer.

(** The two [useState] cells, the timers that have not fired yet, and
    the calls of [onFileSelect] made so far, oldest first. *)
Record State : Type := mkState {
  uploadState : UploadState;
  errorMessage : string;
  timers : list Timer;
  selected : list File
}.

Definition initial : State :=
  {| uploadState := idle; errorMessage := ""; timers := []; selected := [] |}.

Definition setUploadState (v : UploadState) (s : State) : State :=
  {| uploadState := v; errorMessage := errorMessage s; timers := timers s;
     selected := selected s |}.

Definition setErrorMessage (v : string) (s : State) : State :=
  {| uploadState := uploadState s; errorMessage := v; timers := timers s;
     selected := selected s |}.

Definition setTimeout (t : Timer) (s : State) : State :=
  {| uploadState := uploadState s; errorMessage := errorMessage s;
     timers := timers s ++ [t]; selected := selected s |}.

Definition handleSuccessfulUpload (file : File) (s : State) : State :=
  setTimeout (SelectTimer file) (setUploadState success s).

Definition processFile (file : File) (s : State) : State :=
  match FileUpload.validateFile file with
  | Some err =>
      if ExportDoc.truthy (Some err)
      then setTimeout ResetTimer (setUploadState error (setErrorMessage err s))
      else handleSuccessfulUpload file s
  | None => handleSuccessfulUpload file s
  end.

(** [files] is the file list of the event, empty also for a missing
    list. *)
Definition handleFileChange (files : list File) (s : State) : State :=
  match files with
  | file :: _ => processFile file s
  | [] => s
  end.

Definition handleDrop (files : list File) (s : State) : State :=
  let s1 := setUploadState idle s in
  match files with
  | file :: _ => processFile file s1
  | [] => s1
  end.

Definition handleDragEnter (s : State) : State :=
  match uploadState s with idle => setUploadState dragging s | _ => s end.

Definition handleDragLeave (s : State) : State :=
  match uploadState s with dragging => setUploadState idle s | _ => s end.

(** The [input] is disabled in the states [success] and [error]. *)
Definition inputDisabled (s : State) : bool :=
  match uploadState s with success | error => true | _ => false end.

Fixpoint remove_nth {A} (n : nat) (l : list A) : list A :=
  match n, l with
  | _, [] => []
  | O, _ :: r => r
  | S m, h :: r => h :: remove_nth m r
  end.

(** The callback of a timer. *)
Definition fire (t : Timer) (s : State) : State :=
  match t with
  | SelectTimer file =>
      {| uploadState := uploadState s; errorMessage := errorMessage s;
         timers := timers s; selected := selected s ++ [file] |}
  | ResetTimer => setErrorMessage "" (setUploadState idle s)
  end.

Inductive Event : Type :=
| InputChange (files : list File)
| Drop (files : list File)
| DragEnter
| DragLeave
| TimerFires (n : nat).    (* the n-th pending timer *)

(** One event; [None] when the event cannot happen (a disabled input, a
    timer that is not pending).  Timers may fire in any order here. *)
Definition step (s : State) (ev : Event) : option State :=
  match ev with
  | InputChange files =>
      if inputDisabled s then None else Some (handleFileChange files s)
  | Drop files => Some (handleDrop files s)
  | DragEnter => Some (handleDragEnter s)
  | DragLeave => Some (handleDragLeave s)
  | TimerFires n =>
      match nth_error (timers s) n with
      | Some t =>
          Some (fire t {| uploadState := uploadState s; errorMessage := errorMessage s;
                          timers := remove_nth n (timers s); selected := selected s |})
      | None => None
      end
  end.

Fixpoint run (s : State) (evs : list Event) : option State :=
  match evs with
  | [] => Some s
  | ev :: rest =>
      match step s ev with
      | Some s' => run s' rest
      | None => None
      end
  end.

Definition rejection : string :=
  "Unsupported file type. Please upload a PDF, Word, Excel, or CSV file.".

Definition valid_timer (t : Timer) : Prop :=
  match t with
  | SelectTimer file => FileUpload.validateFile file = None
  | ResetTimer => True
  end.

(** The files the events offer to [processFile] that pass validation,
    in the order of the events. *)
Definition offered (ev : Event) : list File :=
  match ev with
  | InputChange (file :: _) | Drop (file :: _) =>
      match FileUpload.validateFile file with None => [file] | Some _ => [] end
  | _ => []
  end.

(** The files of the deliveries among the timers [l]. *)
Definition pendingOf (l : list Timer) : list File :=
  flat_map (fun t => match t with SelectTimer file => [file] | ResetTimer => [] end) l.

Definition pendingFiles (s : State) : list File := pendingOf (timers s).

(** What the zone maintains: the files delivered and the files waiting
    for delivery passed validation, and the message shown in the state
    [error] is the one of [validateFile]. *)
Definition safe (s : State) : Prop :=
  Forall (fun f => FileUpload.validateFile f = None) (selected s)
  /\ Forall valid_timer (timers s)
  /\ (uploadState s = error -> errorMessage s = rejection).

End UploadZone.

(* ------------------------------------------------------------------ *)
(** ** components/SignatureModal.tsx: [save] *)

Module SignatureModal.

(** The signature pad behind [sigPad.current]: whether it is empty, and
    the data URL of its trimmed canvas. *)
Record Pad : Type := mkPad { isEmpty : bool; trimmedDataUrl : string }.

Inductive Outcome : Type :=
| AlertEmpty                 (* alert("Please provide a signature first.") *)
| OnSave (url : string)      (* onSave(signatureDataUrl) *)
| Nothing.

(** [save]; [None] is a [sigPad.current] that is [null], for which both
    optional chains give [undefined]. *)
Definition save (current : option Pad) : Outcome :=
  match current with
  | Some pad =>
      if isEmpty pad then AlertEmpty
      else if ExportDoc.truthy (Some (trimmedDataUrl pad))
           then OnSave (trimmedDataUrl pad) else Nothing
  | None => Nothing
  end.

(** The button "Apply Signature" of the modal inside [App], whose
    [onSave] is [handleSaveSignature]. *)
Definition applySignature (current : option Pad) (s : App.State) : App.State :=
  match save current with
  | OnSave url => App.handleSaveSignature url s
  | _ => s
  end.

End SignatureModal.

(* ------------------------------------------------------------------ *)
(** ** components/DocumentViewer.tsx: the navigation bar *)

Module NavBar.
Import DocumentViewer.

(** The bar is rendered for [numPages > 0]; each button carries its
    [disabled] attribute. *)
Definition shown (v : Viewport) : bool := (0 <? numPages v)%Z.

Definition zoomOutDisabled (v : Viewport) : bool := JS.leb (zoomLevel v) MIN_ZOOM.
Definition previousDisabled (v : Viewport) : bool := (pageNum v <=? 1)%Z.
Definition nextDisabled (v : Viewport) : bool := (numPages v <=? pageNum v)%Z.
Definition zoomInDisabled (v : Viewport) : bool := JS.leb MAX_ZOOM (zoomLevel v).

Definition disabled (o : Op) (v : Viewport) : bool :=
  match o with
  | ZoomIn => zoomInDisabled v
  | ZoomOut => zoomOutDisabled v
  | NextPage => nextDisabled v
  | PreviousPage => previousDisabled v
  end.

(** A click on a button of the bar: the handler runs when the bar is
    shown and the button enabled. *)
Definition click (o : Op) (v : Viewport) : Viewport :=
  if shown v && negb (disabled o v) then apply o v else v.

Definition clicks (ops : list Op) (v : Viewport) : Viewport :=
  fold_left (fun st o => click o st) ops v.

(** The zoom levels on the quarter grid from 0.5 to 3. *)
Definition on_grid (z : JS.num) : Prop :=
  exists k : Z, (0 <= k <= 10)%Z /\ z = JS.lit ((k + 2) # 4).

(** What clicks on the bar maintain, for a document of [n] pages. *)
Definition reachable (n : Z) (v : Viewport) : Prop :=
  numPages v = n /\ (1 <= pageNum v <= Z.max 1 n)%Z /\ on_grid (zoomLevel v).

End NavBar.

(* ------------------------------------------------------------------ *)
(** ** components/DocumentViewer.tsx: the load effect

    The effect with dependencies [file, isPdf].  Its closure holds the
    [pdfDoc] of the render in which the effect was set up; [loadPdf]
    destroys that document before it loads the new one, and the cleanup
    of the effect destroys the same captured document once more. *)

Module PdfLoader.

(** What [loadPdf] and the cleanup do, in order. *)
Inductive Effect : Type :=
| CancelTask (t : nat)
| Destroy (doc : nat)
| SetNumPages (n : Z)
| SetZoomLevel (z : JS.num)
| SetCanvasSize (size : Size)
| SetIsLoading (b : bool)
| SetPdfDoc (doc : nat)
| ConsoleError.

(** The answers of the file and of the decoder: the byte length of the
    buffer, and the document with its page count; [None] is a rejected
    promise. *)
Record World : Type := mkWorld {
  arrayBuffer_byteLength : option Z;
  getDocument : option (nat * Z)
}.

(** The state of the viewer that the effect writes. *)
Record State : Type := mkState {
  pdfDoc : option nat;
  numPages : Z;
  zoomLevel : JS.num;
  canvasSize : Size;
  isLoading : bool
}.

Definition mounted : State :=
  {| pdfDoc := None; numPages := 0; zoomLevel := DocumentViewer.DEFAULT_ZOOM;
     canvasSize := {| width := JS.lit 0; height := JS.lit 0 |}; isLoading := true |}.

Definition opt_list {A B} (o : option A) (f : A -> B) : list B :=
  match o with Some a => [f a] | None => [] end.

(** The body of the effect for a closure that captured [captured] as
    [pdfDoc] and finds [task] in [renderTaskRef]. *)
Definition effect (isPdf : bool) (captured : option nat) (task : option nat)
    (w : World) : list Effect :=
  if isPdf then
    opt_list task CancelTask ++ opt_list captured Destroy ++
    [ SetNumPages 0; SetZoomLevel DocumentViewer.DEFAULT_ZOOM;
      SetCanvasSize {| width := JS.lit 0; height := JS.lit 0 |}; SetIsLoading true ] ++
    match arrayBuffer_byteLength w with
    | None => [ConsoleError; SetIsLoading false]
    | Some len =>
        if (len =? 0)%Z then [ConsoleError; SetIsLoading false; SetIsLoading false]
        else match getDocument w with
             | None => [ConsoleError; SetIsLoading false]
             | Some (pdf, n) => [SetNumPages n; SetPdfDoc pdf; SetIsLoading false]
             end
    end
  else [SetIsLoading false].

(** The cleanup the effect returns; for a file that is no PDF the effect
    returns none. *)
Definition cleanup (isPdf : bool) (captured : option nat) : list Effect :=
  if isPdf then opt_list captured Destroy else [].

Definition write (s : State) (e : Effect) : State :=
  match e with
  | SetNumPages n =>
      {| pdfDoc := pdfDoc s; numPages := n; zoomLevel := zoomLevel s;
         canvasSize := canvasSize s; isLoading := isLoading s |}
  | SetZoomLevel z =>
      {| pdfDoc := pdfDoc s; numPages := numPages s; zoomLevel := z;
         canvasSize := canvasSize s; isLoading := isLoading s |}
  | SetCanvasSize c =>
      {| pdfDoc := pdfDoc s; numPages := numPages s; zoomLevel := zoomLevel s;
         canvasSize := c; isLoading := isLoading s |}
  | SetIsLoading b =>
      {| pdfDoc := pdfDoc s; numPages := numPages s; zoomLevel := zoomLevel s;
         canvasSize := canvasSize s; isLoading := b |}
  | SetPdfDoc d =>
      {| pdfDoc := Some d; numPages := numPages s; zoomLevel := zoomLevel s;
         canvasSize := canvasSize s; isLoading := isLoading s |}
  | _ => s
  end.

(** The state once the load of the effect has settled. *)
Definition loadPdf (isPdf : bool) (task : option nat) (w : World) (s : State) : State :=
  fold_left write (effect isPdf (pdfDoc s) task w) s.

Definition errors (l : list Effect) : nat :=
  List.length (filter (fun e => match e with ConsoleError => true | _ => false end) l).

Definition destroyed (l : list Effect) : list nat :=
  flat_map (fun e => match e with Destroy d => [d] | _ => [] end) l.

(** The life of one mounted viewer.  [FileSet]: the file prop is set, on
    mount or by a change; the cleanup of the last effect runs, then the
    new effect with the closure of the current render, and its load
    settles before the next event.  [Unmount]: the last cleanup runs. *)
Inductive Event : Type :=
| FileSet (isPdf : bool) (task : option nat) (w : World)
| Unmount.

(** The viewer with the closure of its last effect ([None] before the
    first one) and the log of all effects. *)
Record Life : Type := mkLife {
  state : State;
  lastEffect : option (bool * option nat);
  log : list Effect
}.

Definition born : Life := {| state := mounted; lastEffect := None; log := [] |}.

Definition lastCleanup (l : Life) : list Effect :=
  match lastEffect l with
  | Some (isPdf, captured) => cleanup isPdf captured
  | None => []
  end.

Definition live (l : Life) (ev : Event) : Life :=
  match ev with
  | FileSet isPdf task w =>
      let run := effect isPdf (pdfDoc (state l)) task w in
      {| state := fold_left write run (state l);
         lastEffect := Some (isPdf, pdfDoc (state l));
         log := log l ++ lastCleanup l ++ run |}
  | Unmount =>
      {| state := state l; lastEffect := None; log := log l ++ lastCleanup l |}
  end.

Definition life (evs : list Event) : Life := fold_left live evs born.



End PdfLoader.

(* ------------------------------------------------------------------ *)
(** ** Readings of a run of [handleDownload] *)

Module ExportTrace.

Definition is_stop (e : ExportDoc.Effect) : bool :=
  match e with ExportDoc.SetIsDownloading false => true | _ => false end.

(** The effects that draw: on a page of the PDF or on the canvas. *)
Definition is_drawing (e : ExportDoc.Effect) : bool :=
  match e with
  | ExportDoc.PdfDrawImage _ _ _ _ _ _ | ExportDoc.Canvas _ => true
  | _ => false
  end.

(** The download that the export of [f] ends with when it succeeds. *)
Definition downloadOf (f : File) : ExportDoc.Effect :=
  if String.eqb (type f) "application/pdf"
  then ExportDoc.Download ("signed-" ++ name f) ExportDoc.PdfBlob
  else ExportDoc.Download ("signed-" ++ ExportDoc.basename f ++ ".png")
         ExportDoc.PngDataUrl.

(** The rectangles handed to [ctx.drawImage]. *)
Definition drawnImages (l : list ExportDoc.Effect)
  : list (JS.num * JS.num * JS.num * JS.num) :=
  flat_map (fun k => match k with
                     | ExportDoc.drawImage dx dy dw dh => [(dx, dy, dw, dh)]
                     | _ => []
                     end) (canvasCmds l).

(** The matrix and the stack of the context after the run. *)
Definition finalCtx (Math_cos Math_sin : JS.num -> JS.num)
    (l : list ExportDoc.Effect) : Ctx :=
  fst (fold_left (exec Math_cos Math_sin) (canvasCmds l) ((identity, []), [])).

(** The texts drawn, each with the matrix it was drawn under. *)
Fixpoint textsUnder (Math_cos Math_sin : JS.num -> JS.num)
    (st : Ctx * list Mark) (cmds : list ExportDoc.CanvasCmd)
  : list (string * Matrix) :=
  match cmds with
  | [] => []
  | ExportDoc.fillText t _ _ :: rest =>
      (t, fst (fst st)) :: textsUnder Math_cos Math_sin st rest
  | k :: rest => textsUnder Math_cos Math_sin (exec Math_cos Math_sin st k) rest
  end.

End ExportTrace.

(* ------------------------------------------------------------------ *)
(** ** Concrete sessions of the drop zone, the modal and the loader *)

Module Sessions.

(** A picture and a sheet are dropped one after the other; the delivery
    of the sheet fires, then the timer of the refusal. *)
Definition twoDrops : list UploadZone.Event :=
  [ UploadZone.Drop [Sample.photo]; UploadZone.Drop [Sample.sheet];
    UploadZone.TimerFires 1; UploadZone.TimerFires 0 ].

(** A pad with a drawing on it. *)
Definition signedPad : SignatureModal.Pad :=
  {| SignatureModal.isEmpty := false; SignatureModal.trimmedDataUrl := Sample.dataUrl |}.

(** A file of 2048 bytes that decodes to document [d] with [n] pages,
    and one that the decoder rejects. *)
Definition decodes (d : nat) (n : Z) : PdfLoader.World :=
  {| PdfLoader.arrayBuffer_byteLength := Some 2048%Z;
     PdfLoader.getDocument := Some (d, n) |}.
Definition corrupt : PdfLoader.World :=
  {| PdfLoader.arrayBuffer_byteLength := Some 2048%Z;
     PdfLoader.getDocument := None |}.

End Sessions.

(* ================================================================== *)
(** * Properties *)

(* ------------------------------------------------------------------ *)
(** ** Facts about numbers *)

Lemma num_eqb_true (a b : JS.num) : JS.eqb a b = true -> a = b.
Proof.
  destruct a, b; simpl; try discriminate; try reflexivity.
  intro H. f_equal. now apply Qc_eq_bool_correct.
Qed.

Lemma num_eqb_refl (a : JS.num) : JS.eqb a a = true.
Proof.
  destruct a; simpl; try reflexivity.
  unfold Qc_eq_bool. destruct (Qc_eq_dec q q); congruence.
Qed.

Lemma num_eqb_false (a b : JS.num) : JS.eqb a b = false -> a <> b.
Proof.
  intros H E. subst. rewrite num_eqb_refl in H. discriminate.
Qed.

Lemma mul_comm (a b : JS.num) : (a * b = b * a)%js.
Proof.
  destruct a, b; simpl; try reflexivity.
  f_equal. ring.
Qed.

Lemma mul_1_l (a : JS.num) : (JS.lit 1 * a)%js = a.
Proof.
  destruct a; simpl; try reflexivity.
  f_equal. change (Q2Qc 1) with 1%Qc. ring.
Qed.

Lemma sub_1_0 : (JS.lit 1 - JS.lit 0)%js = JS.lit 1.
Proof. apply num_eqb_true. reflexivity. Qed.

Lemma leb_Fin (p q : Qc) : JS.leb (JS.Fin p) (JS.Fin q) = true <-> (p <= q)%Qc.
Proof.
  simpl. rewrite Qcle_alt. destruct (p ?= q)%Qc; split; congruence.
Qed.

Lemma ltb_Fin (p q : Qc) : JS.ltb (JS.Fin p) (JS.Fin q) = true <-> (p < q)%Qc.
Proof.
  simpl. rewrite Qclt_alt. destruct (p ?= q)%Qc; split; congruence.
Qed.

Lemma ltb_Fin_false (p q : Qc) : JS.ltb (JS.Fin p) (JS.Fin q) = false <-> (q <= p)%Qc.
Proof.
  split; intro H.
  - apply Qcnot_lt_le. intro L. apply ltb_Fin in L. congruence.
  - destruct (JS.ltb (JS.Fin p) (JS.Fin q)) eqn:E; [|reflexivity].
    apply ltb_Fin in E. exfalso. exact (Qclt_not_le _ _ E H).
Qed.

(** A number in a finite interval is finite and between the bounds. *)
Lemma in_range_Fin (l h : Qc) (a : JS.num) :
  JS.in_range (JS.Fin l) (JS.Fin h) a = true <->
  exists q, a = JS.Fin q /\ (l <= q)%Qc /\ (q <= h)%Qc.
Proof.
  unfold JS.in_range. split.
  - intro H. apply andb_true_iff in H. destruct H as [H1 H2].
    destruct a; try discriminate.
    exists q. repeat split; now apply leb_Fin.
  - intros (q & -> & H1 & H2). apply andb_true_iff.
    split; now apply leb_Fin.
Qed.

(* ------------------------------------------------------------------ *)
(** ** The PDF export *)

Section PdfExport.

Variables (s : App.State) (doc : File) (sig : string) (w : ExportDoc.World).
Variables (pages : list Size) (pngImage : Size).

(** A PDF and a signature are present, and the document loads and the
    signature embeds. *)
Hypothesis Hfile : App.file s = Some doc.
Hypothesis Htype : type doc = "application/pdf"%string.
Hypothesis Hsig : App.signature s = Some sig.
Hypothesis Hsig_nonempty : sig <> ""%string.
Hypothesis Himport : ExportDoc.import_pdf_lib w = true.
Hypothesis Hbytes : ExportDoc.file_arrayBuffer w = true.
Hypothesis Hload : ExportDoc.PDFDocument_load w = Some pages.
Hypothesis Hfetch : ExportDoc.fetch_signature w = true.
Hypothesis Hembed : ExportDoc.embedPng w = Some pngImage.

Lemma truthy_signature : ExportDoc.truthy (App.signature s) = true.
Proof.
  rewrite Hsig. simpl. destruct sig; [congruence | reflexivity].
Qed.

(** The run up to the choice of the page, with the collaborators'
    answers filled in. *)
Lemma exportPdf_unfold :
  ExportDoc.exportPdf s doc w =
  match ExportDoc.targetPage pages (App.pageNum s) with
  | None => ([], ExportDoc.Thrown)
  | Some (i, pg) =>
      let sigWidth := App.signatureSize s in
      let sigHeight := (height pngImage / width pngImage * sigWidth)%js in
      let px := (x (App.signaturePosition s) * width pg - sigWidth / JS.lit 2)%js in
      let py := ((JS.lit 1 - y (App.signaturePosition s)) * height pg
                 - sigHeight / JS.lit 2)%js in
      let draw :=
        ExportDoc.PdfDrawImage i px py sigWidth sigHeight (App.signatureRotation s) in
      if ExportDoc.drawImage_throws px py sigWidth sigHeight (App.signatureRotation s)
      then ([draw], ExportDoc.Thrown)
      else if ExportDoc.pdfDoc_save w
           then ([draw; ExportDoc.Download ("signed-" ++ name doc) ExportDoc.PdfBlob],
                 ExportDoc.Val tt)
           else ([draw], ExportDoc.Thrown)
  end.
Proof.
  unfold ExportDoc.exportPdf.
  rewrite Himport, Hbytes, Hload, Hfetch, Hembed. cbn -[ExportDoc.drawImage_throws].
  destruct (ExportDoc.targetPage pages (App.pageNum s)) as [[i pg]|]; [|reflexivity].
  cbn -[ExportDoc.drawImage_throws].
  destruct (ExportDoc.drawImage_throws _ _ _ _ _); [reflexivity|].
  destruct (ExportDoc.pdfDoc_save w); reflexivity.
Qed.

Lemma handleDownload_pdf :
  ExportDoc.handleDownload s w =
  let (l, r) := ExportDoc.exportPdf s doc w in
  match r with
  | ExportDoc.Val _ | ExportDoc.Returned =>
      (ExportDoc.SetIsDownloading true :: l ++ [ExportDoc.SetIsDownloading false],
       ExportDoc.Settled)
  | ExportDoc.Thrown =>
      (ExportDoc.SetIsDownloading true
         :: l ++ [ExportDoc.ConsoleError; ExportDoc.Alert;
                  ExportDoc.SetIsDownloading false],
       ExportDoc.Settled)
  | ExportDoc.Waiting => (ExportDoc.SetIsDownloading true :: l, ExportDoc.Pending)
  end.
Proof.
  unfold ExportDoc.handleDownload.
  rewrite Hfile, truthy_signature, Htype. reflexivity.
Qed.

Lemma pdf_draw_of_target (i : nat) (pg : Size) :
  ExportDoc.targetPage pages (App.pageNum s) = Some (i, pg) ->
  let sigW := App.signatureSize s in
  let sigH := (sigW * (height pngImage / width pngImage))%js in
  ExportDoc.pdfDraws (fst (ExportDoc.handleDownload s w)) =
  [ ExportDoc.PdfDrawImage i
      (x (App.signaturePosition s) * width pg - sigW / JS.lit 2)%js
      ((JS.lit 1 - y (App.signaturePosition s)) * height pg - sigH / JS.lit 2)%js
      sigW sigH (App.signatureRotation s) ].
Proof.
  intros Ht sigW sigH. subst sigW sigH.
  rewrite handleDownload_pdf, exportPdf_unfold, Ht.
  rewrite (mul_comm (App.signatureSize s)).
  cbv zeta.
  destruct (ExportDoc.drawImage_throws _ _ _ _ _); [reflexivity|].
  destruct (ExportDoc.pdfDoc_save w); reflexivity.
Qed.

(** The whole run when the draw is accepted and the document saves. *)
Lemma pdf_success_of_target (i : nat) (pg : Size) :
  ExportDoc.targetPage pages (App.pageNum s) = Some (i, pg) ->
  let sigW := App.signatureSize s in
  let sigH := (height pngImage / width pngImage * sigW)%js in
  let px := (x (App.signaturePosition s) * width pg - sigW / JS.lit 2)%js in
  let py := ((JS.lit 1 - y (App.signaturePosition s)) * height pg
             - sigH / JS.lit 2)%js in
  ExportDoc.drawImage_throws px py sigW sigH (App.signatureRotation s) = false ->
  ExportDoc.pdfDoc_save w = true ->
  ExportDoc.handleDownload s w =
  ([ ExportDoc.SetIsDownloading true;
     ExportDoc.PdfDrawImage i px py sigW sigH (App.signatureRotation s);
     ExportDoc.Download ("signed-" ++ name doc) ExportDoc.PdfBlob;
     ExportDoc.SetIsDownloading false ], ExportDoc.Settled).
Proof.
  intros Ht sigW sigH px py Hdraw Hsave. subst sigW sigH px py.
  rewrite handleDownload_pdf, exportPdf_unfold, Ht.
  cbv zeta. rewrite Hdraw, Hsave. reflexivity.
Qed.

(** The run when the statement [drawImage] throws: the catch alerts. *)
Lemma pdf_rejected_draw_of_target (i : nat) (pg : Size) :
  ExportDoc.targetPage pages (App.pageNum s) = Some (i, pg) ->
  let sigW := App.signatureSize s in
  let sigH := (height pngImage / width pngImage * sigW)%js in
  let px := (x (App.signaturePosition s) * width pg - sigW / JS.lit 2)%js in
  let py := ((JS.lit 1 - y (App.signaturePosition s)) * height pg
             - sigH / JS.lit 2)%js in
  ExportDoc.drawImage_throws px py sigW sigH (App.signatureRotation s) = true ->
  ExportDoc.handleDownload s w =
  ([ ExportDoc.SetIsDownloading true;
     ExportDoc.PdfDrawImage i px py sigW sigH (App.signatureRotation s);
     ExportDoc.ConsoleError; ExportDoc.Alert;
     ExportDoc.SetIsDownloading false ], ExportDoc.Settled).
Proof.
  intros Ht sigW sigH px py Hdraw. subst sigW sigH px py.
  rewrite handleDownload_pdf, exportPdf_unfold, Ht.
  cbv zeta. rewrite Hdraw. reflexivity.
Qed.

(** The run when the document has no page to draw on. *)
Lemma pdf_no_target :
  ExportDoc.targetPage pages (App.pageNum s) = None ->
  ExportDoc.handleDownload s w =
  ([ ExportDoc.SetIsDownloading true; ExportDoc.ConsoleError; ExportDoc.Alert;
     ExportDoc.SetIsDownloading false ], ExportDoc.Settled).
Proof.
  intro Ht. rewrite handleDownload_pdf, exportPdf_unfold, Ht. reflexivity.
Qed.

End PdfExport.

(** Outside of [1 .. length], the page looked up is the first one. *)
Lemma targetPage_out_of_range (pages : list Size) (first : Size) (rest : list Size)
    (pageNum : Z) :
  pages = first :: rest ->
  ~ (1 <= pageNum <= Z.of_nat (List.length pages))%Z ->
  ExportDoc.targetPage pages pageNum = Some (0%nat, first).
Proof.
  intros -> Hout. unfold ExportDoc.targetPage, Str.index.
  destruct (pageNum - 1 <? 0)%Z eqn:E; [reflexivity|].
  apply Z.ltb_ge in E.
  assert (Hn : (List.length (first :: rest) <= Z.to_nat (pageNum - 1))%nat).
  { cbn [List.length] in *. lia. }
  apply nth_error_None in Hn. rewrite Hn. reflexivity.
Qed.

(** Inside of [1 .. length], it is the page of that number. *)
Lemma targetPage_in_range (pages : list Size) (pageNum : Z) :
  (1 <= pageNum <= Z.of_nat (List.length pages))%Z ->
  exists pg, nth_error pages (Z.to_nat (pageNum - 1)) = Some pg /\
             ExportDoc.targetPage pages pageNum = Some (Z.to_nat (pageNum - 1), pg).
Proof.
  intro Hin. unfold ExportDoc.targetPage, Str.index.
  destruct (pageNum - 1 <? 0)%Z eqn:E; [apply Z.ltb_lt in E; lia|].
  destruct (nth_error pages (Z.to_nat (pageNum - 1))) as [pg|] eqn:N.
  - exists pg. split; reflexivity.
  - apply nth_error_None in N. lia.
Qed.

(** C1. For every placement, signature image and target page of size
    pageWidth x pageHeight, the PDF export draws the signature exactly
    once, with width sigW = signatureSize, height
    sigH = sigW * (imageHeight / imageWidth), at
    x = position.x * pageWidth - sigW/2 and
    y = (1 - position.y) * pageHeight - sigH/2; and for a placement with
    position.y = 0 that y is pageHeight - sigH/2. *)
Theorem C1_pdf_export_transform
    (s : App.State) (doc : File) (sig : string) (w : ExportDoc.World)
    (pages : list Size) (pngImage : Size) (i : nat) (pg : Size) :
  App.file s = Some doc ->
  type doc = "application/pdf"%string ->
  App.signature s = Some sig ->
  sig <> ""%string ->
  ExportDoc.import_pdf_lib w = true ->
  ExportDoc.file_arrayBuffer w = true ->
  ExportDoc.PDFDocument_load w = Some pages ->
  ExportDoc.fetch_signature w = true ->
  ExportDoc.embedPng w = Some pngImage ->
  ExportDoc.targetPage pages (App.pageNum s) = Some (i, pg) ->
  let position := App.signaturePosition s in
  let pageWidth := width pg in
  let pageHeight := height pg in
  let sigW := App.signatureSize s in
  let sigH := (sigW * (height pngImage / width pngImage))%js in
  ExportDoc.pdfDraws (fst (ExportDoc.handleDownload s w)) =
    [ ExportDoc.PdfDrawImage i
        (x position * pageWidth - sigW / JS.lit 2)%js
        ((JS.lit 1 - y position) * pageHeight - sigH / JS.lit 2)%js
        sigW sigH (App.signatureRotation s) ]
  /\ (y position = JS.lit 0 ->
      ((JS.lit 1 - y position) * pageHeight - sigH / JS.lit 2
       = pageHeight - sigH / JS.lit 2)%js).
Proof.
  intros Hfile Htype Hsig Hne Himp Hbytes Hload Hfetch Hembed Ht.
  intros position pageWidth pageHeight sigW sigH. split.
  - exact (pdf_draw_of_target s doc sig w pages pngImage
             Hfile Htype Hsig Hne Himp Hbytes Hload Hfetch Hembed i pg Ht).
  - intro Hy. rewrite Hy, sub_1_0, mul_1_l. reflexivity.
Qed.

(** The C1 statement at the top-centre placement on a letter page. *)
Lemma C1_pdf_export_transform_witness :
  ExportDoc.pdfDraws (fst (ExportDoc.handleDownload Sample.topCentre Sample.world)) =
    [ ExportDoc.PdfDrawImage 0
        (JS.lit 0.5 * JS.lit 612 - JS.lit 150 / JS.lit 2)%js
        ((JS.lit 1 - JS.lit 0) * JS.lit 792
         - JS.lit 150 * (JS.lit 100 / JS.lit 300) / JS.lit 2)%js
        (JS.lit 150) (JS.lit 150 * (JS.lit 100 / JS.lit 300))%js (JS.lit 0) ]
  /\ (JS.lit 0 = JS.lit 0 ->
      ((JS.lit 1 - JS.lit 0) * JS.lit 792
       - JS.lit 150 * (JS.lit 100 / JS.lit 300) / JS.lit 2
       = JS.lit 792 - JS.lit 150 * (JS.lit 100 / JS.lit 300) / JS.lit 2)%js).
Proof.
  apply (C1_pdf_export_transform Sample.topCentre Sample.pdf Sample.dataUrl
           Sample.world [Sample.letter; Sample.a4] Sample.ink 0 Sample.letter);
    try reflexivity.
  discriminate.
Defined.

(** The numbers of that placement: x = 231, y = 767 = 792 - 50/2. *)
Example pdf_top_centre_values :
  ExportDoc.pdfDraws (fst (ExportDoc.handleDownload Sample.topCentre Sample.world)) =
  [ ExportDoc.PdfDrawImage 0 (JS.lit 231) (JS.lit 767) (JS.lit 150) (JS.lit 50)
      (JS.lit 0) ].
Proof.
  rewrite (pdf_draw_of_target Sample.topCentre Sample.pdf Sample.dataUrl Sample.world
             [Sample.letter; Sample.a4] Sample.ink
             eq_refl eq_refl eq_refl ltac:(discriminate) eq_refl eq_refl eq_refl
             eq_refl eq_refl 0%nat Sample.letter eq_refl).
  cbv zeta. repeat f_equal; apply num_eqb_true; vm_compute; reflexivity.
Qed.

Lemma targetPage_nil (pageNum : Z) : ExportDoc.targetPage [] pageNum = None.
Proof.
  unfold ExportDoc.targetPage, Str.index.
  destruct (pageNum - 1 <? 0)%Z; [reflexivity|].
  destruct (Z.to_nat (pageNum - 1)); reflexivity.
Qed.

(** C3, as the code has it.  For every PDF export in which the requested
    page number lies outside of 1..pageCount: when the document has at
    least one page, the lookup falls back to the first page instead of
    failing, that is, the one [drawImage] of the run is made on page
    index 0, and the export succeeds (the download of the signed file,
    no alert) whenever pdf-lib accepts the drawn rectangle (no NaN among
    x, y, width, height and the angle) and the document saves; when the
    document has no page at all, the guard after the lookup throws, and
    the run ends with one alert and without a draw or a download. *)
Theorem C3_page_out_of_range_targets_first_page
    (s : App.State) (doc : File) (sig : string) (w : ExportDoc.World)
    (pages : list Size) (pngImage : Size) :
  App.file s = Some doc ->
  type doc = "application/pdf"%string ->
  App.signature s = Some sig ->
  sig <> ""%string ->
  ExportDoc.import_pdf_lib w = true ->
  ExportDoc.file_arrayBuffer w = true ->
  ExportDoc.PDFDocument_load w = Some pages ->
  ExportDoc.fetch_signature w = true ->
  ExportDoc.embedPng w = Some pngImage ->
  ~ (1 <= App.pageNum s <= Z.of_nat (List.length pages))%Z ->
  let position := App.signaturePosition s in
  let sigWidth := App.signatureSize s in
  let sigHeight := (height pngImage / width pngImage * sigWidth)%js in
  (forall (first : Size) (rest : list Size),
     pages = first :: rest ->
     let px := (x position * width first - sigWidth / JS.lit 2)%js in
     let py := ((JS.lit 1 - y position) * height first - sigHeight / JS.lit 2)%js in
     let draw :=
       ExportDoc.PdfDrawImage 0 px py sigWidth sigHeight (App.signatureRotation s) in
     ExportDoc.pdfDraws (fst (ExportDoc.handleDownload s w)) = [draw]
     /\ (ExportDoc.drawImage_throws px py sigWidth sigHeight (App.signatureRotation s)
         = false ->
         ExportDoc.pdfDoc_save w = true ->
         ExportDoc.handleDownload s w =
         ([ ExportDoc.SetIsDownloading true; draw;
            ExportDoc.Download ("signed-" ++ name doc) ExportDoc.PdfBlob;
            ExportDoc.SetIsDownloading false ], ExportDoc.Settled)))
  /\ (pages = [] ->
      ExportDoc.handleDownload s w =
      ([ ExportDoc.SetIsDownloading true; ExportDoc.ConsoleError; ExportDoc.Alert;
         ExportDoc.SetIsDownloading false ], ExportDoc.Settled)).
Proof.
  intros Hfile Htype Hsig Hne Himp Hbytes Hload Hfetch Hembed Hout.
  intros position sigWidth sigHeight. split.
  - intros first rest Hpages px py draw.
    pose proof (targetPage_out_of_range pages first rest (App.pageNum s) Hpages Hout)
      as Ht.
    split.
    + pose proof (pdf_draw_of_target s doc sig w pages pngImage
                    Hfile Htype Hsig Hne Himp Hbytes Hload Hfetch Hembed 0%nat first Ht)
        as Hdraw.
      cbv zeta in Hdraw. rewrite Hdraw.
      subst draw px py sigHeight sigWidth position.
      now rewrite (mul_comm (App.signatureSize s)).
    + intros Hok Hsave.
      exact (pdf_success_of_target s doc sig w pages pngImage
               Hfile Htype Hsig Hne Himp Hbytes Hload Hfetch Hembed 0%nat first Ht
               Hok Hsave).
  - intros ->.
    apply (pdf_no_target s doc sig w [] pngImage
             Hfile Htype Hsig Hne Himp Hbytes Hload Hfetch Hembed).
    apply targetPage_nil.
Qed.

(** The C3 statement for page number 7 of a two-page document: the
    signature goes to the first page, a letter page, and the signed file
    is downloaded. *)
Lemma C3_page_out_of_range_targets_first_page_witness :
  ExportDoc.handleDownload Sample.pastTheEnd Sample.world =
  ([ ExportDoc.SetIsDownloading true;
     ExportDoc.PdfDrawImage 0
       (JS.lit 0.85 * JS.lit 612 - JS.lit 150 / JS.lit 2)%js
       ((JS.lit 1 - JS.lit 0.8) * JS.lit 792
        - JS.lit 100 / JS.lit 300 * JS.lit 150 / JS.lit 2)%js
       (JS.lit 150) (JS.lit 100 / JS.lit 300 * JS.lit 150)%js (JS.lit 0);
     ExportDoc.Download "signed-contract.pdf" ExportDoc.PdfBlob;
     ExportDoc.SetIsDownloading false ], ExportDoc.Settled).
Proof.
  refine (proj2 (proj1 (C3_page_out_of_range_targets_first_page
                          Sample.pastTheEnd Sample.pdf Sample.dataUrl Sample.world
                          [Sample.letter; Sample.a4] Sample.ink
                          eq_refl eq_refl eq_refl _ eq_refl eq_refl eq_refl eq_refl
                          eq_refl _)
                   Sample.letter [Sample.a4] eq_refl) eq_refl eq_refl).
  - discriminate.
  - cbn. lia.
Defined.

(** C3 as stated fails for a document without pages: every page number
    is outside of 1..0, the lookup finds no first page either, and the
    export of page 7 ends at the guard with an alert and no download,
    where the claim has it succeed on page 1. *)
Lemma C3_document_without_pages_counterexample :
  ExportDoc.PDFDocument_load Sample.blank = Some []
  /\ ~ (1 <= App.pageNum Sample.pastTheEnd <= Z.of_nat (List.length (@nil Size)))%Z
  /\ ExportDoc.handleDownload Sample.pastTheEnd Sample.blank =
     ([ ExportDoc.SetIsDownloading true; ExportDoc.ConsoleError; ExportDoc.Alert;
        ExportDoc.SetIsDownloading false ], ExportDoc.Settled)
  /\ ExportDoc.count ExportDoc.is_download
       (fst (ExportDoc.handleDownload Sample.pastTheEnd Sample.blank)) = 0%nat.
Proof.
  split; [reflexivity|]. split; [cbn; lia|]. split; reflexivity.
Qed.

(** A draw that pdf-lib refuses: after the drag over a container without
    extent the position is (NaN, NaN); the export still looks up the
    first page for page number 7, the statement [drawImage] throws on
    the NaN coordinates, and the run ends with an alert and no
    download. *)
Example pdf_export_of_NaN_position :
  App.signaturePosition Sample.adrift = {| x := JS.NaN; y := JS.NaN |}
  /\ ExportDoc.handleDownload Sample.adrift Sample.world =
     ([ ExportDoc.SetIsDownloading true;
        ExportDoc.PdfDrawImage 0 JS.NaN JS.NaN (JS.lit 150) (JS.lit 50) (JS.lit 0);
        ExportDoc.ConsoleError; ExportDoc.Alert;
        ExportDoc.SetIsDownloading false ], ExportDoc.Settled).
Proof.
  split; [vm_compute; reflexivity|].
  rewrite (pdf_rejected_draw_of_target Sample.adrift Sample.pdf Sample.dataUrl
             Sample.world [Sample.letter; Sample.a4] Sample.ink
             eq_refl eq_refl eq_refl ltac:(discriminate) eq_refl eq_refl eq_refl
             eq_refl eq_refl 0%nat Sample.letter eq_refl eq_refl).
  cbv zeta.
  repeat f_equal;
    first [ apply num_eqb_true; vm_compute; reflexivity | vm_compute; reflexivity ].
Qed.

(* ------------------------------------------------------------------ *)
(** ** The raster export *)

Lemma div_Fin_2 (p : Qc) : (JS.Fin p / JS.lit 2)%js = JS.Fin (p / Q2Qc 2)%Qc.
Proof. reflexivity. Qed.

Lemma finite_inv (v : JS.num) : JS.is_finite v = true -> exists q, v = JS.Fin q.
Proof. destruct v; try discriminate. intros _. now exists q. Qed.

(** A rectangle drawn around the origin of a context that was translated
    to a point and then rotated has its centre at that point. *)
Lemma centre_of_rotated_mark (Math_cos Math_sin : JS.num -> JS.num)
    (cx cy w h : Qc) (angle : JS.num) :
  JS.is_finite (Math_cos angle) = true ->
  JS.is_finite (Math_sin angle) = true ->
  transformPoint
    (rotateBy Math_cos Math_sin (translateBy identity (JS.Fin cx) (JS.Fin cy)) angle)
    ((- JS.Fin w / JS.lit 2 + JS.Fin w / JS.lit 2)%js,
     (- JS.Fin h / JS.lit 2 + JS.Fin h / JS.lit 2)%js)
  = (JS.Fin cx, JS.Fin cy).
Proof.
  intros Hc Hs.
  apply finite_inv in Hc. destruct Hc as [co Hc].
  apply finite_inv in Hs. destruct Hs as [si Hs].
  unfold transformPoint, rotateBy, translateBy, identity.
  cbn [m_a m_b m_c m_d m_e m_f]. rewrite Hc, Hs.
  cbn [JS.neg]. rewrite !div_Fin_2. unfold JS.lit.
  cbn [JS.add JS.sub JS.mul JS.neg].
  f_equal; f_equal; change (Q2Qc 1) with 1%Qc; change (Q2Qc 0) with 0%Qc; field;
    discriminate.
Qed.

(** C4. For every placement and signature image, the raster export draws
    the signature once on the 800 x 600 canvas, with width
    sigW = signatureSize * 2, centred at
    (position.x * canvasWidth, position.y * canvasHeight) without a
    vertical flip, under a context translated to that centre and rotated
    by the displayed (clockwise) degrees converted to radians; a
    placement at (0.85, 0.8) is centred at
    (0.85 * canvasWidth, 0.8 * canvasHeight).  (Position, size and the
    aspect ratio of the image are finite numbers.) *)
Theorem C4_raster_export_transform
    (Math_cos Math_sin : JS.num -> JS.num)
    (s : App.State) (doc : File) (sig : string) (w : ExportDoc.World) (img : Size) :
  App.file s = Some doc ->
  type doc <> "application/pdf"%string ->
  App.signature s = Some sig ->
  sig <> ""%string ->
  ExportDoc.getContext_2d w = true ->
  ExportDoc.img_onload w = Some img ->
  JS.is_finite (x (App.signaturePosition s)) = true ->
  JS.is_finite (y (App.signaturePosition s)) = true ->
  JS.is_finite (App.signatureSize s) = true ->
  JS.is_finite (height img / width img)%js = true ->
  let angle := (SignaturePreview.displayedRotationDeg s * JS.Math_PI / JS.lit 180)%js in
  JS.is_finite (Math_cos angle) = true ->
  JS.is_finite (Math_sin angle) = true ->
  let sigW := (App.signatureSize s * JS.lit 2)%js in
  let sigH := (height img / width img * sigW)%js in
  let centerX := (x (App.signaturePosition s) * ExportDoc.canvas_width)%js in
  let centerY := (y (App.signaturePosition s) * ExportDoc.canvas_height)%js in
  marks Math_cos Math_sin (fst (ExportDoc.handleDownload s w)) =
    [ {| centre := (centerX, centerY); markWidth := sigW; markHeight := sigH;
         under := rotateBy Math_cos Math_sin
                    (translateBy identity centerX centerY) angle |} ]
  /\ rotations (fst (ExportDoc.handleDownload s w)) = [ angle ]
  /\ (App.signaturePosition s = {| x := JS.lit 0.85; y := JS.lit 0.8 |} ->
      map centre (marks Math_cos Math_sin (fst (ExportDoc.handleDownload s w))) =
      [ ((JS.lit 0.85 * ExportDoc.canvas_width)%js,
         (JS.lit 0.8 * ExportDoc.canvas_height)%js) ]).
Proof.
  intros Hfile Htype Hsig Hne Hctx Himg Hx Hy Hsz Hratio angle Hcos Hsin
         sigW sigH centerX centerY.
  assert (Hrun : fst (ExportDoc.handleDownload s w) =
    ExportDoc.SetIsDownloading true ::
    map ExportDoc.Canvas
      [ ExportDoc.fillRect (JS.lit 0) (JS.lit 0) ExportDoc.canvas_width ExportDoc.canvas_height;
        ExportDoc.strokeRect (JS.lit 0) (JS.lit 0) ExportDoc.canvas_width ExportDoc.canvas_height;
        ExportDoc.fillText "Document Signed" (ExportDoc.canvas_width / JS.lit 2)%js (JS.lit 100);
        ExportDoc.fillText (name doc) (ExportDoc.canvas_width / JS.lit 2)%js (JS.lit 150);
        ExportDoc.save;
        ExportDoc.translate centerX centerY;
        ExportDoc.rotate angle;
        ExportDoc.drawImage (- sigW / JS.lit 2)%js (- sigH / JS.lit 2)%js sigW sigH;
        ExportDoc.restore;
        ExportDoc.fillText ("Signed on: " ++ ExportDoc.now w)
          (ExportDoc.canvas_width / JS.lit 2)%js
          (ExportDoc.canvas_height - JS.lit 50)%js ]
    ++ (if ExportDoc.toDataURL w
        then [ ExportDoc.Download ("signed-" ++ ExportDoc.basename doc ++ ".png")
                 ExportDoc.PngDataUrl;
               ExportDoc.SetIsDownloading false ]
        else [ ExportDoc.ConsoleError; ExportDoc.Alert;
               ExportDoc.SetIsDownloading false ])).
  { unfold ExportDoc.handleDownload. rewrite Hfile.
    assert (Ht : ExportDoc.truthy (App.signature s) = true).
    { rewrite Hsig. simpl. destruct sig; [congruence|reflexivity]. }
    rewrite Ht. apply String.eqb_neq in Htype. rewrite Htype.
    unfold ExportDoc.exportRaster. rewrite Hctx, Himg.
    destruct (ExportDoc.toDataURL w); reflexivity. }
  assert (Hmarks : marks Math_cos Math_sin (fst (ExportDoc.handleDownload s w)) =
    [ {| centre := transformPoint
                     (rotateBy Math_cos Math_sin
                        (translateBy identity centerX centerY) angle)
                     ((- sigW / JS.lit 2 + sigW / JS.lit 2)%js,
                      (- sigH / JS.lit 2 + sigH / JS.lit 2)%js);
         markWidth := sigW; markHeight := sigH;
         under := rotateBy Math_cos Math_sin
                    (translateBy identity centerX centerY) angle |} ]).
  { rewrite Hrun. unfold marks, canvasCmds.
    destruct (ExportDoc.toDataURL w); reflexivity. }
  assert (Hcentre : transformPoint
                     (rotateBy Math_cos Math_sin
                        (translateBy identity centerX centerY) angle)
                     ((- sigW / JS.lit 2 + sigW / JS.lit 2)%js,
                      (- sigH / JS.lit 2 + sigH / JS.lit 2)%js)
                    = (centerX, centerY)).
  { subst sigW sigH centerX centerY.
    destruct (finite_inv _ Hx) as [px Epx]. destruct (finite_inv _ Hy) as [py Epy].
    destruct (finite_inv _ Hsz) as [sz Esz]. destruct (finite_inv _ Hratio) as [ra Era].
    rewrite Epx, Epy, Esz, Era.
    unfold ExportDoc.canvas_width, ExportDoc.canvas_height, JS.lit.
    cbn [JS.mul].
    now apply centre_of_rotated_mark. }
  split; [|split].
  - rewrite Hmarks, Hcentre. reflexivity.
  - rewrite Hrun. unfold rotations, canvasCmds.
    destruct (ExportDoc.toDataURL w); reflexivity.
  - intro Hpos. rewrite Hmarks, Hcentre. subst centerX centerY.
    rewrite Hpos. reflexivity.
Qed.

(** The C4 statement for a signed CSV file at the default placement;
    cosine and sine are only needed at the angle 0 of that placement. *)
Lemma C4_raster_export_transform_witness :
  map centre
    (marks (fun _ => JS.lit 1) (fun _ => JS.lit 0)
       (fst (ExportDoc.handleDownload Sample.signedSheet Sample.world))) =
  [ ((JS.lit 0.85 * ExportDoc.canvas_width)%js,
     (JS.lit 0.8 * ExportDoc.canvas_height)%js) ].
Proof.
  apply (C4_raster_export_transform (fun _ => JS.lit 1) (fun _ => JS.lit 0)
           Sample.signedSheet Sample.sheet Sample.dataUrl Sample.world Sample.ink);
    try reflexivity; discriminate.
Defined.

(** The numbers of that export: a mark 300 wide centred at (680, 480). *)
Example raster_default_values :
  map (fun m => (centre m, markWidth m))
    (marks (fun _ => JS.lit 1) (fun _ => JS.lit 0)
       (fst (ExportDoc.handleDownload Sample.signedSheet Sample.world))) =
  [ ((JS.lit 680, JS.lit 480), JS.lit 300) ].
Proof.
  cbv [marks canvasCmds ExportDoc.handleDownload Sample.signedSheet fst].
  cbn -[JS.add JS.sub JS.mul JS.div JS.neg JS.lit].
  repeat f_equal; apply num_eqb_true; vm_compute; reflexivity.
Qed.

(* ------------------------------------------------------------------ *)
(** ** Failed exports *)

Lemma pdf_failure_throws (s : App.State) (doc : File) (w : ExportDoc.World) :
  ExportDoc.pdf_step_fails s w ->
  exists l, ExportDoc.exportPdf s doc w = (l, ExportDoc.Thrown) /\
            ExportDoc.count ExportDoc.is_alert l = 0%nat /\
            ExportDoc.count ExportDoc.is_download l = 0%nat /\
            ExportDoc.count ExportDoc.is_start l = 0%nat.
Proof.
  unfold ExportDoc.pdf_step_fails, ExportDoc.exportPdf. intro H.
  destruct (ExportDoc.import_pdf_lib w); [|cbn; eauto].
  destruct (ExportDoc.file_arrayBuffer w); [|cbn; eauto].
  destruct (ExportDoc.PDFDocument_load w) as [pages|]; [|cbn; eauto].
  destruct (ExportDoc.fetch_signature w); [|cbn; eauto].
  destruct (ExportDoc.embedPng w) as [png|]; [|cbn; eauto].
  destruct (ExportDoc.targetPage pages (App.pageNum s)) as [[i pg]|] eqn:T;
    [|cbn; rewrite T; cbn; eauto].
  cbn -[ExportDoc.drawImage_throws]. rewrite T. cbn -[ExportDoc.drawImage_throws].
  destruct (ExportDoc.drawImage_throws _ _ _ _ _); [cbn; eauto|].
  destruct (ExportDoc.pdfDoc_save w); [|cbn; eauto].
  exfalso.
  destruct H as [H|[H|[H|[H|[H|[H|H]]]]]]; try discriminate.
  destruct H as (pages' & E & T'). injection E as <-. congruence.
Qed.

Lemma raster_failure_throws (s : App.State) (doc : File) (w : ExportDoc.World) :
  ExportDoc.raster_encode_fails w ->
  exists l, ExportDoc.exportRaster s doc w = (l, ExportDoc.Thrown) /\
            ExportDoc.count ExportDoc.is_alert l = 0%nat /\
            ExportDoc.count ExportDoc.is_download l = 0%nat /\
            ExportDoc.count ExportDoc.is_start l = 0%nat.
Proof.
  unfold ExportDoc.raster_encode_fails, ExportDoc.exportRaster.
  intros (Hctx & Himg & Henc). rewrite Hctx, Henc.
  destruct (ExportDoc.img_onload w) as [img|]; [|congruence].
  cbn. eauto.
Qed.

Lemma count_app (p : ExportDoc.Effect -> bool) (l1 l2 : list ExportDoc.Effect) :
  ExportDoc.count p (l1 ++ l2) = (ExportDoc.count p l1 + ExportDoc.count p l2)%nat.
Proof. unfold ExportDoc.count. now rewrite filter_app, length_app. Qed.

(** What [catch] and [finally] add to a body that threw. *)
Lemma handleDownload_thrown (s : App.State) (doc : File) (w : ExportDoc.World)
    (l : list ExportDoc.Effect) :
  App.file s = Some doc ->
  ExportDoc.truthy (App.signature s) = true ->
  (if String.eqb (type doc) "application/pdf"
   then ExportDoc.exportPdf s doc w else ExportDoc.exportRaster s doc w)
  = (l, ExportDoc.Thrown) ->
  ExportDoc.handleDownload s w =
  (ExportDoc.SetIsDownloading true
     :: l ++ [ExportDoc.ConsoleError; ExportDoc.Alert; ExportDoc.SetIsDownloading false],
   ExportDoc.Settled).
Proof.
  intros Hfile Ht Hbody. unfold ExportDoc.handleDownload.
  rewrite Hfile, Ht, Hbody. reflexivity.
Qed.

(** C7, as the code has it.  An export attempt in which a step fails with
    an error (import, read, load, fetch, embed, missing page, serialise,
    or the encoding of the canvas) raises one alert, triggers no
    download, is attempted once and settles; an attempt without a file or
    without a signature returns at the guard: nothing is surfaced and
    nothing is written. *)
Theorem C7_failed_export_alerts_once (s : App.State) (w : ExportDoc.World) :
  (App.file s = None \/ ExportDoc.truthy (App.signature s) = false ->
   ExportDoc.handleDownload s w = ([], ExportDoc.Settled))
  /\ (forall doc,
        App.file s = Some doc ->
        ExportDoc.truthy (App.signature s) = true ->
        ExportDoc.export_fails s doc w ->
        let l := fst (ExportDoc.handleDownload s w) in
        ExportDoc.count ExportDoc.is_alert l = 1%nat /\
        ExportDoc.count ExportDoc.is_download l = 0%nat /\
        ExportDoc.count ExportDoc.is_start l = 1%nat /\
        snd (ExportDoc.handleDownload s w) = ExportDoc.Settled).
Proof.
  split.
  - intros [H|H]; unfold ExportDoc.handleDownload.
    + now rewrite H.
    + rewrite H. now destruct (App.file s).
  - intros doc Hfile Ht Hfail l.
    assert (Hbody : exists l0,
      (if String.eqb (type doc) "application/pdf"
       then ExportDoc.exportPdf s doc w else ExportDoc.exportRaster s doc w)
      = (l0, ExportDoc.Thrown) /\
      ExportDoc.count ExportDoc.is_alert l0 = 0%nat /\
      ExportDoc.count ExportDoc.is_download l0 = 0%nat /\
      ExportDoc.count ExportDoc.is_start l0 = 0%nat).
    { destruct Hfail as [[Hty Hf]|[Hty Hf]].
      - apply String.eqb_eq in Hty. rewrite Hty. now apply pdf_failure_throws.
      - apply String.eqb_neq in Hty. rewrite Hty. now apply raster_failure_throws. }
    destruct Hbody as (l0 & Hbody & Ha & Hd & Hs).
    subst l. rewrite (handleDownload_thrown s doc w l0 Hfile Ht Hbody).
    cbn [fst snd].
    change (ExportDoc.SetIsDownloading true :: l0 ++ ?t)
      with ([ExportDoc.SetIsDownloading true] ++ l0 ++ t).
    rewrite !count_app, Ha, Hd, Hs. repeat split; reflexivity.
Qed.

(** The C7 statement for a PDF without signature and for a PDF whose
    signature does not embed. *)
Lemma C7_failed_export_alerts_once_witness :
  ExportDoc.handleDownload Sample.unsigned Sample.world = ([], ExportDoc.Settled)
  /\ ExportDoc.count ExportDoc.is_alert
       (fst (ExportDoc.handleDownload Sample.signedPdf Sample.embedFails)) = 1%nat.
Proof.
  split.
  - apply (proj1 (C7_failed_export_alerts_once Sample.unsigned Sample.world)).
    right. reflexivity.
  - apply (proj2 (C7_failed_export_alerts_once Sample.signedPdf Sample.embedFails)
             Sample.pdf); try reflexivity.
    left. split; [reflexivity|].
    right. right. right. right. left. reflexivity.
Defined.

(** C7 as stated fails for a missing signature: the export of a PDF
    whose signature was removed raises no alert at all, where the claim
    has the error surfaced once. *)
Lemma C7_missing_signature_counterexample :
  App.signature Sample.unsigned = None /\
  ExportDoc.count ExportDoc.is_alert
    (fst (ExportDoc.handleDownload Sample.unsigned Sample.world)) <> 1%nat.
Proof. split; [reflexivity | vm_compute; discriminate]. Qed.

(* ------------------------------------------------------------------ *)
(** ** Clamping *)

(** From an order statement on canonical rationals to one on [Q]. *)
Ltac qc2q :=
  unfold Qcle, Qclt, Qcdiv, Qcinv, Qcplus, Qcminus, Qcopp, Qcmult in *;
  cbn [this Q2Qc] in *;
  repeat match goal with
         | H : context [Qred _] |- _ => setoid_rewrite Qred_correct in H
         | |- context [Qred _] => setoid_rewrite Qred_correct
         end.

Lemma Math_min_Fin (p q : Qc) :
  JS.Math_min (JS.Fin p) (JS.Fin q) =
  JS.Fin (if JS.ltb (JS.Fin q) (JS.Fin p) then q else p).
Proof. unfold JS.Math_min. now destruct (JS.ltb (JS.Fin q) (JS.Fin p)). Qed.

Lemma Math_max_Fin (p q : Qc) :
  JS.Math_max (JS.Fin p) (JS.Fin q) =
  JS.Fin (if JS.ltb (JS.Fin p) (JS.Fin q) then q else p).
Proof. unfold JS.Math_max. now destruct (JS.ltb (JS.Fin p) (JS.Fin q)). Qed.

(** [Math.min(v, hi)] of a finite [v] at or above [lo] lies in [lo, hi]. *)
Lemma min_in_range (lo hi p : Qc) :
  (lo <= hi)%Qc -> (lo <= p)%Qc ->
  JS.in_range (JS.Fin lo) (JS.Fin hi) (JS.Math_min (JS.Fin p) (JS.Fin hi)) = true.
Proof.
  intros Hlh Hlp. rewrite Math_min_Fin. apply in_range_Fin.
  destruct (JS.ltb (JS.Fin hi) (JS.Fin p)) eqn:E; eexists; split; try reflexivity.
  - split; [exact Hlh | apply Qcle_refl].
  - split; [exact Hlp | now apply ltb_Fin_false].
Qed.

(** [Math.max(v, lo)] of a finite [v] at or below [hi] lies in [lo, hi]. *)
Lemma max_in_range (lo hi p : Qc) :
  (lo <= hi)%Qc -> (p <= hi)%Qc ->
  JS.in_range (JS.Fin lo) (JS.Fin hi) (JS.Math_max (JS.Fin p) (JS.Fin lo)) = true.
Proof.
  intros Hlh Hph. rewrite Math_max_Fin. apply in_range_Fin.
  destruct (JS.ltb (JS.Fin p) (JS.Fin lo)) eqn:E; eexists; split; try reflexivity.
  - split; [apply Qcle_refl | exact Hlh].
  - split; [now apply ltb_Fin_false | exact Hph].
Qed.

(** [Math.max(0, Math.min(1, v))] lies in [0, 1] unless [v] is NaN, and
    is NaN when [v] is. *)
Lemma clamp01_in_range (v : JS.num) :
  JS.is_nan v = false ->
  JS.in_range (JS.lit 0) (JS.lit 1) (SignaturePreview.clamp01 v) = true.
Proof.
  intro Hv. destruct v as [q| | |]; try discriminate; try reflexivity.
  unfold SignaturePreview.clamp01, JS.lit.
  rewrite Math_min_Fin.
  destruct (JS.ltb (JS.Fin q) (JS.Fin (Q2Qc 1))) eqn:E1.
  - rewrite Math_max_Fin.
    apply in_range_Fin.
    destruct (JS.ltb (JS.Fin (Q2Qc 0)) (JS.Fin q)) eqn:E2;
      eexists; split; try reflexivity.
    + apply ltb_Fin in E1, E2. split; now apply Qclt_le_weak.
    + split; [apply Qcle_refl | discriminate].
  - reflexivity.
Qed.

Lemma clamp01_NaN : SignaturePreview.clamp01 JS.NaN = JS.NaN.
Proof. reflexivity. Qed.

(** A finite number over a finite non-zero number is finite. *)
Lemma div_finite (a b : JS.num) :
  JS.is_finite a = true -> JS.is_finite b = true ->
  JS.eqb b (JS.lit 0) = false ->
  JS.is_nan (a / b)%js = false.
Proof.
  intros Ha Hb Hz. destruct a as [p| | |], b as [q| | |]; try discriminate.
  simpl. destruct (q ?= 0)%Qc eqn:E; try reflexivity.
  apply Qceq_alt in E. subst q. simpl in Hz.
  unfold Qc_eq_bool in Hz. destruct (Qc_eq_dec 0 (Q2Qc 0)); congruence.
Qed.

Lemma sub_finite (a b : JS.num) :
  JS.is_finite a = true -> JS.is_finite b = true -> JS.is_finite (a - b)%js = true.
Proof. destruct a, b; try discriminate; reflexivity. Qed.

(* ------------------------------------------------------------------ *)
(** ** The placement under drags and size steps *)

Lemma size_step_up (s : App.State) :
  JS.in_range SignaturePreview.MIN_SIG_SIZE SignaturePreview.MAX_SIG_SIZE
    (App.signatureSize s) = true ->
  JS.in_range SignaturePreview.MIN_SIG_SIZE SignaturePreview.MAX_SIG_SIZE
    (App.signatureSize (SignaturePreview.handleIncreaseSignatureSize s)) = true.
Proof.
  unfold SignaturePreview.MIN_SIG_SIZE, SignaturePreview.MAX_SIG_SIZE, JS.lit.
  intro H. apply in_range_Fin in H. destruct H as (q & Hq & Hlo & Hhi).
  unfold SignaturePreview.handleIncreaseSignatureSize.
  cbn [App.signatureSize App.setSignatureSize]. rewrite Hq.
  unfold SignaturePreview.MAX_SIG_SIZE, JS.lit. cbn [JS.add].
  apply min_in_range; qc2q; cbn in *; lra.
Qed.

Lemma size_step_down (s : App.State) :
  JS.in_range SignaturePreview.MIN_SIG_SIZE SignaturePreview.MAX_SIG_SIZE
    (App.signatureSize s) = true ->
  JS.in_range SignaturePreview.MIN_SIG_SIZE SignaturePreview.MAX_SIG_SIZE
    (App.signatureSize (SignaturePreview.handleDecreaseSignatureSize s)) = true.
Proof.
  unfold SignaturePreview.MIN_SIG_SIZE, SignaturePreview.MAX_SIG_SIZE, JS.lit.
  intro H. apply in_range_Fin in H. destruct H as (q & Hq & Hlo & Hhi).
  unfold SignaturePreview.handleDecreaseSignatureSize.
  cbn [App.signatureSize App.setSignatureSize]. rewrite Hq.
  unfold SignaturePreview.MIN_SIG_SIZE, JS.lit. cbn [JS.sub JS.add JS.neg].
  apply max_in_range; qc2q; cbn in *; lra.
Qed.

Lemma placement_step (o : SignaturePreview.SetOp) (s : App.State) :
  SignaturePreview.nondegenerate o = true ->
  SignaturePreview.placement_ok s = true ->
  SignaturePreview.placement_ok (SignaturePreview.apply o s) = true.
Proof.
  unfold SignaturePreview.placement_ok. intros Hnd Hok.
  apply andb_true_iff in Hok. destruct Hok as [Hok Hsz].
  apply andb_true_iff in Hok. destruct Hok as [Hx Hy].
  destruct o as [r ev| |]; cbn [SignaturePreview.apply].
  - cbn [SignaturePreview.nondegenerate] in Hnd.
    repeat (apply andb_true_iff in Hnd; destruct Hnd as [Hnd ?]).
    unfold SignaturePreview.dragMouseMove.
    cbn [App.signaturePosition App.setSignaturePosition App.signatureSize x y].
    rewrite Hsz, andb_true_r. apply andb_true_iff. split.
    + apply clamp01_in_range, div_finite; auto using sub_finite.
      now apply negb_true_iff.
    + apply clamp01_in_range, div_finite; auto using sub_finite.
      now apply negb_true_iff.
  - rewrite (size_step_up s Hsz). cbn. now rewrite Hx, Hy.
  - rewrite (size_step_down s Hsz). cbn. now rewrite Hx, Hy.
Qed.

(** Drags over a container with an extent, and size steps, keep the
    position in [0,1] x [0,1] and the size in [MIN_SIG_SIZE, MAX_SIG_SIZE],
    wherever the pointer is. *)
Lemma placement_invariant (ops : list SignaturePreview.SetOp) (s : App.State) :
  Forall (fun o => SignaturePreview.nondegenerate o = true) ops ->
  SignaturePreview.placement_ok s = true ->
  SignaturePreview.placement_ok (SignaturePreview.run ops s) = true.
Proof.
  unfold SignaturePreview.run. intro H. revert s.
  induction H as [|o ops Ho _ IH]; intros s Hs; [exact Hs|].
  cbn [fold_left]. apply IH. now apply placement_step.
Qed.

Example placement_far_pointer :
  SignaturePreview.placement_ok
    (SignaturePreview.run
       [ SignaturePreview.Drag Sample.box Sample.farAway;
         SignaturePreview.IncreaseSize ] App.initial) = true.
Proof. vm_compute. reflexivity. Qed.

(** C5 at a drag over a container of width and height 0 with the pointer
    on its corner: both quotients are 0/0, [Math.min] and [Math.max]
    hand the NaN through, and the stored position is (NaN, NaN), outside
    of [0,1] x [0,1]. *)
Theorem C5_drag_in_collapsed_container_stores_NaN :
  let s' := SignaturePreview.run
              [ SignaturePreview.Drag Sample.collapsed Sample.onCorner ] App.initial in
  App.signaturePosition s' = {| x := JS.NaN; y := JS.NaN |}
  /\ SignaturePreview.placement_ok App.initial = true
  /\ SignaturePreview.placement_ok s' = false.
Proof. vm_compute. repeat split. Qed.

(* ------------------------------------------------------------------ *)
(** ** The viewport under paging and zoom *)

Lemma viewport_step (o : DocumentViewer.Op) (v : DocumentViewer.Viewport) :
  DocumentViewer.viewport_ok v -> DocumentViewer.viewport_ok (DocumentViewer.apply o v).
Proof.
  unfold DocumentViewer.viewport_ok. intros [Hz Hp].
  destruct o; cbn [DocumentViewer.apply].
  - split; [|exact Hp].
    unfold DocumentViewer.MIN_ZOOM, DocumentViewer.MAX_ZOOM, JS.lit in *.
    apply in_range_Fin in Hz. destruct Hz as (q & Hq & Hlo & Hhi).
    unfold DocumentViewer.handleZoomIn. cbn [DocumentViewer.zoomLevel]. rewrite Hq.
    unfold DocumentViewer.MAX_ZOOM, JS.lit. cbn [JS.add].
    apply min_in_range; qc2q; cbn in *; lra.
  - split; [|exact Hp].
    unfold DocumentViewer.MIN_ZOOM, DocumentViewer.MAX_ZOOM, JS.lit in *.
    apply in_range_Fin in Hz. destruct Hz as (q & Hq & Hlo & Hhi).
    unfold DocumentViewer.handleZoomOut. cbn [DocumentViewer.zoomLevel]. rewrite Hq.
    unfold DocumentViewer.MIN_ZOOM, JS.lit. cbn [JS.sub JS.add JS.neg].
    apply max_in_range; qc2q; cbn in *; lra.
  - split; [exact Hz|]. cbn. lia.
  - split; [exact Hz|]. cbn. lia.
Qed.

Lemma loaded_ok (n : Z) : (1 <= n)%Z -> DocumentViewer.viewport_ok (DocumentViewer.loaded n).
Proof. intro H. split; [reflexivity | cbn; lia]. Qed.

(** C8. After every sequence of zoom-in, zoom-out, next-page and
    previous-page operations on a viewport within its bounds, zoomLevel
    is in [MIN_ZOOM, MAX_ZOOM] and pageNum in [1, numPages]. *)
Theorem C8_viewport_stays_in_bounds
    (ops : list DocumentViewer.Op) (v : DocumentViewer.Viewport) :
  DocumentViewer.viewport_ok v ->
  DocumentViewer.viewport_ok (DocumentViewer.run ops v).
Proof.
  unfold DocumentViewer.run. revert v.
  induction ops as [|o ops IH]; intros v Hv; [exact Hv|].
  cbn [fold_left]. apply IH. now apply viewport_step.
Qed.

(** The C8 statement on a three-page document, driven past every bound. *)
Lemma C8_viewport_stays_in_bounds_witness :
  DocumentViewer.viewport_ok
    (DocumentViewer.run
       (repeat DocumentViewer.ZoomIn 10 ++ repeat DocumentViewer.NextPage 5
        ++ repeat DocumentViewer.ZoomOut 12 ++ repeat DocumentViewer.PreviousPage 5)
       (DocumentViewer.loaded 3)).
Proof.
  apply C8_viewport_stays_in_bounds. split; [reflexivity | cbn; lia].
Defined.

Example viewport_at_the_bounds :
  DocumentViewer.run (repeat DocumentViewer.ZoomIn 10 ++ repeat DocumentViewer.NextPage 5)
    (DocumentViewer.loaded 3)
  = {| DocumentViewer.pageNum := 3; DocumentViewer.numPages := 3;
       DocumentViewer.zoomLevel := DocumentViewer.MAX_ZOOM |}.
Proof.
  cbv [DocumentViewer.run repeat app fold_left DocumentViewer.apply
       DocumentViewer.handleZoomIn DocumentViewer.goToNextPage DocumentViewer.loaded
       DocumentViewer.pageNum DocumentViewer.numPages DocumentViewer.zoomLevel].
  f_equal; try (apply num_eqb_true; vm_compute; reflexivity).
Qed.

(* ------------------------------------------------------------------ *)
(** ** Rotation *)

Lemma wrapNegative_Fin (q : Qc) :
  SignaturePreview.wrapNegative (JS.Fin q) =
  if JS.ltb (JS.Fin q) (JS.lit 0) then JS.Fin (q + Q2Qc 360)%Qc else JS.Fin q.
Proof. reflexivity. Qed.

Lemma Fin_inj (p q : Qc) : JS.Fin p = JS.Fin q -> p = q.
Proof. congruence. Qed.

Lemma Qc_shift_neq (p : Qc) : (p + Q2Qc 360)%Qc <> p.
Proof.
  intro H.
  assert (Hz : Q2Qc 360 = 0%Qc).
  { replace (Q2Qc 360) with ((p + Q2Qc 360) - p)%Qc by ring. rewrite H. ring. }
  apply (f_equal this) in Hz. vm_compute in Hz. discriminate.
Qed.

(** The rotate handle adds 360 to a negative angle and leaves every
    other angle as it is; the two results for [q] and [q + 360] agree
    exactly when [q] is in [-360, 0). *)
Lemma wrapNegative_period (q : Qc) :
  SignaturePreview.wrapNegative (JS.Fin q)
  = SignaturePreview.wrapNegative (JS.Fin q + JS.lit 360)%js
  <-> (Q2Qc (-360) <= q)%Qc /\ (q < Q2Qc 0)%Qc.
Proof.
  unfold JS.lit at 1. cbn [JS.add]. rewrite !wrapNegative_Fin. unfold JS.lit.
  destruct (JS.ltb (JS.Fin q) (JS.Fin (Q2Qc 0))) eqn:E1;
    destruct (JS.ltb (JS.Fin (q + Q2Qc 360)%Qc) (JS.Fin (Q2Qc 0))) eqn:E2.
  - apply ltb_Fin in E1, E2. split.
    + intro H. apply Fin_inj in H. exfalso.
      symmetry in H. exact (Qc_shift_neq _ H).
    + intros [H1 H2]. exfalso. qc2q. cbn in *. lra.
  - apply ltb_Fin in E1. apply ltb_Fin_false in E2. split.
    + intros _. split; [|exact E1]. qc2q. cbn in *. lra.
    + reflexivity.
  - apply ltb_Fin_false in E1. apply ltb_Fin in E2. exfalso. qc2q. cbn in *. lra.
  - apply ltb_Fin_false in E1. split.
    + intro H. apply Fin_inj in H. exfalso.
      symmetry in H. exact (Qc_shift_neq _ H).
    + intros [_ H2]. exfalso. exact (Qclt_not_le _ _ H2 E1).
Qed.

Lemma mul_Fin_lit (p : Qc) (c : Q) : (JS.Fin p * JS.lit c)%js = JS.Fin (p * Q2Qc c)%Qc.
Proof. reflexivity. Qed.

Lemma add_Fin_lit (p : Qc) (c : Q) : (JS.Fin p + JS.lit c)%js = JS.Fin (p + Q2Qc c)%Qc.
Proof. reflexivity. Qed.

Lemma div_Fin_PI (p : Qc) :
  (JS.Fin p / JS.Math_PI)%js
  = JS.Fin (p / Q2Qc (884279719003555 # 281474976710656))%Qc.
Proof. reflexivity. Qed.

(** An angle of [atan2], between -PI and PI, is stored as a rotation
    between 0 and 360, both included. *)
Lemma rotateMouseMove_range (Math_atan2 : JS.num -> JS.num -> JS.num)
    (sigRect : DOMRect) (ev : MouseEvent) (s : App.State) :
  JS.in_range (- JS.Math_PI)%js JS.Math_PI
    (SignaturePreview.angleRad Math_atan2 sigRect ev) = true ->
  let r := App.signatureRotation
             (SignaturePreview.rotateMouseMove Math_atan2 sigRect ev s) in
  JS.leb (JS.lit 0) r = true /\ JS.leb r (JS.lit 360) = true.
Proof.
  intros H r. subst r.
  unfold SignaturePreview.rotateMouseMove.
  cbn [App.signatureRotation App.setSignatureRotation].
  unfold JS.Math_PI at 1 2, JS.lit in H. cbn [JS.neg] in H.
  apply in_range_Fin in H. destruct H as (q & Hq & Hlo & Hhi).
  rewrite Hq, mul_Fin_lit, div_Fin_PI, add_Fin_lit, wrapNegative_Fin.
  match goal with |- context [JS.ltb ?a ?b] => destruct (JS.ltb a b) eqn:E end.
  - unfold JS.lit in *. apply ltb_Fin in E. split.
    + apply leb_Fin. qc2q. cbn in *. lra.
    + apply leb_Fin. qc2q. cbn in *. lra.
  - unfold JS.lit in *. apply ltb_Fin_false in E. split.
    + apply leb_Fin. exact E.
    + apply leb_Fin. qc2q. cbn in *. lra.
Qed.

(** C6, as the code has it.  The rotation written by the rotate handle is
    brought into [0, 360], both bounds included, by the correction of
    negative angles alone (360 is added to an angle below 0, and the sum
    of 360 and an angle just below 0 can round to 360 itself), which
    covers every angle the handle computes; there is no modulo: writing
    x and writing x + 360 store the same rotation for -360 <= x < 0 and
    different rotations for 0 <= x < 360. *)
Theorem C6_rotation_wraps_negative_angles_only :
  (forall (Math_atan2 : JS.num -> JS.num -> JS.num)
          (sigRect : DOMRect) (ev : MouseEvent) (s : App.State),
      JS.in_range (- JS.Math_PI)%js JS.Math_PI
        (SignaturePreview.angleRad Math_atan2 sigRect ev) = true ->
      let r := App.signatureRotation
                 (SignaturePreview.rotateMouseMove Math_atan2 sigRect ev s) in
      JS.leb (JS.lit 0) r = true /\ JS.leb r (JS.lit 360) = true)
  /\ (forall (q : Qc) (s : App.State),
        (Q2Qc (-360) <= q)%Qc -> (q < Q2Qc 0)%Qc ->
        App.setSignatureRotation (SignaturePreview.wrapNegative (JS.Fin q)) s
        = App.setSignatureRotation
            (SignaturePreview.wrapNegative (JS.Fin q + JS.lit 360)%js) s)
  /\ (forall (q : Qc) (s : App.State),
        (Q2Qc 0 <= q)%Qc -> (q < Q2Qc 360)%Qc ->
        App.setSignatureRotation (SignaturePreview.wrapNegative (JS.Fin q)) s
        <> App.setSignatureRotation
             (SignaturePreview.wrapNegative (JS.Fin q + JS.lit 360)%js) s).
Proof.
  split; [|split].
  - exact rotateMouseMove_range.
  - intros q s Hlo Hhi.
    now rewrite (proj2 (wrapNegative_period q) (conj Hlo Hhi)).
  - intros q s Hlo Hhi H. apply (f_equal App.signatureRotation) in H.
    cbn [App.signatureRotation App.setSignatureRotation] in H.
    apply wrapNegative_period in H. destruct H as [_ H].
    exact (Qclt_not_le _ _ H Hlo).
Qed.

(** The C6 statement for a pointer up and to the left of the signature
    (an angle of -3/4 PI from [atan2], stored as 315 degrees) and for
    x = -45. *)
Lemma C6_rotation_wraps_negative_angles_only_witness :
  (let r := App.signatureRotation
              (SignaturePreview.rotateMouseMove Sample.atan2 Sample.sigRect
                 Sample.upLeft App.initial) in
   JS.leb (JS.lit 0) r = true /\ JS.leb r (JS.lit 360) = true)
  /\ App.setSignatureRotation (SignaturePreview.wrapNegative (JS.Fin (Q2Qc (-45))))
       App.initial
     = App.setSignatureRotation
         (SignaturePreview.wrapNegative (JS.Fin (Q2Qc (-45)) + JS.lit 360)%js)
         App.initial.
Proof.
  split.
  - apply (proj1 C6_rotation_wraps_negative_angles_only Sample.atan2 Sample.sigRect
             Sample.upLeft App.initial).
    vm_compute. reflexivity.
  - apply (proj1 (proj2 C6_rotation_wraps_negative_angles_only) (Q2Qc (-45))
             App.initial); [discriminate | reflexivity].
Defined.

Example rotation_up_left :
  App.signatureRotation
    (SignaturePreview.rotateMouseMove Sample.atan2 Sample.sigRect Sample.upLeft
       App.initial) = JS.lit 315.
Proof. apply num_eqb_true. vm_compute. reflexivity. Qed.

(** C6 as stated fails at x = 0: the rotation stored for 0 is 0, the one
    stored for 0 + 360 is 360, through the setter itself and through the
    write of the rotate handle alike. *)
Lemma C6_full_turn_counterexample :
  App.setSignatureRotation (JS.lit 0) App.initial
    <> App.setSignatureRotation (JS.lit 0 + JS.lit 360)%js App.initial
  /\ App.setSignatureRotation (SignaturePreview.wrapNegative (JS.lit 0)) App.initial
    <> App.setSignatureRotation
         (SignaturePreview.wrapNegative (JS.lit 0 + JS.lit 360)%js) App.initial.
Proof.
  split; intro H; apply (f_equal App.signatureRotation) in H;
    revert H; apply num_eqb_false; vm_compute; reflexivity.
Qed.

(* ------------------------------------------------------------------ *)
(** ** Upload validation *)

Lemma includes_In (a : list string) (v : string) :
  Str.includes a v = true <-> In v a.
Proof.
  unfold Str.includes. split.
  - intro H. apply existsb_exists in H. destruct H as (u & Hin & E).
    apply String.eqb_eq in E. now subst.
  - intro H. apply existsb_exists. exists v. split; [exact H | apply String.eqb_refl].
Qed.

(** What [validateFile] tests. *)
Lemma validateFile_accepts (f : File) :
  FileUpload.validateFile f = None <->
  In (type f) FileUpload.ALLOWED_MIME_TYPES \/
  In (FileUpload.fileExtension f) FileUpload.ALLOWED_EXTENSIONS.
Proof.
  unfold FileUpload.validateFile.
  rewrite <- !includes_In.
  destruct (Str.includes FileUpload.ALLOWED_MIME_TYPES (type f));
    destruct (Str.includes FileUpload.ALLOWED_EXTENSIONS (FileUpload.fileExtension f));
    cbn; intuition congruence.
Qed.

Lemma pop_cons {A} (h : A) (t : list A) : t <> [] -> Str.pop (h :: t) = Str.pop t.
Proof. destruct t; [congruence | reflexivity]. Qed.

(** [split] and [pop] against the extension of the name: with a dot in
    the name the last segment is the extension without its dot, without
    one the only segment is the whole name. *)
Lemma split_extension (s : string) :
  match FileUpload.filename_extension s with
  | Some e => exists h t seg, Str.split "." s = h :: t /\ t <> [] /\
                              Str.pop t = Some seg /\ e = String "." seg
  | None => Str.split "." s = [s]
  end.
Proof.
  induction s as [|c r IH]; [reflexivity|].
  cbn [FileUpload.filename_extension Str.split].
  destruct (FileUpload.filename_extension r) as [e|].
  - destruct IH as (h & t & seg & Hs & Ht & Hp & He). rewrite Hs.
    destruct (Ascii.eqb c "."); [exists EmptyString, (h :: t), seg
                                | exists (String c h), t, seg];
      repeat split; auto; try discriminate.
    now rewrite pop_cons.
  - rewrite IH. destruct (Ascii.eqb c ".") eqn:E.
    + apply Ascii.eqb_eq in E. subst c.
      exists EmptyString, [r], r. repeat split; auto; discriminate.
    + reflexivity.
Qed.

Lemma fileExtension_dotted (f : File) (e : string) :
  FileUpload.filename_extension (name f) = Some e ->
  FileUpload.fileExtension f = Str.toLowerCase e.
Proof.
  intro H. pose proof (split_extension (name f)) as S. rewrite H in S.
  destruct S as (h & t & seg & Hs & Ht & Hp & He).
  unfold FileUpload.fileExtension. rewrite Hs, pop_cons, Hp by exact Ht.
  subst e. reflexivity.
Qed.

Lemma fileExtension_dotless (f : File) :
  FileUpload.filename_extension (name f) = None ->
  FileUpload.fileExtension f = String "." (Str.toLowerCase (name f)).
Proof.
  intro H. pose proof (split_extension (name f)) as S. rewrite H in S.
  unfold FileUpload.fileExtension. rewrite S. reflexivity.
Qed.

(** For a name with a dot, [validateFile] accepts exactly the files whose
    MIME type or whose extension is allowed. *)
Lemma validateFile_dotted (f : File) :
  FileUpload.filename_extension (name f) <> None ->
  (FileUpload.validateFile f = None <-> FileUpload.accepted_by_type_or_extension f).
Proof.
  intro Hdot. rewrite validateFile_accepts.
  unfold FileUpload.accepted_by_type_or_extension.
  destruct (FileUpload.filename_extension (name f)) as [e|] eqn:E; [|congruence].
  rewrite (fileExtension_dotted f e E). split.
  - intros [H|H]; [now left | right; now exists e].
  - intros [H|(e' & He & H)]; [now left | right; congruence].
Qed.

(** An allowed extension is enough, whatever the MIME type. *)
Lemma validateFile_extension_alone (f : File) (e : string) :
  FileUpload.filename_extension (name f) = Some e ->
  In (Str.toLowerCase e) FileUpload.ALLOWED_EXTENSIONS ->
  FileUpload.validateFile f = None.
Proof.
  intros He Hin. apply validateFile_accepts. right.
  now rewrite (fileExtension_dotted f e He).
Qed.

(** For a name without a dot, the whole name stands in for the
    extension. *)
Lemma validateFile_dotless (f : File) :
  FileUpload.filename_extension (name f) = None ->
  (FileUpload.validateFile f = None <->
   In (type f) FileUpload.ALLOWED_MIME_TYPES \/
   In (String "." (Str.toLowerCase (name f))) FileUpload.ALLOWED_EXTENSIONS).
Proof.
  intro H. rewrite validateFile_accepts. now rewrite (fileExtension_dotless f H).
Qed.

(** C9 at a file named [pdf], with no dot in the name and an empty MIME
    type: the validator accepts it, although its MIME type is not
    allowed and its name has no extension. *)
Theorem C9_dotless_name_is_accepted :
  FileUpload.validateFile Sample.dotless = None
  /\ ~ In (type Sample.dotless) FileUpload.ALLOWED_MIME_TYPES
  /\ FileUpload.filename_extension (name Sample.dotless) = None
  /\ ~ FileUpload.accepted_by_type_or_extension Sample.dotless.
Proof.
  split; [reflexivity|]. split; [|split; [reflexivity|]].
  - cbn. intuition discriminate.
  - intros [H|(e & He & _)]; [|discriminate].
    cbn in H. intuition discriminate.
Qed.

Example validateFile_examples :
  FileUpload.validateFile {| name := "Report.PDF"; type := "" |} = None
  /\ FileUpload.validateFile {| name := "notes.txt"; type := "text/csv" |} = None
  /\ FileUpload.validateFile {| name := "notes.txt"; type := "text/plain" |} <> None
  /\ FileUpload.validateFile {| name := "archive.tar.docx"; type := "application/zip" |}
     = None.
Proof. repeat split; try reflexivity. discriminate. Qed.

(* ------------------------------------------------------------------ *)
(** ** File selection and reset *)

(** C10. Selecting a new file sets the file, clears the signature and
    sets the page number to 1, and leaves position, size and rotation as
    they were; the reset sets the placement to position (0.85, 0.8),
    size 150, rotation 0; and the reset is the only operation of [App]
    after which the placement is the default one whatever it was before. *)
Theorem C10_file_select_keeps_placement :
  (forall (f : File) (s : App.State),
      let s' := App.handleFileSelect f s in
      App.file s' = Some f /\ App.signature s' = None /\ App.pageNum s' = 1%Z
      /\ App.placement s' = App.placement s)
  /\ (forall s : App.State, App.placement (App.handleReset s) = App.default_placement)
  /\ (forall o : App.Op,
        (forall s : App.State, App.placement (App.apply o s) = App.default_placement)
        <-> o = App.Reset).
Proof.
  split; [|split].
  - intros f s. cbn. repeat split.
  - intro s. reflexivity.
  - intro o. split.
    + intro H.
      (* a state whose placement differs from the default in every part *)
      pose (far := App.setSignatureSize (JS.lit 60)
                     (App.setSignatureRotation (JS.lit 45)
                        (App.setSignaturePosition {| x := JS.lit 0; y := JS.lit 0 |}
                           App.initial))).
      specialize (H far).
      assert (Hsize : App.signatureSize (App.apply o far) = JS.lit 150).
      { exact (f_equal (fun p => snd (fst p)) H). }
      assert (Hrot : App.signatureRotation (App.apply o far) = JS.lit 0).
      { exact (f_equal snd H). }
      destruct o; try reflexivity; exfalso; cbn in Hsize, Hrot;
        first [ revert Hsize; apply num_eqb_false; vm_compute; reflexivity
              | revert Hrot; apply num_eqb_false; vm_compute; reflexivity ].
    + intros -> s. reflexivity.
Qed.

(** The C10 statement at a signed PDF whose signature was dragged to the
    top centre: selecting a CSV file keeps that placement, the reset
    returns it to the default. *)
Lemma C10_file_select_keeps_placement_witness :
  App.placement (App.handleFileSelect Sample.sheet Sample.topCentre)
    = App.placement Sample.topCentre
  /\ App.placement (App.handleReset Sample.topCentre) = App.default_placement
  /\ App.placement (App.apply App.Reset Sample.topCentre) = App.default_placement.
Proof.
  split; [|split].
  - apply (proj1 C10_file_select_keeps_placement Sample.sheet Sample.topCentre).
  - apply (proj1 (proj2 C10_file_select_keeps_placement) Sample.topCentre).
  - apply (proj2 (proj2 (proj2 C10_file_select_keeps_placement) App.Reset) eq_refl).
Defined.

(* ------------------------------------------------------------------ *)
(** ** The render effect *)

Module RenderFacts.
Import RenderController.

Lemma ids_bound (l : list Req) :
  ids_ok l -> Forall (fun r => (rid r < List.length l)%nat) l.
Proof.
  induction l as [|r rest IH]; intro H; [constructor|].
  destruct H as [Hr Hrest]. constructor.
  - cbn. lia.
  - eapply Forall_impl; [|exact (IH Hrest)]. cbn. intros; lia.
Qed.

Lemma set_pc_other (i : nat) (p : Pc) (l : list Req) :
  Forall (fun r => rid r <> i) l -> set_pc i p l = l.
Proof.
  induction 1 as [|r rest Hr _ IH]; [reflexivity|].
  cbn. apply Nat.eqb_neq in Hr. rewrite Hr. f_equal. exact IH.
Qed.

Lemma set_pc_head (r : Req) (rest : list Req) (p : Pc) :
  ids_ok (r :: rest) ->
  set_pc (rid r) p (r :: rest)
  = {| rid := rid r; page := page r; zoom := zoom r; pc := p |} :: rest.
Proof.
  intros [Hr Hrest]. cbn. rewrite Nat.eqb_refl. f_equal.
  apply set_pc_other. eapply Forall_impl; [|exact (ids_bound rest Hrest)].
  cbn. intros; lia.
Qed.

Lemma set_pc_length (i : nat) (p : Pc) (l : list Req) :
  List.length (set_pc i p l) = List.length l.
Proof. apply length_map. Qed.

(** Among requests of which all but the newest are finished, a request
    found unfinished is the newest. *)
Lemma find_unfinished (i : nat) (r r' : Req) (rest : list Req) :
  Forall (fun q => pc q = Finished) rest ->
  find_req i (r :: rest) = Some r' ->
  pc r' <> Finished ->
  r' = r /\ i = rid r.
Proof.
  intros Hrest Hfind Hpc. unfold find_req in Hfind. cbn in Hfind.
  destruct (rid r =? i)%nat eqn:E.
  - apply Nat.eqb_eq in E. injection Hfind as <-. now split.
  - apply find_some in Hfind. destruct Hfind as [Hin _].
    rewrite Forall_forall in Hrest. specialize (Hrest r' Hin). contradiction.
Qed.

Lemma running_set_status (t : nat) (st : Status) (l : list Task) :
  st <> Running ->
  filter is_running (set_status t st l)
  = filter (fun k => negb (tid k =? t)%nat) (filter is_running l).
Proof.
  intro Hst. induction l as [|k rest IH]; [reflexivity|].
  cbn [set_status map]. fold (set_status t st rest).
  destruct (tid k =? t)%nat eqn:E.
  - cbn [filter]. unfold is_running at 1. cbn [status].
    destruct st; try congruence;
      destruct (is_running k); cbn [filter]; rewrite ?E; cbn; exact IH.
  - cbn [filter]. destruct (is_running k); cbn [filter]; rewrite ?E; cbn;
      [f_equal|]; exact IH.
Qed.

Lemma find_running (t : nat) (k : Task) (l : list Task) :
  find_task t l = Some k -> is_running k = true ->
  In k (filter is_running l) /\ tid k = t.
Proof.
  intros Hf Hr. apply find_some in Hf. destruct Hf as [Hin E].
  apply Nat.eqb_eq in E. split; [|exact E].
  apply filter_In. now split.
Qed.

Lemma find_set_status (t : nat) (st : Status) (l : list Task) (k : Task) :
  find_task t (set_status t st l) = Some k -> status k = st.
Proof.
  unfold find_task, set_status. induction l as [|h rest IH]; [discriminate|].
  cbn [map find]. destruct (tid h =? t)%nat eqn:E.
  - cbn [tid]. rewrite E. intro H. injection H as <-. reflexivity.
  - rewrite E. exact IH.
Qed.

(** After the cancel of [Issue], the task that was recorded runs no
    more. *)
Lemma issue_cancels (s s' : State) (p : Z) (z : JS.num) (t : nat) (k : Task) :
  step s (Issue p z) = Some s' ->
  renderTaskRef s = Some t ->
  find_task t (tasks s') = Some k ->
  is_running k = false.
Proof.
  intros Hstep Href Hfind. cbn [step] in Hstep. rewrite Href in Hstep.
  destruct (find_task t (tasks s)) as [k0|] eqn:F.
  - destruct (is_running k0) eqn:R.
    + injection Hstep as <-. cbn [tasks] in Hfind.
      apply find_set_status in Hfind. unfold is_running. now rewrite Hfind.
    + injection Hstep as <-. cbn [tasks] in Hfind. congruence.
  - injection Hstep as <-. cbn [tasks] in Hfind. congruence.
Qed.

Lemma invariant_initial : invariant initial.
Proof. repeat split. constructor. Qed.

Lemma running_nil_not_found (s : State) (t : nat) (k : Task) :
  filter is_running (tasks s) = [] ->
  find_task t (tasks s) = Some k -> is_running k = false.
Proof.
  intros Hnil Hf. destruct (is_running k) eqn:R; [|reflexivity].
  destruct (find_running t k (tasks s) Hf R) as [Hin _].
  rewrite Hnil in Hin. destruct Hin.
Qed.

(** With no task running, [Issue] only adds the new request. *)
Lemma issue_idle (s s' : State) (p : Z) (z : JS.num) :
  filter is_running (tasks s) = [] ->
  step s (Issue p z) = Some s' ->
  exists r, requests s' = r :: requests s /\ rid r = List.length (requests s) /\
            fetching r = true /\ tasks s' = tasks s /\ published s' = published s.
Proof.
  intros Hnil Hstep. cbn [step] in Hstep.
  destruct (renderTaskRef s) as [t|].
  - destruct (find_task t (tasks s)) as [k|] eqn:F.
    + rewrite (running_nil_not_found s t k Hnil F) in Hstep.
      injection Hstep as <-. eexists. repeat split.
    + injection Hstep as <-. eexists. repeat split.
  - injection Hstep as <-. eexists. repeat split.
Qed.

Lemma fetching_pc (r : Req) :
  fetching r = true -> pc r = AwaitCancel \/ pc r = AwaitGetPage.
Proof. unfold fetching. destruct (pc r); auto; discriminate. Qed.

Lemma issue_invariant (s s' : State) (p : Z) (z : JS.num) :
  invariant s -> quiet s = true -> step s (Issue p z) = Some s' -> invariant s'.
Proof.
  intros (Hpub & Hids & Hm) Hq Hstep.
  assert (Hidle : filter is_running (tasks s) = [] ->
                  Forall (fun r' => pc r' = Finished) (requests s) ->
                  invariant s').
  { intros Hnil Hfin.
    destruct (issue_idle s s' p z Hnil Hstep) as (r & Hr & Hid & Hf & Ht & Hp).
    unfold invariant. rewrite Hr, Ht, Hp. repeat split; auto.
    destruct (fetching_pc r Hf) as [E|E]; rewrite E; exact Hnil. }
  destruct (requests s) as [|r rest] eqn:Rq.
  - apply Hidle; [exact Hm | constructor].
  - destruct Hm as [Hrest Hpc].
    unfold quiet in Hq. rewrite Rq in Hq. cbn [existsb] in Hq.
    apply negb_true_iff, orb_false_iff in Hq. destruct Hq as [Hq _].
    unfold fetching in Hq.
    destruct (pc r) as [| |t0|] eqn:Pr; try discriminate.
    + destruct Hpc as (k0 & Hrun & Htid & Hown & Href & Hfind).
      assert (Hk0 : is_running k0 = true).
      { assert (Hin : In k0 (filter is_running (tasks s))) by (rewrite Hrun; now left).
        apply filter_In in Hin. tauto. }
      cbn [step] in Hstep. rewrite Href, Hfind, Hk0, Hown, Rq in Hstep.
      rewrite (set_pc_head r rest Finished Hids) in Hstep.
      destruct Hids as [Hid0 Hids].
      injection Hstep as <-. unfold invariant.
      cbn [published requests tasks pc renderTaskRef ids_ok rid List.length].
      repeat split; auto.
      rewrite running_set_status by discriminate. rewrite Hrun. cbn.
      rewrite Htid, Nat.eqb_refl. reflexivity.
    + apply Hidle; [exact Hpc|]. constructor; assumption.
Qed.

(** The request a resumption names is the newest one. *)
Lemma resumed_is_newest (s : State) (i : nat) (r' : Req) :
  invariant s ->
  find_req i (requests s) = Some r' ->
  pc r' <> Finished ->
  exists rest, requests s = r' :: rest /\ i = rid r' /\
               Forall (fun q => pc q = Finished) rest /\ ids_ok (r' :: rest).
Proof.
  intros (_ & Hids & Hm) Hfind Hpc.
  destruct (requests s) as [|r rest] eqn:Rq; [discriminate|].
  destruct Hm as [Hrest _].
  destruct (find_unfinished i r r' rest Hrest Hfind Hpc) as [-> ->].
  exists rest. auto.
Qed.

Lemma request_event_invariant (s s' : State) (ev : Event) :
  invariant s ->
  match ev with
  | CancelSettled _ | PageResolved _ | PageRejected _ => True
  | _ => False
  end ->
  step s ev = Some s' -> invariant s'.
Proof.
  intros Hinv Hev Hstep.
  destruct ev as [| i | i | i | |]; try contradiction; cbn [step] in Hstep;
    destruct (find_req i (requests s)) as [r'|] eqn:F; try discriminate;
    destruct (pc r') eqn:Pr;
    try (destruct r'; cbn in Pr; subst; discriminate);
    (assert (Hne : pc r' <> Finished) by congruence);
    destruct (resumed_is_newest s i r' Hinv F Hne) as (rest & Rq & -> & Hrest & Hids);
    destruct Hinv as (Hpub & _ & Hm); rewrite Rq in Hm; destruct Hm as [_ Hpc];
    rewrite Pr in Hpc;
    destruct r' as [ri pg zm pcr]; cbn [pc rid] in *; subst pcr;
    rewrite Rq in Hstep;
    rewrite (set_pc_head _ rest _ Hids) in Hstep; cbn [rid page zoom] in Hstep;
    injection Hstep as <-; unfold invariant;
    cbn [published requests tasks pc renderTaskRef ids_ok rid List.length filter
         is_running status find_task find tid owner];
    destruct Hids as [Hid0 Hids]; cbn [rid] in Hid0.
  - repeat split; auto.
  - rewrite Hpc, Nat.eqb_refl. repeat split; auto.
    eexists. repeat split.
  - repeat split; auto.
Qed.

(** A running task is the one the newest request awaits. *)
Lemma running_is_awaited (s : State) (t : nat) (k : Task) :
  invariant s ->
  find_task t (tasks s) = Some k -> is_running k = true ->
  exists r rest, requests s = r :: rest /\ ids_ok (r :: rest) /\
                 Forall (fun q => pc q = Finished) rest /\
                 filter is_running (tasks s) = [k] /\ tid k = t /\
                 owner k = rid r.
Proof.
  intros (_ & Hids & Hm) Hf Hr.
  destruct (find_running t k (tasks s) Hf Hr) as [Hin Htid].
  destruct (requests s) as [|r rest] eqn:Rq.
  - rewrite Hm in Hin. destruct Hin.
  - destruct Hm as [Hrest Hpc]. exists r, rest.
    destruct (pc r); try (rewrite Hpc in Hin; destruct Hin).
    destruct Hpc as (k0 & Hrun & Ht0 & Hown & _ & _).
    rewrite Hrun in Hin. destruct Hin as [<-|[]]. auto 10.
Qed.

Lemma task_event_invariant (s s' : State) (ev : Event) :
  invariant s ->
  match ev with TaskCompleted _ | TaskFailed _ => True | _ => False end ->
  step s ev = Some s' -> invariant s'.
Proof.
  intros Hinv Hev Hstep.
  destruct ev as [| | | | t | t]; try contradiction; cbn [step] in Hstep;
    destruct (find_task t (tasks s)) as [k|] eqn:F; try discriminate.
  - destruct (latest s) as [newest|] eqn:L; [|discriminate].
    destruct (is_running k) eqn:R; [|discriminate].
    destruct (running_is_awaited s t k Hinv F R)
      as (r & rest & Rq & Hids & Hrest & Hrun & Htid & Hown).
    unfold latest in L. rewrite Rq in L. injection L as <-.
    rewrite Rq, Hown, (set_pc_head r rest Finished Hids) in Hstep.
    destruct Hinv as (Hpub & _ & _). destruct Hids as [Hid0 Hids].
    injection Hstep as <-. unfold invariant.
    cbn [published requests tasks pc renderTaskRef ids_ok rid List.length].
    repeat split; auto.
    + constructor; [reflexivity | exact Hpub].
    + rewrite running_set_status by discriminate. rewrite Hrun. cbn.
      rewrite Htid, Nat.eqb_refl. reflexivity.
  - destruct (is_running k) eqn:R; [|discriminate].
    destruct (running_is_awaited s t k Hinv F R)
      as (r & rest & Rq & Hids & Hrest & Hrun & Htid & Hown).
    rewrite Rq, Hown, (set_pc_head r rest Finished Hids) in Hstep.
    destruct Hinv as (Hpub & _ & _). destruct Hids as [Hid0 Hids].
    injection Hstep as <-. unfold invariant.
    cbn [published requests tasks pc renderTaskRef ids_ok rid List.length].
    repeat split; auto.
    rewrite running_set_status by discriminate. rewrite Hrun. cbn.
    rewrite Htid, Nat.eqb_refl. reflexivity.
Qed.

Lemma step_invariant (s s' : State) (ev : Event) :
  invariant s ->
  match ev with Issue _ _ => quiet s = true | _ => True end ->
  step s ev = Some s' -> invariant s'.
Proof.
  intros Hinv Hq Hstep. destruct ev.
  - exact (issue_invariant s s' _ _ Hinv Hq Hstep).
  - exact (request_event_invariant s s' (CancelSettled r) Hinv I Hstep).
  - exact (request_event_invariant s s' (PageResolved r) Hinv I Hstep).
  - exact (request_event_invariant s s' (PageRejected r) Hinv I Hstep).
  - exact (task_event_invariant s s' (TaskCompleted t) Hinv I Hstep).
  - exact (task_event_invariant s s' (TaskFailed t) Hinv I Hstep).
Qed.

Lemma run_invariant (evs : list Event) (s s' : State) :
  invariant s -> serial s evs = true -> run s evs = Some s' -> invariant s'.
Proof.
  revert s. induction evs as [|ev rest IH]; intros s Hinv Hser Hrun.
  - cbn in Hrun. now injection Hrun as <-.
  - cbn [run serial] in *. apply andb_true_iff in Hser. destruct Hser as [Hq Hser].
    destruct (step s ev) as [s1|] eqn:St; [|discriminate].
    apply (IH s1); auto.
    apply (step_invariant s s1 ev Hinv); [|exact St].
    destruct ev; auto.
Qed.

Lemma invariant_running (s : State) : invariant s -> (running_tasks s <= 1)%nat.
Proof.
  intros (_ & _ & Hm). unfold running_tasks.
  destruct (requests s) as [|r rest]; [rewrite Hm; cbn; lia|].
  destruct Hm as [_ Hpc].
  destruct (pc r); try (rewrite Hpc; cbn; lia).
  destruct Hpc as (k & -> & _). cbn. lia.
Qed.

End RenderFacts.

(** C2, as the code has it.  When a render request starts, the task
    recorded in [renderTaskRef] is cancelled and runs no more; and under
    every schedule in which no request arrives while an earlier one still
    waits for its cancel or its page, every finished render belongs to
    the newest request of its time and at most one task is running.
    Requests carry no identity that is compared on completion. *)
Theorem C2_serial_requests_publish_only_latest :
  (forall (s s' : RenderController.State) (p : Z) (z : JS.num) (t : nat)
          (k : RenderController.Task),
      RenderController.step s (RenderController.Issue p z) = Some s' ->
      RenderController.renderTaskRef s = Some t ->
      RenderController.find_task t (RenderController.tasks s') = Some k ->
      RenderController.is_running k = false)
  /\ (forall (evs : list RenderController.Event) (s : RenderController.State),
        RenderController.serial RenderController.initial evs = true ->
        RenderController.run RenderController.initial evs = Some s ->
        RenderController.only_latest (RenderController.published s)
        /\ (RenderController.running_tasks s <= 1)%nat).
Proof.
  split.
  - exact RenderFacts.issue_cancels.
  - intros evs s Hser Hrun.
    pose proof (RenderFacts.run_invariant evs RenderController.initial s
                  RenderFacts.invariant_initial Hser Hrun) as Hinv.
    split; [exact (proj1 Hinv) | exact (RenderFacts.invariant_running s Hinv)].
Qed.

(** The C2 statement on a schedule in which page 2 is requested while
    the render of page 1 runs: the running task is cancelled, and the
    only finished render is the one of the newer request. *)
Lemma C2_serial_requests_publish_only_latest_witness :
  exists s,
    RenderController.run RenderController.initial RenderController.serial_schedule
    = Some s
    /\ RenderController.published s = [(1%nat, 1%nat)]
    /\ RenderController.only_latest (RenderController.published s)
    /\ (RenderController.running_tasks s <= 1)%nat.
Proof.
  eexists. split; [vm_compute; reflexivity|]. split; [reflexivity|].
  apply (proj2 C2_serial_requests_publish_only_latest
           RenderController.serial_schedule); reflexivity.
Defined.

(** C2 as stated fails on the schedule [stale_schedule]: page 3 is
    requested, then page 2 while the first run still waits for its page;
    no task is recorded yet, so nothing is cancelled.  Page 2 arrives and
    is rendered, then page 3 arrives and is rendered: the canvas ends on
    the render of the older request 0 while the newest request is 1. *)
Lemma C2_stale_render_counterexample :
  exists s,
    RenderController.run RenderController.initial RenderController.stale_schedule
    = Some s
    /\ RenderController.latest s = Some 1%nat
    /\ RenderController.surface s = Some 0%nat
    /\ RenderController.published s = [(0%nat, 1%nat); (1%nat, 1%nat)]
    /\ ~ RenderController.only_latest (RenderController.published s).
Proof.
  eexists. split; [vm_compute; reflexivity|].
  repeat split.
  intro H. inversion H as [|e l Hhd _]. discriminate.
Qed.

(** With the pages arriving in order the outcome is the same: two tasks
    run at once, and the render of the older request lands last. *)
Example overlap_also_publishes_stale :
  option_map (fun s => (RenderController.published s, RenderController.surface s))
    (RenderController.run RenderController.initial RenderController.overlap_schedule)
  = Some ([(0%nat, 1%nat); (1%nat, 1%nat)], Some 0%nat)
  /\ option_map RenderController.running_tasks
       (RenderController.run RenderController.initial
          (firstn 4 RenderController.overlap_schedule)) = Some 2%nat.
Proof. split; vm_compute; reflexivity. Qed.

(* ================================================================== *)
(** * Further properties of the code *)

(* ------------------------------------------------------------------ *)
(** ** The runs of [handleDownload] *)

(** X1. A PDF export whose page number lies within 1..pageCount draws
    the signature once, on the page on screen: the page of index
    pageNum - 1 of the document, with the size of that page in the
    coordinates of the draw. *)
Theorem X1_pdf_draws_on_viewed_page
    (s : App.State) (doc : File) (sig : string) (w : ExportDoc.World)
    (pages : list Size) (pngImage : Size) :
  App.file s = Some doc ->
  type doc = "application/pdf"%string ->
  App.signature s = Some sig ->
  sig <> ""%string ->
  ExportDoc.import_pdf_lib w = true ->
  ExportDoc.file_arrayBuffer w = true ->
  ExportDoc.PDFDocument_load w = Some pages ->
  ExportDoc.fetch_signature w = true ->
  ExportDoc.embedPng w = Some pngImage ->
  (1 <= App.pageNum s <= Z.of_nat (List.length pages))%Z ->
  exists pg,
    nth_error pages (Z.to_nat (App.pageNum s - 1)) = Some pg /\
    ExportDoc.pdfDraws (fst (ExportDoc.handleDownload s w)) =
      [ ExportDoc.PdfDrawImage (Z.to_nat (App.pageNum s - 1))
          (x (App.signaturePosition s) * width pg
           - App.signatureSize s / JS.lit 2)%js
          ((JS.lit 1 - y (App.signaturePosition s)) * height pg
           - App.signatureSize s * (height pngImage / width pngImage) / JS.lit 2)%js
          (App.signatureSize s)
          (App.signatureSize s * (height pngImage / width pngImage))%js
          (App.signatureRotation s) ].
Proof.
  intros Hfile Htype Hsig Hne Himp Hbytes Hload Hfetch Hembed Hin.
  destruct (targetPage_in_range pages (App.pageNum s) Hin) as (pg & Hnth & Ht).
  exists pg. split; [exact Hnth|].
  exact (pdf_draw_of_target s doc sig w pages pngImage
           Hfile Htype Hsig Hne Himp Hbytes Hload Hfetch Hembed _ pg Ht).
Qed.

(** X1 for the two-page sample at page 2: the draw is on page index 1,
    an A4 page. *)
Lemma X1_pdf_draws_on_viewed_page_witness :
  exists pg,
    nth_error [Sample.letter; Sample.a4] 1 = Some pg /\
    ExportDoc.pdfDraws (fst (ExportDoc.handleDownload Sample.signedPdf Sample.world)) =
      [ ExportDoc.PdfDrawImage 1
          (JS.lit 0.85 * width pg - JS.lit 150 / JS.lit 2)%js
          ((JS.lit 1 - JS.lit 0.8) * height pg
           - JS.lit 150 * (JS.lit 100 / JS.lit 300) / JS.lit 2)%js
          (JS.lit 150) (JS.lit 150 * (JS.lit 100 / JS.lit 300))%js (JS.lit 0) ].
Proof.
  apply (X1_pdf_draws_on_viewed_page Sample.signedPdf Sample.pdf Sample.dataUrl
           Sample.world [Sample.letter; Sample.a4] Sample.ink);
    try reflexivity; try discriminate.
  cbn. lia.
Defined.

(** X2. Every run of [handleDownload] has one of five shapes.  With
    [body] the drawing calls of the run: nothing at all (the guard); or
    the start of the download state, the body and its end (the canvas
    gave no context); or start, body, the download of the signed file
    and end; or start, body, the logged error, one alert and end; or
    start and body with the run left pending, the download state never
    ended. *)
Theorem X2_download_trace_shape (s : App.State) (w : ExportDoc.World) :
  let l := fst (ExportDoc.handleDownload s w) in
  let o := snd (ExportDoc.handleDownload s w) in
  let body := filter ExportTrace.is_drawing l in
  (l = [] /\ o = ExportDoc.Settled)
  \/ (l = ExportDoc.SetIsDownloading true :: body ++ [ExportDoc.SetIsDownloading false]
      /\ o = ExportDoc.Settled)
  \/ (exists f, App.file s = Some f
        /\ l = ExportDoc.SetIsDownloading true
               :: body ++ [ExportTrace.downloadOf f; ExportDoc.SetIsDownloading false]
        /\ o = ExportDoc.Settled)
  \/ (l = ExportDoc.SetIsDownloading true
            :: body ++ [ExportDoc.ConsoleError; ExportDoc.Alert;
                        ExportDoc.SetIsDownloading false]
      /\ o = ExportDoc.Settled)
  \/ (l = ExportDoc.SetIsDownloading true :: body /\ o = ExportDoc.Pending).
Proof.
  unfold ExportDoc.handleDownload, ExportTrace.downloadOf.
  destruct (App.file s) as [f|]; [|now left].
  destruct (ExportDoc.truthy (App.signature s)); [|now left].
  destruct (String.eqb (type f) "application/pdf") eqn:Ety.
  - unfold ExportDoc.exportPdf.
    destruct (ExportDoc.import_pdf_lib w), (ExportDoc.file_arrayBuffer w),
      (ExportDoc.PDFDocument_load w) as [pages|], (ExportDoc.fetch_signature w),
      (ExportDoc.embedPng w) as [png|]; cbn -[ExportDoc.drawImage_throws];
      try (right; right; right; left; split; reflexivity).
    destruct (ExportDoc.targetPage pages (App.pageNum s)) as [[i pg]|];
      cbn -[ExportDoc.drawImage_throws];
      try (right; right; right; left; split; reflexivity).
    destruct (ExportDoc.drawImage_throws _ _ _ _ _); cbn;
      try (right; right; right; left; split; reflexivity).
    destruct (ExportDoc.pdfDoc_save w); cbn.
    + right; right; left. exists f. rewrite Ety. repeat split; reflexivity.
    + right; right; right; left; split; reflexivity.
  - unfold ExportDoc.exportRaster.
    destruct (ExportDoc.getContext_2d w); [|right; left; split; reflexivity].
    destruct (ExportDoc.img_onload w) as [img|];
      [|right; right; right; right; split; reflexivity].
    destruct (ExportDoc.toDataURL w); cbn.
    + right; right; left. exists f. rewrite Ety. repeat split; reflexivity.
    + right; right; right; left; split; reflexivity.
Qed.

Lemma handleDownload_raster (s : App.State) (doc : File) (sig : string)
    (w : ExportDoc.World) :
  App.file s = Some doc ->
  type doc <> "application/pdf"%string ->
  App.signature s = Some sig ->
  sig <> ""%string ->
  ExportDoc.handleDownload s w =
  let (l, r) := ExportDoc.exportRaster s doc w in
  match r with
  | ExportDoc.Val _ | ExportDoc.Returned =>
      (ExportDoc.SetIsDownloading true :: l ++ [ExportDoc.SetIsDownloading false],
       ExportDoc.Settled)
  | ExportDoc.Thrown =>
      (ExportDoc.SetIsDownloading true
         :: l ++ [ExportDoc.ConsoleError; ExportDoc.Alert;
                  ExportDoc.SetIsDownloading false],
       ExportDoc.Settled)
  | ExportDoc.Waiting => (ExportDoc.SetIsDownloading true :: l, ExportDoc.Pending)
  end.
Proof.
  intros Hfile Htype Hsig Hne. unfold ExportDoc.handleDownload.
  rewrite Hfile, Hsig. apply String.eqb_neq in Htype. rewrite Htype.
  destruct sig; [congruence|reflexivity].
Qed.

(** X3. The two silent ends of the raster export.  Without a 2D context
    the run returns at once: the download state is set and cleared, and
    nothing is drawn, alerted or downloaded.  With a context and an image
    that never loads, the run stays pending: the download state is never
    cleared, and there is no alert, no download and no image drawn. *)
Theorem X3_raster_export_without_context_or_image
    (s : App.State) (doc : File) (sig : string) (w : ExportDoc.World) :
  App.file s = Some doc ->
  type doc <> "application/pdf"%string ->
  App.signature s = Some sig ->
  sig <> ""%string ->
  (ExportDoc.getContext_2d w = false ->
   ExportDoc.handleDownload s w =
   ([ExportDoc.SetIsDownloading true; ExportDoc.SetIsDownloading false],
    ExportDoc.Settled))
  /\ (ExportDoc.getContext_2d w = true -> ExportDoc.img_onload w = None ->
      snd (ExportDoc.handleDownload s w) = ExportDoc.Pending /\
      ExportDoc.count ExportTrace.is_stop (fst (ExportDoc.handleDownload s w)) = 0%nat /\
      ExportDoc.count ExportDoc.is_alert (fst (ExportDoc.handleDownload s w)) = 0%nat /\
      ExportDoc.count ExportDoc.is_download (fst (ExportDoc.handleDownload s w)) = 0%nat /\
      ExportTrace.drawnImages (fst (ExportDoc.handleDownload s w)) = []).
Proof.
  intros Hfile Htype Hsig Hne.
  rewrite (handleDownload_raster s doc sig w Hfile Htype Hsig Hne).
  unfold ExportDoc.exportRaster. split.
  - intros ->. reflexivity.
  - intros -> ->. cbn. repeat split.
Qed.

(** X3 for the signed sheet, without a context and without an image. *)
Lemma X3_raster_export_without_context_or_image_witness :
  ExportDoc.handleDownload Sample.signedSheet Sample.noContext =
  ([ExportDoc.SetIsDownloading true; ExportDoc.SetIsDownloading false],
   ExportDoc.Settled)
  /\ snd (ExportDoc.handleDownload Sample.signedSheet Sample.noImage) = ExportDoc.Pending.
Proof.
  split.
  - apply (proj1 (X3_raster_export_without_context_or_image Sample.signedSheet
                    Sample.sheet Sample.dataUrl Sample.noContext
                    eq_refl ltac:(discriminate) eq_refl ltac:(discriminate))).
    reflexivity.
  - apply (proj2 (X3_raster_export_without_context_or_image Sample.signedSheet
                    Sample.sheet Sample.dataUrl Sample.noImage
                    eq_refl ltac:(discriminate) eq_refl ltac:(discriminate)));
      reflexivity.
Defined.

(** The canvas calls of a run: none, the four of the header when the
    image never loads, or all ten. *)
Lemma canvas_calls_of_run (s : App.State) (w : ExportDoc.World) :
  canvasCmds (fst (ExportDoc.handleDownload s w)) = []
  \/ (exists t1 x1 y1 t2 x2 y2 a b c d a' b' c' d',
        canvasCmds (fst (ExportDoc.handleDownload s w)) =
        [ ExportDoc.fillRect a b c d; ExportDoc.strokeRect a' b' c' d';
          ExportDoc.fillText t1 x1 y1; ExportDoc.fillText t2 x2 y2 ])
  \/ (exists t1 x1 y1 t2 x2 y2 a b c d a' b' c' d' tx ty angle dx dy dw dh t3 x3 y3,
        canvasCmds (fst (ExportDoc.handleDownload s w)) =
        [ ExportDoc.fillRect a b c d; ExportDoc.strokeRect a' b' c' d';
          ExportDoc.fillText t1 x1 y1; ExportDoc.fillText t2 x2 y2;
          ExportDoc.save; ExportDoc.translate tx ty; ExportDoc.rotate angle;
          ExportDoc.drawImage dx dy dw dh; ExportDoc.restore;
          ExportDoc.fillText t3 x3 y3 ]).
Proof.
  unfold ExportDoc.handleDownload.
  destruct (App.file s) as [f|]; [|now left].
  destruct (ExportDoc.truthy (App.signature s)); [|now left].
  destruct (String.eqb (type f) "application/pdf").
  - left. unfold ExportDoc.exportPdf.
    destruct (ExportDoc.import_pdf_lib w), (ExportDoc.file_arrayBuffer w),
      (ExportDoc.PDFDocument_load w) as [pages|], (ExportDoc.fetch_signature w),
      (ExportDoc.embedPng w) as [png|]; try reflexivity.
    cbn -[ExportDoc.drawImage_throws].
    destruct (ExportDoc.targetPage pages (App.pageNum s)) as [[i pg]|];
      [|reflexivity].
    cbn -[ExportDoc.drawImage_throws].
    destruct (ExportDoc.drawImage_throws _ _ _ _ _); [reflexivity|].
    destruct (ExportDoc.pdfDoc_save w); reflexivity.
  - unfold ExportDoc.exportRaster.
    destruct (ExportDoc.getContext_2d w); [|now left].
    destruct (ExportDoc.img_onload w) as [img|].
    + right. right. destruct (ExportDoc.toDataURL w);
        cbn -[JS.add JS.sub JS.mul JS.div JS.neg JS.lit]; repeat eexists.
    + right. left. cbn -[JS.add JS.sub JS.mul JS.div JS.neg JS.lit]. repeat eexists.
Qed.

(** X4. The transform of the canvas does not leak: after every run the
    matrix of the context is the identity and its stack is empty, every
    text, also the one after the signature, is drawn under the identity,
    and at most one image is drawn. *)
Theorem X4_canvas_transform_never_leaks
    (Math_cos Math_sin : JS.num -> JS.num) (s : App.State) (w : ExportDoc.World) :
  let l := fst (ExportDoc.handleDownload s w) in
  ExportTrace.finalCtx Math_cos Math_sin l = (identity, [])
  /\ Forall (fun tm => snd tm = identity)
       (ExportTrace.textsUnder Math_cos Math_sin ((identity, []), []) (canvasCmds l))
  /\ (List.length (ExportTrace.drawnImages l) <= 1)%nat.
Proof.
  intro l. subst l.
  unfold ExportTrace.finalCtx, ExportTrace.drawnImages.
  destruct (canvas_calls_of_run s w) as [H|[H|H]].
  - rewrite H. cbn. repeat split; auto.
  - destruct H as (t1 & x1 & y1 & t2 & x2 & y2 & a & b & c & d & a' & b' & c' & d' & H).
    rewrite H. cbn. repeat split; auto.
  - destruct H as (t1 & x1 & y1 & t2 & x2 & y2 & a & b & c & d & a' & b' & c' & d'
                   & tx & ty & angle & dx & dy & dw & dh & t3 & x3 & y3 & H).
    rewrite H. cbn -[JS.add JS.sub JS.mul JS.div JS.neg JS.lit identity].
    repeat split; auto.
Qed.

(* ---------- names ---------- *)

Lemma length_app_string (p q : string) :
  String.length (p ++ q) = (String.length p + String.length q)%nat.
Proof. induction p as [|c p IH]; cbn; [reflexivity | now rewrite IH]. Qed.

Lemma substring_prefix_app (p q : string) :
  substring 0 (String.length p) (p ++ q) = p.
Proof.
  induction p as [|c p IH]; cbn.
  - destruct q; reflexivity.
  - now rewrite IH.
Qed.

Lemma substring_0_0 (s : string) : substring 0 0 s = EmptyString.
Proof. destruct s; reflexivity. Qed.

(** The extension is a suffix of the name. *)
Lemma filename_extension_suffix (s e : string) :
  FileUpload.filename_extension s = Some e -> exists p, s = (p ++ e)%string.
Proof.
  revert e. induction s as [|c r IH]; intros e H; [discriminate|].
  cbn [FileUpload.filename_extension] in H.
  destruct (FileUpload.filename_extension r) as [e'|].
  - injection H as <-. destruct (IH e' eq_refl) as [p Hp].
    exists (String c p). cbn. now rewrite <- Hp.
  - destruct (Ascii.eqb c "."); [|discriminate].
    injection H as <-. now exists EmptyString.
Qed.

(** X5. The name of the raster download.  For a name without a dot
    [basename] is empty (the whole name is taken for the extension); for
    a name that ends in a dot it is the whole name; for every other name
    it is the name without its extension: basename followed by the
    extension, dot included, is the name. *)
Theorem X5_basename_strips_the_extension (f : File) :
  (FileUpload.filename_extension (name f) = None ->
   ExportDoc.basename f = EmptyString)
  /\ (FileUpload.filename_extension (name f) = Some "."%string ->
      ExportDoc.basename f = name f)
  /\ (forall e, FileUpload.filename_extension (name f) = Some e ->
                e <> "."%string ->
                (ExportDoc.basename f ++ e)%string = name f).
Proof.
  unfold ExportDoc.basename.
  pose proof (split_extension (name f)) as S.
  split; [|split].
  - intro H. rewrite H in S. rewrite S. cbn [Str.pop].
    destruct (String.length (name f) =? 0)%nat eqn:E.
    + apply Nat.eqb_eq in E. destruct (name f); [reflexivity | discriminate].
    + unfold Str.slice_0_neg.
      replace (String.length (name f) - (String.length (name f) + 1))%nat with 0%nat by lia.
      apply substring_0_0.
  - intro H. rewrite H in S. destruct S as (h & t & seg & Hs & Ht & Hp & He).
    rewrite Hs, pop_cons, Hp by exact Ht.
    injection He as <-. reflexivity.
  - intros e H Hne. rewrite H in S. destruct S as (h & t & seg & Hs & Ht & Hp & He).
    rewrite Hs, pop_cons, Hp by exact Ht.
    destruct (String.length seg =? 0)%nat eqn:E.
    + apply Nat.eqb_eq in E. destruct seg; [congruence | discriminate].
    + destruct (filename_extension_suffix _ _ H) as [p Hp'].
      unfold Str.slice_0_neg. rewrite Hp' at 1 2. rewrite length_app_string.
      subst e. cbn [String.length].
      replace (String.length p + S (String.length seg) - (String.length seg + 1))%nat
        with (String.length p) by lia.
      rewrite substring_prefix_app. now rewrite <- Hp'.
Qed.

(** X5 for the names "pdf" and "contract.pdf". *)
Lemma X5_basename_strips_the_extension_witness :
  ExportDoc.basename Sample.dotless = EmptyString
  /\ (ExportDoc.basename Sample.pdf ++ ".pdf")%string = "contract.pdf"%string.
Proof.
  split.
  - apply (proj1 (X5_basename_strips_the_extension Sample.dotless)). reflexivity.
  - apply (proj2 (proj2 (X5_basename_strips_the_extension Sample.pdf)) ".pdf"%string);
      [reflexivity | discriminate].
Defined.

(* ---------- letter case ---------- *)

Lemma lower_ascii_dot (c : ascii) :
  Ascii.eqb (Str.lower_ascii c) "." = Ascii.eqb c ".".
Proof.
  destruct c as [[] [] [] [] [] [] [] []]; reflexivity.
Qed.

Lemma split_toLowerCase (s : string) :
  Str.split "." (Str.toLowerCase s) = map Str.toLowerCase (Str.split "." s).
Proof.
  induction s as [|c r IH]; [reflexivity|].
  cbn [Str.toLowerCase Str.split]. rewrite lower_ascii_dot, IH.
  destruct (Ascii.eqb c "."); [reflexivity|].
  destruct (Str.split "." r); reflexivity.
Qed.

Lemma pop_map {A B} (g : A -> B) (l : list A) :
  Str.pop (map g l) = option_map g (Str.pop l).
Proof.
  induction l as [|h t IH]; [reflexivity|].
  destruct t; [reflexivity|]. exact IH.
Qed.

(** The extension tested depends on the lower-case form of the name
    only. *)
Lemma fileExtension_lower (n t : string) :
  FileUpload.fileExtension {| name := n; type := t |}
  = match Str.pop (Str.split "." (Str.toLowerCase n)) with
    | Some seg => String "." seg
    | None => ".undefined"%string
    end.
Proof.
  unfold FileUpload.fileExtension. cbn [name].
  rewrite split_toLowerCase, pop_map.
  destruct (Str.pop (Str.split "." n)); reflexivity.
Qed.

(** X6. Validation does not look at the letter case of the name: two
    files of the same type whose names agree after lower-casing get the
    same verdict. *)
Theorem X6_validation_ignores_letter_case_of_name (n1 n2 t : string) :
  Str.toLowerCase n1 = Str.toLowerCase n2 ->
  FileUpload.validateFile {| name := n1; type := t |}
  = FileUpload.validateFile {| name := n2; type := t |}.
Proof.
  intro H. unfold FileUpload.validateFile.
  rewrite (fileExtension_lower n1 t), (fileExtension_lower n2 t), H. reflexivity.
Qed.

(** X6 for the names "Scan.PDF" and "scan.pdf". *)
Lemma X6_validation_ignores_letter_case_of_name_witness :
  FileUpload.validateFile {| name := "Scan.PDF"; type := "" |}
  = FileUpload.validateFile {| name := "scan.pdf"; type := "" |}.
Proof.
  apply X6_validation_ignores_letter_case_of_name. reflexivity.
Defined.

(* ---------- the drop zone ---------- *)

Module UploadFacts.
Import UploadZone.

Lemma validateFile_message (f : File) (err : string) :
  FileUpload.validateFile f = Some err -> err = rejection.
Proof.
  unfold FileUpload.validateFile.
  destruct (_ || _); [discriminate|]. intro H. now injection H as <-.
Qed.

Lemma processFile_cases (f : File) (s : State) :
  (FileUpload.validateFile f = None /\
   processFile f s = setTimeout (SelectTimer f) (setUploadState success s))
  \/ (FileUpload.validateFile f = Some rejection /\
      processFile f s =
      setTimeout ResetTimer (setUploadState error (setErrorMessage rejection s))).
Proof.
  unfold processFile, handleSuccessfulUpload.
  destruct (FileUpload.validateFile f) as [err|] eqn:E; [|now left].
  right. rewrite (validateFile_message f err E). split; reflexivity.
Qed.

Lemma processFile_safe (f : File) (s : State) :
  Forall (fun g => FileUpload.validateFile g = None) (selected s) ->
  Forall valid_timer (timers s) ->
  safe (processFile f s).
Proof.
  intros Hsel Htim.
  destruct (processFile_cases f s) as [[Hv ->]|[Hv ->]]; unfold safe; cbn.
  - repeat split; auto; [|discriminate].
    apply Forall_app. split; [exact Htim|]. constructor; [exact Hv | constructor].
  - repeat split; auto.
    apply Forall_app. split; [exact Htim|]. constructor; [exact I | constructor].
Qed.

Lemma Forall_remove_nth {A} (P : A -> Prop) (n : nat) (l : list A) :
  Forall P l -> Forall P (remove_nth n l).
Proof.
  revert n. induction l as [|h t IH]; intros n H; [destruct n; exact H|].
  inversion H; subst. destruct n; cbn; [assumption|].
  constructor; auto.
Qed.

Lemma step_safe (s s' : State) (ev : Event) :
  safe s -> step s ev = Some s' -> safe s'.
Proof.
  intros (Hsel & Htim & Herr) Hstep. destruct ev as [files|files| | |n]; cbn in Hstep.
  - destruct (inputDisabled s); [discriminate|]. injection Hstep as <-.
    destruct files as [|f rest]; cbn; [now repeat split|].
    now apply processFile_safe.
  - injection Hstep as <-. destruct files as [|f rest]; cbn.
    + unfold safe; cbn. repeat split; auto. intro; discriminate.
    + now apply processFile_safe.
  - injection Hstep as <-. unfold handleDragEnter.
    destruct (uploadState s) eqn:E; unfold safe; cbn; rewrite ?E;
      repeat split; auto; intro; discriminate.
  - injection Hstep as <-. unfold handleDragLeave.
    destruct (uploadState s) eqn:E; unfold safe; cbn; rewrite ?E;
      repeat split; auto; intro; discriminate.
  - destruct (nth_error (timers s) n) as [t|] eqn:N; [|discriminate].
    injection Hstep as <-.
    assert (Ht : valid_timer t).
    { rewrite Forall_forall in Htim. apply Htim. eapply nth_error_In. exact N. }
    destruct t as [f|]; unfold safe; cbn.
    + repeat split; auto using Forall_remove_nth.
      apply Forall_app. split; [exact Hsel|]. constructor; [exact Ht | constructor].
    + repeat split; auto using Forall_remove_nth. intro; discriminate.
Qed.

Lemma run_safe (evs : list Event) (s s' : State) :
  safe s -> run s evs = Some s' -> safe s'.
Proof.
  revert s. induction evs as [|ev rest IH]; intros s Hs Hrun; cbn in Hrun.
  - now injection Hrun as <-.
  - destruct (step s ev) as [s1|] eqn:St; [|discriminate].
    apply (IH s1); [|exact Hrun]. exact (step_safe s s1 ev Hs St).
Qed.

Lemma safe_initial : safe initial.
Proof. repeat split; try constructor. discriminate. Qed.

(* --- accounting --- *)

Lemma remove_nth_perm {A} (n : nat) (l : list A) (t : A) :
  nth_error l n = Some t -> Permutation l (t :: remove_nth n l).
Proof.
  revert n. induction l as [|h r IH]; intros n H; [destruct n; discriminate|].
  destruct n; cbn in *.
  - injection H as ->. reflexivity.
  - rewrite (IH n H) at 1. apply perm_swap.
Qed.

Lemma pendingOf_perm (l l' : list Timer) :
  Permutation l l' -> Permutation (pendingOf l) (pendingOf l').
Proof. apply Permutation_flat_map. Qed.

Lemma processFile_account (f : File) (s : State) :
  selected (processFile f s) = selected s /\
  pendingFiles (processFile f s)
  = (pendingFiles s ++
     match FileUpload.validateFile f with None => [f] | Some _ => [] end)%list.
Proof.
  destruct (processFile_cases f s) as [[Hv ->]|[Hv ->]]; rewrite Hv;
    unfold pendingFiles, pendingOf; cbn; rewrite flat_map_app; cbn; auto.
Qed.

Lemma step_account (s s' : State) (ev : Event) :
  step s ev = Some s' ->
  Permutation (selected s' ++ pendingFiles s')
              ((selected s ++ pendingFiles s) ++ offered ev).
Proof.
  intro Hstep. destruct ev as [files|files| | |n]; cbn in Hstep.
  - destruct (inputDisabled s); [discriminate|]. injection Hstep as <-.
    destruct files as [|f rest]; cbn [handleFileChange offered].
    + now rewrite app_nil_r.
    + destruct (processFile_account f s) as [-> ->]. now rewrite app_assoc.
  - injection Hstep as <-. destruct files as [|f rest]; cbn [handleDrop offered].
    + now rewrite app_nil_r.
    + destruct (processFile_account f (setUploadState idle s)) as [-> ->].
      now rewrite app_assoc.
  - injection Hstep as <-. cbn [offered]. rewrite app_nil_r.
    unfold handleDragEnter. now destruct (uploadState s).
  - injection Hstep as <-. cbn [offered]. rewrite app_nil_r.
    unfold handleDragLeave. now destruct (uploadState s).
  - destruct (nth_error (timers s) n) as [t|] eqn:N; [|discriminate].
    injection Hstep as <-. cbn [offered]. rewrite app_nil_r.
    pose proof (pendingOf_perm _ _ (remove_nth_perm n (timers s) t N)) as P.
    unfold pendingFiles. rewrite P.
    destruct t as [f|]; cbn.
    + rewrite <- app_assoc. cbn.
      apply Permutation_app_head. reflexivity.
    + reflexivity.
Qed.

Lemma run_account (evs : list Event) (s s' : State) :
  run s evs = Some s' ->
  Permutation (selected s' ++ pendingFiles s')
              ((selected s ++ pendingFiles s) ++ flat_map offered evs).
Proof.
  revert s. induction evs as [|ev rest IH]; intros s Hrun; cbn in Hrun.
  - injection Hrun as <-. cbn. now rewrite app_nil_r.
  - destruct (step s ev) as [s1|] eqn:St; [|discriminate].
    rewrite (IH s1 Hrun), (step_account s s1 ev St). cbn.
    now rewrite <- app_assoc.
Qed.

End UploadFacts.

(** X7. In every run of the drop zone, the files delivered through
    [onFileSelect] and the files waiting for delivery passed
    [validateFile], and the message shown in the state [error] is the
    rejection of [validateFile]. *)
Theorem X7_only_validated_files_are_selected
    (evs : list UploadZone.Event) (s : UploadZone.State) :
  UploadZone.run UploadZone.initial evs = Some s ->
  Forall (fun f => FileUpload.validateFile f = None) (UploadZone.selected s)
  /\ Forall (fun f => FileUpload.validateFile f = None) (UploadZone.pendingFiles s)
  /\ (UploadZone.uploadState s = UploadZone.error ->
      UploadZone.errorMessage s = UploadZone.rejection).
Proof.
  intro Hrun.
  destruct (UploadFacts.run_safe evs _ s UploadFacts.safe_initial Hrun)
    as (Hsel & Htim & Herr).
  repeat split; auto.
  unfold UploadZone.pendingFiles, UploadZone.pendingOf. apply Forall_flat_map.
  eapply Forall_impl; [|exact Htim].
  intros [f|] H; cbn in *; [constructor; [exact H | constructor] | constructor].
Qed.

(** X7 for a refused picture followed by an accepted sheet. *)
Lemma X7_only_validated_files_are_selected_witness :
  exists s, UploadZone.run UploadZone.initial Sessions.twoDrops = Some s
    /\ UploadZone.selected s = [Sample.sheet]
    /\ Forall (fun f => FileUpload.validateFile f = None) (UploadZone.selected s).
Proof.
  eexists. split; [reflexivity|]. split; [reflexivity|].
  apply (X7_only_validated_files_are_selected Sessions.twoDrops). reflexivity.
Defined.

(** X8. In every run of the drop zone, the files delivered together
    with the files waiting for delivery are, up to order, the files that
    were offered and passed validation: none is lost, none is delivered
    twice, and a second drop does not replace the first. *)
Theorem X8_each_accepted_file_is_delivered_once
    (evs : list UploadZone.Event) (s : UploadZone.State) :
  UploadZone.run UploadZone.initial evs = Some s ->
  Permutation (UploadZone.selected s ++ UploadZone.pendingFiles s)
              (flat_map UploadZone.offered evs).
Proof.
  intro Hrun. exact (UploadFacts.run_account evs _ s Hrun).
Qed.

(** X8 for the same session: the sheet is delivered, the picture is not. *)
Lemma X8_each_accepted_file_is_delivered_once_witness :
  exists s, UploadZone.run UploadZone.initial Sessions.twoDrops = Some s
    /\ Permutation (UploadZone.selected s ++ UploadZone.pendingFiles s) [Sample.sheet].
Proof.
  eexists. split; [reflexivity|].
  apply (X8_each_accepted_file_is_delivered_once Sessions.twoDrops). reflexivity.
Defined.

(* ---------- the modal ---------- *)

(** X9. "Apply Signature".  Without a pad or with an empty pad the
    state of the app is unchanged; when the signature changes, it is one
    that passes the guard of [handleDownload] and the modal is closed;
    file, placement and page number are never touched; and with a file
    present the next download starts. *)
Theorem X9_applied_signature_passes_the_download_guard
    (current : option SignatureModal.Pad) (s : App.State) :
  let s' := SignatureModal.applySignature current s in
  (current = None \/ (exists pad, current = Some pad /\ SignatureModal.isEmpty pad = true)
   -> s' = s)
  /\ (App.signature s' <> App.signature s ->
      ExportDoc.truthy (App.signature s') = true /\ App.isModalOpen s' = false)
  /\ App.file s' = App.file s
  /\ App.placement s' = App.placement s
  /\ App.pageNum s' = App.pageNum s
  /\ (App.signature s' <> App.signature s -> App.file s <> None ->
      forall w, hd_error (fst (ExportDoc.handleDownload s' w))
                = Some (ExportDoc.SetIsDownloading true)).
Proof.
  intro s'. subst s'. unfold SignatureModal.applySignature, SignatureModal.save.
  destruct current as [pad|].
  - destruct (SignatureModal.isEmpty pad) eqn:E.
    + repeat split; auto; try congruence.
    + destruct (ExportDoc.truthy (Some (SignatureModal.trimmedDataUrl pad))) eqn:T.
      * repeat split; auto.
        -- intros [H|(p & H & Hp)]; [discriminate|]. injection H as <-. congruence.
        -- intros _ Hfile w. unfold ExportDoc.handleDownload.
           cbn [App.handleSaveSignature App.file App.signature App.setIsModalOpen
                App.setSignature].
           destruct (App.file s) as [f|]; [|congruence]. rewrite T.
           match goal with
           | |- context [let (_, _) := ?e in _] => destruct e as [l r]
           end.
           destruct r; reflexivity.
      * repeat split; auto; try congruence.
  - repeat split; auto; try congruence.
Qed.

(** X9 without a pad, and with a pad that holds a drawing. *)
Lemma X9_applied_signature_passes_the_download_guard_witness :
  SignatureModal.applySignature None Sample.unsigned = Sample.unsigned
  /\ ExportDoc.truthy
       (App.signature (SignatureModal.applySignature (Some Sessions.signedPad)
                         Sample.unsigned)) = true.
Proof.
  split.
  - apply (proj1 (X9_applied_signature_passes_the_download_guard None Sample.unsigned)).
    left. reflexivity.
  - apply (proj1 (proj2 (X9_applied_signature_passes_the_download_guard
                           (Some Sessions.signedPad) Sample.unsigned))).
    discriminate.
Defined.

(* ---------- numbers on a grid of step 1/d ---------- *)

Lemma Q2Qc_frac (d : positive) (a b : Z) : a = b -> Q2Qc (a # d) = Q2Qc (b # d).
Proof. now intros ->. Qed.

Lemma frac_add (d : positive) (a b : Z) :
  (JS.lit (a # d) + JS.lit (b # d))%js = JS.lit ((a + b) # d).
Proof.
  unfold JS.lit. cbn [JS.add]. f_equal. apply Qc_is_canon.
  unfold Qcplus. cbn [this Q2Qc]. rewrite !Qred_correct.
  unfold Qeq, Qplus. cbn [Qnum Qden]. rewrite Pos2Z.inj_mul. ring.
Qed.

Lemma frac_sub (d : positive) (a b : Z) :
  (JS.lit (a # d) - JS.lit (b # d))%js = JS.lit ((a - b) # d).
Proof.
  unfold JS.lit, JS.sub. cbn [JS.add JS.neg]. f_equal. apply Qc_is_canon.
  unfold Qcplus, Qcopp. cbn [this Q2Qc]. rewrite !Qred_correct.
  unfold Qeq, Qplus, Qopp. cbn [Qnum Qden]. rewrite Pos2Z.inj_mul. ring.
Qed.

Lemma frac_compare (d : positive) (a b : Z) :
  (Q2Qc (a # d) ?= Q2Qc (b # d))%Qc = (a ?= b)%Z.
Proof.
  unfold Qccompare. cbn [this Q2Qc]. rewrite <- Qred_compare.
  unfold Qcompare. cbn [Qnum Qden].
  destruct (Z.compare_spec a b) as [E|E|E].
  - subst. apply Z.compare_refl.
  - apply Z.compare_lt_iff. nia.
  - apply Z.compare_gt_iff. nia.
Qed.

Lemma frac_ltb (d : positive) (a b : Z) :
  JS.ltb (JS.lit (a # d)) (JS.lit (b # d)) = (a <? b)%Z.
Proof.
  unfold JS.lit. cbn [JS.ltb]. rewrite frac_compare. unfold Z.ltb.
  now destruct (a ?= b)%Z.
Qed.

Lemma frac_leb (d : positive) (a b : Z) :
  JS.leb (JS.lit (a # d)) (JS.lit (b # d)) = (a <=? b)%Z.
Proof.
  unfold JS.lit. cbn [JS.leb]. rewrite frac_compare. unfold Z.leb.
  now destruct (a ?= b)%Z.
Qed.

Lemma frac_min (d : positive) (a b : Z) :
  JS.Math_min (JS.lit (a # d)) (JS.lit (b # d)) = JS.lit (Z.min a b # d).
Proof.
  unfold JS.lit at 1 2. rewrite Math_min_Fin. fold (JS.lit (a # d)) (JS.lit (b # d)).
  rewrite frac_ltb. unfold JS.lit.
  destruct (b <? a)%Z eqn:E; [apply Z.ltb_lt in E | apply Z.ltb_ge in E];
    f_equal; apply Q2Qc_frac; lia.
Qed.

Lemma frac_max (d : positive) (a b : Z) :
  JS.Math_max (JS.lit (a # d)) (JS.lit (b # d)) = JS.lit (Z.max a b # d).
Proof.
  unfold JS.lit at 1 2. rewrite Math_max_Fin. fold (JS.lit (a # d)) (JS.lit (b # d)).
  rewrite frac_ltb. unfold JS.lit.
  destruct (a <? b)%Z eqn:E; [apply Z.ltb_lt in E | apply Z.ltb_ge in E];
    f_equal; apply Q2Qc_frac; lia.
Qed.

Lemma zoom_constants :
  DocumentViewer.MIN_ZOOM = JS.lit (2 # 4)
  /\ DocumentViewer.MAX_ZOOM = JS.lit (12 # 4)
  /\ DocumentViewer.DEFAULT_ZOOM = JS.lit (4 # 4)
  /\ JS.lit 0.25 = JS.lit (1 # 4).
Proof. repeat split; apply num_eqb_true; reflexivity. Qed.

(** The zoom handlers on the grid of quarters: one step, stopped at the
    ends. *)
Lemma zoomIn_quarters (k : Z) :
  JS.Math_min (JS.lit (k # 4) + JS.lit 0.25)%js DocumentViewer.MAX_ZOOM
  = JS.lit (Z.min (k + 1) 12 # 4).
Proof.
  destruct zoom_constants as (_ & -> & _ & ->).
  now rewrite frac_add, frac_min.
Qed.

Lemma zoomOut_quarters (k : Z) :
  JS.Math_max (JS.lit (k # 4) - JS.lit 0.25)%js DocumentViewer.MIN_ZOOM
  = JS.lit (Z.max (k - 1) 2 # 4).
Proof.
  destruct zoom_constants as (-> & _ & _ & ->).
  now rewrite frac_sub, frac_max.
Qed.

(* ---------- the navigation bar ---------- *)

Module NavFacts.
Import DocumentViewer NavBar.

Lemma on_grid_quarters (z : JS.num) :
  on_grid z <-> exists m : Z, (2 <= m <= 12)%Z /\ z = JS.lit (m # 4).
Proof.
  unfold on_grid. split.
  - intros (k & Hk & ->). exists (k + 2)%Z. split; [lia | reflexivity].
  - intros (m & Hm & ->). exists (m - 2)%Z. split; [lia|].
    unfold JS.lit. f_equal. apply Q2Qc_frac. lia.
Qed.

Lemma loaded_reachable (n : Z) : reachable n (loaded n).
Proof.
  repeat split; cbn; try lia.
  apply on_grid_quarters. exists 4%Z. split; [lia|]. apply zoom_constants.
Qed.

Lemma apply_zoom_grid (v : Viewport) :
  on_grid (zoomLevel v) ->
  on_grid (zoomLevel (handleZoomIn v)) /\ on_grid (zoomLevel (handleZoomOut v)).
Proof.
  intro H. apply on_grid_quarters in H. destruct H as (m & Hm & Hz).
  unfold handleZoomIn, handleZoomOut. cbn [zoomLevel]. rewrite Hz.
  rewrite zoomIn_quarters, zoomOut_quarters.
  split; apply on_grid_quarters; eexists; (split; [|reflexivity]); lia.
Qed.

Lemma click_reachable (n : Z) (o : Op) (v : Viewport) :
  reachable n v -> reachable n (click o v).
Proof.
  intros (Hn & Hp & Hz). unfold click.
  destruct (shown v && negb (disabled o v)) eqn:E; [|now repeat split].
  apply andb_true_iff in E. destruct E as [Hs Hd].
  unfold shown in Hs. apply Z.ltb_lt in Hs. apply negb_true_iff in Hd.
  destruct o; cbn [DocumentViewer.apply disabled] in *.
  - split; [exact Hn|]. split; [exact Hp|]. now apply apply_zoom_grid.
  - split; [exact Hn|]. split; [exact Hp|]. now apply apply_zoom_grid.
  - unfold nextDisabled in Hd. apply Z.leb_gt in Hd.
    split; [exact Hn|]. split; [cbn; lia | exact Hz].
  - unfold previousDisabled in Hd. apply Z.leb_gt in Hd.
    split; [exact Hn|]. split; [cbn; lia | exact Hz].
Qed.

Lemma clicks_reachable (n : Z) (ops : list Op) (v : Viewport) :
  reachable n v -> reachable n (clicks ops v).
Proof.
  unfold clicks. revert v. induction ops as [|o ops IH]; intros v Hv; [exact Hv|].
  cbn [fold_left]. apply IH. now apply click_reachable.
Qed.

End NavFacts.

(** X10. Under clicks on the navigation bar, from the viewport of a
    freshly loaded document of [n] pages: the page count is unchanged,
    the page number stays within 1..max(1, n), and the zoom level stays
    on the grid of quarters from 0.5 to 3. *)
Theorem X10_navigation_bar_keeps_page_and_zoom_grid
    (n : Z) (ops : list DocumentViewer.Op) :
  let v := NavBar.clicks ops (DocumentViewer.loaded n) in
  DocumentViewer.numPages v = n
  /\ (1 <= DocumentViewer.pageNum v <= Z.max 1 n)%Z
  /\ NavBar.on_grid (DocumentViewer.zoomLevel v).
Proof.
  exact (NavFacts.clicks_reachable n ops _ (NavFacts.loaded_reachable n)).
Qed.

(** X11. A click on an enabled button of the bar moves by exactly one
    step, without clamping: one page, or one quarter of zoom. *)
Theorem X11_enabled_button_moves_exactly_one_step
    (n : Z) (ops : list DocumentViewer.Op) (o : DocumentViewer.Op) :
  let v := NavBar.clicks ops (DocumentViewer.loaded n) in
  NavBar.shown v = true ->
  NavBar.disabled o v = false ->
  match o with
  | DocumentViewer.NextPage =>
      DocumentViewer.pageNum (NavBar.click o v) = (DocumentViewer.pageNum v + 1)%Z
  | DocumentViewer.PreviousPage =>
      DocumentViewer.pageNum (NavBar.click o v) = (DocumentViewer.pageNum v - 1)%Z
  | DocumentViewer.ZoomIn =>
      DocumentViewer.zoomLevel (NavBar.click o v)
      = (DocumentViewer.zoomLevel v + JS.lit 0.25)%js
  | DocumentViewer.ZoomOut =>
      DocumentViewer.zoomLevel (NavBar.click o v)
      = (DocumentViewer.zoomLevel v - JS.lit 0.25)%js
  end.
Proof.
  intros v Hs Hd.
  destruct (NavFacts.clicks_reachable n ops _ (NavFacts.loaded_reachable n))
    as (Hn & Hp & Hz).
  fold v in Hn, Hp, Hz.
  unfold NavBar.click. rewrite Hs, Hd. cbn [andb negb].
  apply NavFacts.on_grid_quarters in Hz. destruct Hz as (m & Hm & Hz).
  destruct zoom_constants as (Hmin & Hmax & _ & Hq).
  destruct o; cbn [DocumentViewer.apply NavBar.disabled] in *.
  - unfold NavBar.zoomInDisabled in Hd. rewrite Hz, Hmax, frac_leb in Hd.
    apply Z.leb_gt in Hd.
    unfold DocumentViewer.handleZoomIn. cbn [DocumentViewer.zoomLevel].
    rewrite Hz, zoomIn_quarters, Hq, frac_add.
    unfold JS.lit. f_equal. apply Q2Qc_frac. lia.
  - unfold NavBar.zoomOutDisabled in Hd. rewrite Hz, Hmin, frac_leb in Hd.
    apply Z.leb_gt in Hd.
    unfold DocumentViewer.handleZoomOut. cbn [DocumentViewer.zoomLevel].
    rewrite Hz, zoomOut_quarters, Hq, frac_sub.
    unfold JS.lit. f_equal. apply Q2Qc_frac. lia.
  - unfold NavBar.nextDisabled in Hd. apply Z.leb_gt in Hd. cbn. lia.
  - unfold NavBar.previousDisabled in Hd. apply Z.leb_gt in Hd. cbn. lia.
Qed.

(** X11 for "next page" on a three-page document after one zoom step. *)
Lemma X11_enabled_button_moves_exactly_one_step_witness :
  DocumentViewer.pageNum
    (NavBar.click DocumentViewer.NextPage
       (NavBar.clicks [DocumentViewer.ZoomIn] (DocumentViewer.loaded 3)))
  = (DocumentViewer.pageNum
       (NavBar.clicks [DocumentViewer.ZoomIn] (DocumentViewer.loaded 3)) + 1)%Z.
Proof.
  apply (X11_enabled_button_moves_exactly_one_step 3 [DocumentViewer.ZoomIn]
           DocumentViewer.NextPage); reflexivity.
Defined.

(* ---------- steps that undo each other ---------- *)

(** X12. On the grid of quarters, zoom steps undo each other away from
    the bounds (zoom in then out from 0.5..2.75, zoom out then in from
    0.75..3) and stop at the bounds (zoom in from 3 or more gives 3,
    zoom out from 0.5 or less gives 0.5); page steps undo each other
    away from the first and the last page. *)
Theorem X12_viewport_steps_undo_each_other (v : DocumentViewer.Viewport) (m : Z) :
  DocumentViewer.zoomLevel v = JS.lit (m # 4) ->
  ((2 <= m <= 11)%Z ->
   DocumentViewer.handleZoomOut (DocumentViewer.handleZoomIn v) = v)
  /\ ((3 <= m <= 12)%Z ->
      DocumentViewer.handleZoomIn (DocumentViewer.handleZoomOut v) = v)
  /\ ((12 <= m)%Z ->
      DocumentViewer.zoomLevel (DocumentViewer.handleZoomIn v) = DocumentViewer.MAX_ZOOM)
  /\ ((m <= 2)%Z ->
      DocumentViewer.zoomLevel (DocumentViewer.handleZoomOut v) = DocumentViewer.MIN_ZOOM)
  /\ ((1 <= DocumentViewer.pageNum v < DocumentViewer.numPages v)%Z ->
      DocumentViewer.goToPreviousPage (DocumentViewer.goToNextPage v) = v)
  /\ ((1 < DocumentViewer.pageNum v <= DocumentViewer.numPages v)%Z ->
      DocumentViewer.goToNextPage (DocumentViewer.goToPreviousPage v) = v).
Proof.
  destruct v as [p n z]. cbn [DocumentViewer.zoomLevel]. intros ->.
  unfold DocumentViewer.handleZoomOut, DocumentViewer.handleZoomIn,
    DocumentViewer.goToPreviousPage, DocumentViewer.goToNextPage.
  cbn [DocumentViewer.pageNum DocumentViewer.numPages DocumentViewer.zoomLevel].
  destruct zoom_constants as (Hmin & Hmax & _ & _).
  repeat split.
  - intro H. f_equal. rewrite zoomIn_quarters, zoomOut_quarters.
    unfold JS.lit. f_equal. apply Q2Qc_frac. lia.
  - intro H. f_equal. rewrite zoomOut_quarters, zoomIn_quarters.
    unfold JS.lit. f_equal. apply Q2Qc_frac. lia.
  - intro H. rewrite zoomIn_quarters, Hmax.
    unfold JS.lit. f_equal. apply Q2Qc_frac. lia.
  - intro H. rewrite zoomOut_quarters, Hmin.
    unfold JS.lit. f_equal. apply Q2Qc_frac. lia.
  - intro H. f_equal. lia.
  - intro H. f_equal. lia.
Qed.

(** X12 at page 1 and zoom 1 of a three-page document. *)
Lemma X12_viewport_steps_undo_each_other_witness :
  DocumentViewer.handleZoomOut (DocumentViewer.handleZoomIn (DocumentViewer.loaded 3))
  = DocumentViewer.loaded 3
  /\ DocumentViewer.goToPreviousPage
       (DocumentViewer.goToNextPage (DocumentViewer.loaded 3))
     = DocumentViewer.loaded 3.
Proof.
  pose proof (X12_viewport_steps_undo_each_other (DocumentViewer.loaded 3) 4
                (proj1 (proj2 (proj2 zoom_constants)))) as H.
  split.
  - apply (proj1 H). lia.
  - apply (proj1 (proj2 (proj2 (proj2 (proj2 H))))). cbn. lia.
Defined.

(** X13. For a whole number of pixels, the size steps undo each other
    away from the bounds (increase then decrease from 50..290, decrease
    then increase from 60..300) and stop at them (increase from 290 or
    more gives 300, decrease from 60 or less gives 50). *)
Theorem X13_size_steps_undo_each_other (s : App.State) (n : Z) :
  App.signatureSize s = JS.lit (n # 1) ->
  ((50 <= n <= 290)%Z ->
   SignaturePreview.handleDecreaseSignatureSize
     (SignaturePreview.handleIncreaseSignatureSize s) = s)
  /\ ((60 <= n <= 300)%Z ->
      SignaturePreview.handleIncreaseSignatureSize
        (SignaturePreview.handleDecreaseSignatureSize s) = s)
  /\ ((290 <= n)%Z ->
      App.signatureSize (SignaturePreview.handleIncreaseSignatureSize s)
      = SignaturePreview.MAX_SIG_SIZE)
  /\ ((n <= 60)%Z ->
      App.signatureSize (SignaturePreview.handleDecreaseSignatureSize s)
      = SignaturePreview.MIN_SIG_SIZE).
Proof.
  intro Hs. destruct s as [f sg mo dl sz rot pos pn]. cbn in Hs. subst sz.
  unfold SignaturePreview.handleDecreaseSignatureSize,
    SignaturePreview.handleIncreaseSignatureSize, App.setSignatureSize.
  cbn [App.signatureSize App.file App.signature App.isModalOpen App.isDownloading
       App.signatureRotation App.signaturePosition App.pageNum].
  unfold SignaturePreview.MIN_SIG_SIZE, SignaturePreview.MAX_SIG_SIZE.
  repeat split.
  - intro H. f_equal. rewrite frac_add, frac_min, frac_sub, frac_max.
    unfold JS.lit. f_equal. apply Q2Qc_frac. lia.
  - intro H. f_equal. rewrite frac_sub, frac_max, frac_add, frac_min.
    unfold JS.lit. f_equal. apply Q2Qc_frac. lia.
  - intro H. rewrite frac_add, frac_min.
    unfold JS.lit. f_equal. apply Q2Qc_frac. lia.
  - intro H. rewrite frac_sub, frac_max.
    unfold JS.lit. f_equal. apply Q2Qc_frac. lia.
Qed.

(** X13 at the initial size of 150 pixels. *)
Lemma X13_size_steps_undo_each_other_witness :
  SignaturePreview.handleDecreaseSignatureSize
    (SignaturePreview.handleIncreaseSignatureSize App.initial) = App.initial.
Proof.
  apply (proj1 (X13_size_steps_undo_each_other App.initial 150 eq_refl)). lia.
Defined.

(* ---------- the drag at the edges ---------- *)

Lemma div_Fin_Fin (p q : Qc) :
  q <> 0%Qc -> (JS.Fin p / JS.Fin q)%js = JS.Fin (p / q)%Qc.
Proof.
  intro Hq. simpl. destruct (q ?= 0)%Qc eqn:E; try reflexivity.
  apply Qceq_alt in E. contradiction.
Qed.

(** [Math.max(0, Math.min(1, q))] of a finite [q]. *)
Lemma clamp01_Fin (q : Qc) :
  SignaturePreview.clamp01 (JS.Fin q) =
  JS.Fin (if JS.ltb (JS.Fin q) (JS.lit 1)
          then (if JS.ltb (JS.lit 0) (JS.Fin q) then q else Q2Qc 0)
          else Q2Qc 1).
Proof.
  unfold SignaturePreview.clamp01, JS.lit. rewrite Math_min_Fin.
  destruct (JS.ltb (JS.Fin q) (JS.Fin (Q2Qc 1))); [|reflexivity].
  now rewrite Math_max_Fin.
Qed.

(** The clamped quotient [d / w] for a positive [w] is 0 for [d <= 0]
    and 1 for [w <= d]. *)
Lemma clamp01_quotient_ends (d w : Qc) :
  (0 < w)%Qc ->
  ((d <= 0)%Qc -> SignaturePreview.clamp01 (JS.Fin d / JS.Fin w)%js = JS.lit 0)
  /\ ((w <= d)%Qc -> SignaturePreview.clamp01 (JS.Fin d / JS.Fin w)%js = JS.lit 1).
Proof.
  intro Hw.
  assert (Hw0 : w <> 0%Qc).
  { intro E. subst. exact (Qclt_not_eq _ _ Hw eq_refl). }
  rewrite (div_Fin_Fin d w Hw0), clamp01_Fin.
  assert (Hq : ((d / w) * w = d)%Qc) by (field; exact Hw0).
  remember (d / w)%Qc as q eqn:Eq. clear Eq.
  assert (Hlt1 : (q < 1)%Qc -> (d < w)%Qc).
  { rewrite <- Hq. intro H.
    rewrite <- (Qcmult_1_l w) at 2. now apply Qcmult_lt_compat_r. }
  assert (Hgt0 : (0 < q)%Qc -> (0 < d)%Qc).
  { rewrite <- Hq. intro H.
    rewrite <- (Qcmult_0_l w). now apply Qcmult_lt_compat_r. }
  unfold JS.lit. split; intro C.
  - destruct (JS.ltb (JS.Fin q) (JS.Fin (Q2Qc 1))) eqn:E1.
    + destruct (JS.ltb (JS.Fin (Q2Qc 0)) (JS.Fin q)) eqn:E2; [|reflexivity].
      apply ltb_Fin in E2. change (Q2Qc 0) with 0%Qc in E2.
      exfalso. exact (Qclt_not_le _ _ (Hgt0 E2) C).
    + apply ltb_Fin_false in E1. change (Q2Qc 1) with 1%Qc in E1.
      exfalso. apply (Qclt_not_le _ _ Hw).
      apply (Qcle_trans _ d); [|exact C].
      rewrite <- Hq. rewrite <- (Qcmult_1_l w) at 1.
      apply Qcmult_le_compat_r; [exact E1 | now apply Qclt_le_weak].
  - destruct (JS.ltb (JS.Fin q) (JS.Fin (Q2Qc 1))) eqn:E1; [|reflexivity].
    apply ltb_Fin in E1. change (Q2Qc 1) with 1%Qc in E1.
    exfalso. exact (Qclt_not_le _ _ (Hlt1 E1) C).
Qed.

(** X14. A drag over a container with an extent pins the signature at
    the edges: a pointer at or left of the left edge gives x = 0, at or
    beyond the right edge x = 1, at or above the top edge y = 0, at or
    below the bottom edge y = 1. *)
Theorem X14_drag_pins_the_signature_at_the_edges
    (r : DOMRect) (ev : MouseEvent) (s : App.State) :
  JS.is_finite (clientX ev) = true -> JS.is_finite (clientY ev) = true ->
  JS.is_finite (left r) = true -> JS.is_finite (top r) = true ->
  JS.is_finite (rectWidth r) = true -> JS.is_finite (rectHeight r) = true ->
  JS.ltb (JS.lit 0) (rectWidth r) = true ->
  JS.ltb (JS.lit 0) (rectHeight r) = true ->
  let p := App.signaturePosition (SignaturePreview.dragMouseMove r ev s) in
  (JS.leb (clientX ev - left r)%js (JS.lit 0) = true -> x p = JS.lit 0)
  /\ (JS.leb (rectWidth r) (clientX ev - left r)%js = true -> x p = JS.lit 1)
  /\ (JS.leb (clientY ev - top r)%js (JS.lit 0) = true -> y p = JS.lit 0)
  /\ (JS.leb (rectHeight r) (clientY ev - top r)%js = true -> y p = JS.lit 1).
Proof.
  intros Hcx Hcy Hl Ht Hw Hh Hwpos Hhpos p. subst p.
  destruct r as [l t w h]. destruct ev as [cx cy].
  cbn [clientX clientY left top rectWidth rectHeight] in *.
  destruct (finite_inv _ Hcx) as [qcx ->]. destruct (finite_inv _ Hcy) as [qcy ->].
  destruct (finite_inv _ Hl) as [ql ->]. destruct (finite_inv _ Ht) as [qt ->].
  destruct (finite_inv _ Hw) as [qw ->]. destruct (finite_inv _ Hh) as [qh ->].
  clear Hcx Hcy Hl Ht Hw Hh.
  unfold JS.lit in Hwpos, Hhpos. apply ltb_Fin in Hwpos, Hhpos.
  change (Q2Qc 0) with 0%Qc in Hwpos, Hhpos.
  unfold SignaturePreview.dragMouseMove.
  cbn [App.signaturePosition App.setSignaturePosition x y
       clientX clientY left top rectWidth rectHeight].
  unfold JS.sub. cbn [JS.add JS.neg].
  destruct (clamp01_quotient_ends (qcx + - ql) qw Hwpos) as [Hx0 Hx1].
  destruct (clamp01_quotient_ends (qcy + - qt) qh Hhpos) as [Hy0 Hy1].
  repeat split; intro H; unfold JS.lit in H; apply leb_Fin in H.
  - apply Hx0. exact H.
  - apply Hx1. exact H.
  - apply Hy0. exact H.
  - apply Hy1. exact H.
Qed.

(** X14 for a pointer far to the right of and above the container. *)
Lemma X14_drag_pins_the_signature_at_the_edges_witness :
  x (App.signaturePosition
       (SignaturePreview.dragMouseMove Sample.box Sample.farAway App.initial)) = JS.lit 1
  /\ y (App.signaturePosition
          (SignaturePreview.dragMouseMove Sample.box Sample.farAway App.initial))
     = JS.lit 0.
Proof.
  pose proof (X14_drag_pins_the_signature_at_the_edges Sample.box Sample.farAway
                App.initial eq_refl eq_refl eq_refl eq_refl eq_refl eq_refl
                eq_refl eq_refl) as H.
  split.
  - apply (proj1 (proj2 H)). reflexivity.
  - apply (proj1 (proj2 (proj2 H))). reflexivity.
Defined.

Module LoaderFacts.
Import PdfLoader.










End LoaderFacts.

(** X15. The outcomes of [loadPdf].  It always ends with [isLoading]
    false.  For a file that is no PDF nothing else changes.  For a PDF
    the document of the closure is destroyed, zoom and canvas size are
    reset, and either the decoded document and its page count are stored
    without an error, or (buffer unreadable, empty, or rejected by the
    decoder) one error is logged, the page count is 0, and the state
    keeps the document that was just destroyed. *)
Theorem X15_load_outcomes
    (isPdf : bool) (task : option nat) (w : PdfLoader.World) (s : PdfLoader.State) :
  let run := PdfLoader.effect isPdf (PdfLoader.pdfDoc s) task w in
  let s' := PdfLoader.loadPdf isPdf task w s in
  PdfLoader.isLoading s' = false
  /\ (isPdf = false ->
      run = [PdfLoader.SetIsLoading false]
      /\ PdfLoader.pdfDoc s' = PdfLoader.pdfDoc s
      /\ PdfLoader.numPages s' = PdfLoader.numPages s
      /\ PdfLoader.zoomLevel s' = PdfLoader.zoomLevel s)
  /\ (isPdf = true ->
      PdfLoader.destroyed run = PdfLoader.opt_list (PdfLoader.pdfDoc s) (fun d => d)
      /\ PdfLoader.zoomLevel s' = DocumentViewer.DEFAULT_ZOOM
      /\ PdfLoader.canvasSize s' = {| width := JS.lit 0; height := JS.lit 0 |}
      /\ (forall len d n,
            PdfLoader.arrayBuffer_byteLength w = Some len -> len <> 0%Z ->
            PdfLoader.getDocument w = Some (d, n) ->
            PdfLoader.pdfDoc s' = Some d /\ PdfLoader.numPages s' = n
            /\ PdfLoader.errors run = 0%nat)
      /\ (PdfLoader.arrayBuffer_byteLength w = None
          \/ PdfLoader.arrayBuffer_byteLength w = Some 0%Z
          \/ PdfLoader.getDocument w = None ->
          PdfLoader.pdfDoc s' = PdfLoader.pdfDoc s /\ PdfLoader.numPages s' = 0%Z
          /\ PdfLoader.errors run = 1%nat)).
Proof.
  intros run s'. subst run s'. unfold PdfLoader.loadPdf, PdfLoader.effect.
  destruct s as [doc np z cs ld]. cbn [PdfLoader.pdfDoc PdfLoader.numPages
    PdfLoader.zoomLevel PdfLoader.canvasSize PdfLoader.isLoading].
  destruct isPdf.
  - split; [|split; [discriminate|intros _]].
    + destruct task, doc, (PdfLoader.arrayBuffer_byteLength w) as [len|];
        try destruct (len =? 0)%Z; try destruct (PdfLoader.getDocument w) as [[pdf pgs]|];
        reflexivity.
    + split; [|split; [|split; [|split]]].
      * destruct task, doc, (PdfLoader.arrayBuffer_byteLength w) as [len|];
          try destruct (len =? 0)%Z;
          try destruct (PdfLoader.getDocument w) as [[pdf pgs]|]; reflexivity.
      * destruct task, doc, (PdfLoader.arrayBuffer_byteLength w) as [len|];
          try destruct (len =? 0)%Z;
          try destruct (PdfLoader.getDocument w) as [[pdf pgs]|]; reflexivity.
      * destruct task, doc, (PdfLoader.arrayBuffer_byteLength w) as [len|];
          try destruct (len =? 0)%Z;
          try destruct (PdfLoader.getDocument w) as [[pdf pgs]|]; reflexivity.
      * intros len d n -> Hlen ->. apply Z.eqb_neq in Hlen. rewrite Hlen.
        destruct task, doc; repeat split.
      * intros [H|[H|H]]; rewrite H.
        -- destruct task, doc; repeat split.
        -- destruct task, doc; repeat split.
        -- destruct task, doc, (PdfLoader.arrayBuffer_byteLength w) as [len|];
             try destruct (len =? 0)%Z; repeat split.
  - split; [reflexivity|]. split; [intros _; repeat split | discriminate].
Qed.

(** X15 for a load that succeeds followed by one that the decoder
    rejects: the state keeps document 1, which the second load destroyed. *)
Lemma X15_load_outcomes_witness :
  PdfLoader.pdfDoc (PdfLoader.loadPdf true None (Sessions.decodes 1 3) PdfLoader.mounted)
  = Some 1%nat
  /\ PdfLoader.pdfDoc
       (PdfLoader.loadPdf true None Sessions.corrupt
          (PdfLoader.loadPdf true None (Sessions.decodes 1 3) PdfLoader.mounted))
     = Some 1%nat
  /\ PdfLoader.destroyed
       (PdfLoader.effect true (Some 1%nat) None Sessions.corrupt) = [1%nat].
Proof.
  split; [|split].
  - apply (proj1 (proj2 (proj2 (proj2 (proj2 (proj2
             (X15_load_outcomes true None (Sessions.decodes 1 3) PdfLoader.mounted))
             eq_refl)))) 2048%Z 1%nat 3%Z eq_refl ltac:(discriminate) eq_refl).
  - apply (proj2 (proj2 (proj2 (proj2 (proj2 (proj2
             (X15_load_outcomes true None Sessions.corrupt
                (PdfLoader.loadPdf true None (Sessions.decodes 1 3) PdfLoader.mounted)))
             eq_refl))))).
    right. right. reflexivity.
  - apply (proj1 (proj2 (proj2
             (X15_load_outcomes true None Sessions.corrupt
                (PdfLoader.loadPdf true None (Sessions.decodes 1 3) PdfLoader.mounted)))
             eq_refl)).
Defined.



(** In that life document 1 is destroyed twice, by the second load and
    by the cleanup at the unmount. *)
Example loader_destroys_replaced_document_twice :
  PdfLoader.destroyed
    (PdfLoader.log
       (PdfLoader.life [ PdfLoader.FileSet true None (Sessions.decodes 1 3);
                         PdfLoader.FileSet true None (Sessions.decodes 2 5);
                         PdfLoader.Unmount ]))
  = [1%nat; 1%nat].
Proof. reflexivity. Qed.

(* ---------- icon and label ---------- *)

(** X17. A file type shown with the warning icon is named by the
    generic label "Document". *)
Theorem X17_warning_icon_goes_with_the_generic_label (t : string) :
  FileLabels.getFileIcon t = FileLabels.ExclamationTriangleIcon ->
  FileLabels.getFriendlyFileType t = "Document"%string.
Proof.
  unfold FileLabels.getFileIcon.
  destruct (FileLabels.includes "pdf" t) eqn:Hpdf; [discriminate|].
  destruct (FileLabels.includes "word" t) eqn:Hword; [discriminate|].
  destruct (FileLabels.includes "sheet" t) eqn:Hsheet; [discriminate|].
  destruct (FileLabels.includes "excel" t) eqn:Hexcel; [discriminate|].
  destruct (FileLabels.includes "csv" t) eqn:Hcsv; [discriminate|].
  intros _. unfold FileLabels.getFriendlyFileType.
  rewrite Hword, Hsheet, Hexcel.
  repeat match goal with
         | |- context [String.eqb t ?c] =>
             let E := fresh "E" in
             destruct (String.eqb t c) eqn:E;
             [ apply String.eqb_eq in E; subst t;
               first [ vm_compute in Hpdf; discriminate
                     | vm_compute in Hword; discriminate
                     | vm_compute in Hsheet; discriminate
                     | vm_compute in Hexcel; discriminate
                     | vm_compute in Hcsv; discriminate ] | ]
         end.
  reflexivity.
Qed.

(** X17 for the empty type of a file accepted by its extension alone. *)
Lemma X17_warning_icon_goes_with_the_generic_label_witness :
  FileLabels.getFriendlyFileType "" = "Document"%string.
Proof.
  apply X17_warning_icon_goes_with_the_generic_label. reflexivity.
Defined.

(** X18. Every MIME type the upload accepts has an icon other than the
    warning icon and a label other than the generic one, and icon and
    label name the same family. *)
Theorem X18_accepted_types_have_icon_and_label (t : string) :
  In t FileUpload.ALLOWED_MIME_TYPES ->
  FileLabels.getFileIcon t <> FileLabels.ExclamationTriangleIcon
  /\ FileLabels.getFriendlyFileType t <> "Document"%string
  /\ (FileLabels.getFileIcon t = FileLabels.FileWordIcon <->
      FileLabels.getFriendlyFileType t = "Microsoft Word Document"%string)
  /\ (FileLabels.getFileIcon t = FileLabels.FileExcelIcon <->
      FileLabels.getFriendlyFileType t = "Microsoft Excel Spreadsheet"%string)
  /\ (FileLabels.getFileIcon t = FileLabels.FileCsvIcon <->
      FileLabels.getFriendlyFileType t = "CSV File"%string)
  /\ (FileLabels.getFileIcon t = FileLabels.FilePdfIcon <->
      FileLabels.getFriendlyFileType t = "PDF Document"%string).
Proof.
  intro H. cbn in H.
  repeat (destruct H as [<-|H]; [vm_compute; repeat split; intro; discriminate|]).
  contradiction.
Qed.

(** X18 for "text/csv". *)
Lemma X18_accepted_types_have_icon_and_label_witness :
  FileLabels.getFileIcon "text/csv" <> FileLabels.ExclamationTriangleIcon.
Proof.
  apply (X18_accepted_types_have_icon_and_label "text/csv").
  cbn. tauto.
Defined.
